(** * libOpenflow: the OXM match codec (openflow15) and the framed
      message stream (util), embedded in Rocq.

    Go values are modelled as follows.
    - [uint8], [uint16], [uint32], [uint64] and [int] are [Z]; every
      place where Go truncates (a conversion such as [byte(v)], an
      addition on [uint16]) is written out with [byte], [wrap8], [wrap16].
    - a byte is a [Z] in [0, 256); a [[]byte] is a [list Z].  A [nil]
      slice and an empty slice are both [[]] (the code only ever takes
      [len] of them and copies from or into them).
    - an interface value ([util.Message]) that may be [nil] is an
      [option Message].
    - a function that can return an [error] or raise a run-time panic
      returns a [result]. *)

From Stdlib Require Import ZArith List Bool Lia.
Import ListNotations.
Open Scope Z_scope.

(** ** Results: a returned value, a returned error, or a run-time panic *)

Inductive panic : Type :=
| IndexOutOfRange        (* b[i] with i >= len(b) *)
| SliceBoundsOutOfRange  (* b[i:] with i > len(b) *)
| NilDereference         (* method call on a nil interface *)
| MakeSliceLenOutOfRange. (* make([]byte, n) with n < 0 *)

Inductive error : Type :=
| ErrWrongSize                                   (* "The byte array has wrong size to unmarshal ..." *)
| ErrHeaderTooShort                              (* "the []byte is too short to unmarshal MatchField header" *)
| ErrUnsupportedExperimenter (id class : Z)      (* "Unsupported experimenter id: %d in class: %d " *)
| ErrUnhandledField (field class : Z)            (* "unhandled Field: %d in Class: %d" *)
| ErrUnknownNxm1Field (field : Z)                (* "unknown field for nxm_1: %v" *)
| ErrUnknownPacketRegsField (field : Z)          (* "unknown field for packet_regs: %v" *)
| ErrUnknownExperimenterField (field : Z)        (* "unknown field for experimenter: %v" *)
| ErrUnsupportedMatchField (field class : Z)     (* "Unsupported match field: %d in class: %d" *)
| ErrInvalidLength (totalLen : Z)                (* "invalid message with length %d is received" *)
| ErrConnRead.                                   (* an error returned by conn.Read *)

Inductive result (A : Type) : Type :=
| Ok (a : A)
| Err (e : error)
| Panic (p : panic).

Arguments Ok {A} a.
Arguments Err {A} e.
Arguments Panic {A} p.

Definition bind {A B : Type} (r : result A) (k : A -> result B) : result B :=
  match r with
  | Ok a => k a
  | Err e => Err e
  | Panic p => Panic p
  end.

Notation "x <- r ;; k" := (bind r (fun x => k))
  (at level 61, r at next level, right associativity).

(** The unknown-oxm-field errors of the specification's taxonomy. *)
Definition is_unknown_oxm_field (e : error) : bool :=
  match e with
  | ErrUnhandledField _ _ | ErrUnknownNxm1Field _ | ErrUnknownPacketRegsField _
  | ErrUnknownExperimenterField _ | ErrUnsupportedMatchField _ _ => true
  | _ => false
  end.

(** ** Fixed-width integers *)

Definition wrap8 (v : Z) : Z := v mod 256.
Definition wrap16 (v : Z) : Z := v mod 65536.
Definition wrap32 (v : Z) : Z := v mod 4294967296.

(** [byte(v)]: the low eight bits. *)
Definition byte (v : Z) : Z := Z.land v 255.

(** ** Slices *)

Definition len (b : list Z) : Z := Z.of_nat (length b).

(** [make([]byte, n)] for [n >= 0]. *)
Definition make (n : Z) : list Z := repeat 0 (Z.to_nat n).

(** [b[i]] *)
Definition index (b : list Z) (i : Z) : result Z :=
  if (0 <=? i) && (i <? len b) then Ok (nth (Z.to_nat i) b 0)
  else Panic IndexOutOfRange.

(** [b[i:]] *)
Definition slice_from (b : list Z) (i : Z) : result (list Z) :=
  if (0 <=? i) && (i <=? len b) then Ok (skipn (Z.to_nat i) b)
  else Panic SliceBoundsOutOfRange.

(** [b[:j]] *)
Definition slice_to (b : list Z) (j : Z) : result (list Z) :=
  if (0 <=? j) && (j <=? len b) then Ok (firstn (Z.to_nat j) b)
  else Panic SliceBoundsOutOfRange.

(** [copy(dst, src)]: the first [min(len(dst), len(src))] bytes of [dst]
    are overwritten; the result is the new content of [dst]. *)
Definition copy (dst src : list Z) : list Z :=
  firstn (length dst) src ++ skipn (length src) dst.

(** [copy(data[n:], src)] seen from [data]; [data[n:]] panics when
    [n > len(data)]. *)
Definition copy_at (data : list Z) (n : Z) (src : list Z) : result (list Z) :=
  tl <- slice_from data n ;;
  Ok (firstn (Z.to_nat n) data ++ copy tl src).

(** [data[n] = v] *)
Definition set_index (data : list Z) (n : Z) (v : Z) : result (list Z) :=
  if (0 <=? n) && (n <? len data)
  then Ok (firstn (Z.to_nat n) data ++ v :: skipn (S (Z.to_nat n)) data)
  else Panic IndexOutOfRange.

(** ** encoding/binary, big endian *)

Definition be_bytes16 (v : Z) : list Z := [byte (Z.shiftr v 8); byte v].
Definition be_bytes32 (v : Z) : list Z :=
  [byte (Z.shiftr v 24); byte (Z.shiftr v 16); byte (Z.shiftr v 8); byte v].
Definition be_bytes64 (v : Z) : list Z :=
  [byte (Z.shiftr v 56); byte (Z.shiftr v 48); byte (Z.shiftr v 40); byte (Z.shiftr v 32);
   byte (Z.shiftr v 24); byte (Z.shiftr v 16); byte (Z.shiftr v 8); byte v].

(** The value of big-endian bytes, most significant first. *)
Definition be_value (b : list Z) : Z :=
  fold_left (fun acc x => Z.lor (Z.shiftl acc 8) x) b 0.

(** [binary.BigEndian.Uint16(b)]: bounds check on [b[1]], then the value. *)
Definition BigEndian_Uint16 (b : list Z) : result Z :=
  if len b <? 2 then Panic IndexOutOfRange else Ok (be_value (firstn 2 b)).
Definition BigEndian_Uint32 (b : list Z) : result Z :=
  if len b <? 4 then Panic IndexOutOfRange else Ok (be_value (firstn 4 b)).
Definition BigEndian_Uint64 (b : list Z) : result Z :=
  if len b <? 8 then Panic IndexOutOfRange else Ok (be_value (firstn 8 b)).

(** [binary.BigEndian.PutUint16(data[n:], v)] seen from [data]. *)
Definition BigEndian_PutUint16 (data : list Z) (n : Z) (v : Z) : result (list Z) :=
  tl <- slice_from data n ;;
  if len tl <? 2 then Panic IndexOutOfRange else copy_at data n (be_bytes16 v).

(** ** package net *)

Definition v4InV6Prefix : list Z := [0; 0; 0; 0; 0; 0; 0; 0; 0; 0; 255; 255].

(** [net.IPv4(a, b, c, d)]: the 16-byte form. *)
Definition net_IPv4 (a b c d : Z) : list Z := v4InV6Prefix ++ [a; b; c; d].

(** [ip.To4()]: the 4-byte form, or nil when [ip] is not an IPv4 address. *)
Definition To4 (ip : list Z) : list Z :=
  if len ip =? 4 then ip
  else if (len ip =? 16) && forallb (Z.eqb 0) (firstn 10 ip)
          && (nth 10 ip 0 =? 255) && (nth 11 ip 0 =? 255)
       then skipn 12 ip
       else [].

(** ** OXM constants *)

Definition MatchType_OXM : Z := 1.

Definition OXM_CLASS_NXM_0 : Z := 0x0000.
Definition OXM_CLASS_NXM_1 : Z := 0x0001.
Definition OXM_CLASS_OPENFLOW_BASIC : Z := 0x8000.
Definition OXM_CLASS_PACKET_REGS : Z := 0x8001.
Definition OXM_CLASS_EXPERIMENTER : Z := 0xFFFF.
Definition ONF_EXPERIMENTER_ID : Z := 0x4f4e4600.

Definition OXM_FIELD_IN_PORT : Z := 0.
Definition OXM_FIELD_IN_PHY_PORT : Z := 1.
Definition OXM_FIELD_METADATA : Z := 2.
Definition OXM_FIELD_ETH_DST : Z := 3.
Definition OXM_FIELD_ETH_SRC : Z := 4.
Definition OXM_FIELD_ETH_TYPE : Z := 5.
Definition OXM_FIELD_VLAN_VID : Z := 6.
Definition OXM_FIELD_VLAN_PCP : Z := 7.
Definition OXM_FIELD_IP_DSCP : Z := 8.
Definition OXM_FIELD_IP_ECN : Z := 9.
Definition OXM_FIELD_IP_PROTO : Z := 10.
Definition OXM_FIELD_IPV4_SRC : Z := 11.
Definition OXM_FIELD_IPV4_DST : Z := 12.
Definition OXM_FIELD_TCP_SRC : Z := 13.
Definition OXM_FIELD_TCP_DST : Z := 14.
Definition OXM_FIELD_UDP_SRC : Z := 15.
Definition OXM_FIELD_UDP_DST : Z := 16.
Definition OXM_FIELD_SCTP_SRC : Z := 17.
Definition OXM_FIELD_SCTP_DST : Z := 18.
Definition OXM_FIELD_ICMPV4_TYPE : Z := 19.
Definition OXM_FIELD_ICMPV4_CODE : Z := 20.
Definition OXM_FIELD_ARP_OP : Z := 21.
Definition OXM_FIELD_ARP_SPA : Z := 22.
Definition OXM_FIELD_ARP_TPA : Z := 23.
Definition OXM_FIELD_ARP_SHA : Z := 24.
Definition OXM_FIELD_ARP_THA : Z := 25.
Definition OXM_FIELD_IPV6_SRC : Z := 26.
Definition OXM_FIELD_IPV6_DST : Z := 27.
Definition OXM_FIELD_IPV6_FLABEL : Z := 28.
Definition OXM_FIELD_ICMPV6_TYPE : Z := 29.
Definition OXM_FIELD_ICMPV6_CODE : Z := 30.
Definition OXM_FIELD_IPV6_ND_TARGET : Z := 31.
Definition OXM_FIELD_IPV6_ND_SLL : Z := 32.
Definition OXM_FIELD_IPV6_ND_TLL : Z := 33.
Definition OXM_FIELD_MPLS_LABEL : Z := 34.
Definition OXM_FIELD_MPLS_TC : Z := 35.
Definition OXM_FIELD_MPLS_BOS : Z := 36.
Definition OXM_FIELD_PBB_ISID : Z := 37.
Definition OXM_FIELD_TUNNEL_ID : Z := 38.
Definition OXM_FIELD_IPV6_EXTHDR : Z := 39.
Definition OXM_FIELD_PBB_UCA : Z := 41.
Definition OXM_FIELD_TCP_FLAGS : Z := 42.
Definition OXM_FIELD_ACTSET_OUTPUT : Z := 43.
Definition OXM_FIELD_PACKET_TYPE : Z := 44.

Definition NXM_NX_REG0 : Z := 0.
Definition NXM_NX_REG1 : Z := 1.
Definition NXM_NX_REG2 : Z := 2.
Definition NXM_NX_REG3 : Z := 3.
Definition NXM_NX_REG4 : Z := 4.
Definition NXM_NX_REG5 : Z := 5.
Definition NXM_NX_REG6 : Z := 6.
Definition NXM_NX_REG7 : Z := 7.
Definition NXM_NX_REG8 : Z := 8.
Definition NXM_NX_REG9 : Z := 9.
Definition NXM_NX_REG10 : Z := 10.
Definition NXM_NX_REG11 : Z := 11.
Definition NXM_NX_REG12 : Z := 12.
Definition NXM_NX_REG13 : Z := 13.
Definition NXM_NX_REG14 : Z := 14.
Definition NXM_NX_REG15 : Z := 15.
Definition NXM_NX_TUN_ID : Z := 16.
Definition NXM_NX_ARP_SHA : Z := 17.
Definition NXM_NX_ARP_THA : Z := 18.
Definition NXM_NX_IPV6_SRC : Z := 19.
Definition NXM_NX_IPV6_DST : Z := 20.
Definition NXM_NX_ICMPV6_TYPE : Z := 21.
Definition NXM_NX_ICMPV6_CODE : Z := 22.
Definition NXM_NX_ND_TARGET : Z := 23.
Definition NXM_NX_ND_SLL : Z := 24.
Definition NXM_NX_ND_TLL : Z := 25.
Definition NXM_NX_IP_FRAG : Z := 26.
Definition NXM_NX_IPV6_LABEL : Z := 27.
Definition NXM_NX_IP_ECN : Z := 28.
Definition NXM_NX_IP_TTL : Z := 29.
Definition NXM_NX_MPLS_TTL : Z := 30.
Definition NXM_NX_TUN_IPV4_SRC : Z := 31.
Definition NXM_NX_TUN_IPV4_DST : Z := 32.
Definition NXM_NX_PKT_MARK : Z := 33.
Definition NXM_NX_TCP_FLAGS : Z := 34.
Definition NXM_NX_DP_HASH : Z := 35.
Definition NXM_NX_RECIRC_ID : Z := 36.
Definition NXM_NX_CONJ_ID : Z := 37.
Definition NXM_NX_TUN_GBP_ID : Z := 38.
Definition NXM_NX_TUN_GBP_FLAGS : Z := 39.
Definition NXM_NX_TUN_METADATA0 : Z := 40.
Definition NXM_NX_TUN_METADATA1 : Z := 41.
Definition NXM_NX_TUN_METADATA2 : Z := 42.
Definition NXM_NX_TUN_METADATA3 : Z := 43.
Definition NXM_NX_TUN_METADATA4 : Z := 44.
Definition NXM_NX_TUN_METADATA5 : Z := 45.
Definition NXM_NX_TUN_METADATA6 : Z := 46.
Definition NXM_NX_TUN_METADATA7 : Z := 47.
Definition NXM_NX_TUN_FLAGS : Z := 104.
Definition NXM_NX_CT_STATE : Z := 105.
Definition NXM_NX_CT_ZONE : Z := 106.
Definition NXM_NX_CT_MARK : Z := 107.
Definition NXM_NX_CT_LABEL : Z := 108.
Definition NXM_NX_TUN_IPV6_SRC : Z := 109.
Definition NXM_NX_TUN_IPV6_DST : Z := 110.
Definition NXM_NX_XXREG0 : Z := 111.
Definition NXM_NX_XXREG1 : Z := 112.
Definition NXM_NX_XXREG2 : Z := 113.
Definition NXM_NX_XXREG3 : Z := 114.
Definition NXM_NX_CT_NW_PROTO : Z := 119.
Definition NXM_NX_CT_NW_SRC : Z := 120.
Definition NXM_NX_CT_NW_DST : Z := 121.
Definition NXM_NX_CT_IPV6_SRC : Z := 122.
Definition NXM_NX_CT_IPV6_DST : Z := 123.
Definition NXM_NX_CT_TP_SRC : Z := 124.
Definition NXM_NX_CT_TP_DST : Z := 125.

Definition OXM_PACKET_REG0 : Z := 0.
Definition OXM_PACKET_REG1 : Z := 1.
Definition OXM_PACKET_REG2 : Z := 2.
Definition OXM_PACKET_REG3 : Z := 3.
Definition OXM_PACKET_REG4 : Z := 4.
Definition OXM_PACKET_REG5 : Z := 5.
Definition OXM_PACKET_REG6 : Z := 6.
Definition OXM_PACKET_REG7 : Z := 7.

Definition OFPVID_PRESENT : Z := 0x1000.

(** ** Payload messages: the concrete types behind [util.Message]

    One constructor per Go struct, carrying the struct's fields. *)

Inductive Message : Type :=
| InPortField (InPort : Z)
| InPhyPortField (InPhyPort : Z)
| MetadataField (Metadata : Z)
| EthDstField (EthDst : list Z)
| EthSrcField (EthSrc : list Z)
| EthTypeField (EthType : Z)
| VlanIdField (VlanId : Z)
| VlanPcpField (VlanPcp : Z)
| MplsLabelField (MplsLabel : Z)
| MplsTcField (MplsTc : Z)
| MplsBosField (MplsBos : Z)
| Ipv4SrcField (Ipv4Src : list Z)
| Ipv4DstField (Ipv4Dst : list Z)
| Ipv6SrcField (Ipv6Src : list Z)
| Ipv6FLabelField (FLabel : Z)
| Ipv6DstField (Ipv6Dst : list Z)
| IpEcnField (IpEcn : Z)
| IpProtoField (Protocol : Z)
| IpDscpField (Dscp : Z)
| PbbIsidField (PbbIsid : Z)
| TunnelIdField (TunnelId : Z)
| PortField (Port : Z)
| Ipv6ExtHdrField (Ipv6ExtHdr : Z)
| TcpFlagsField (TcpFlags : Z)
| ArpOperField (ArpOper : Z)
| TunnelIpv4SrcField (TunnelIpv4Src : list Z)
| TunnelIpv4DstField (TunnelIpv4Dst : list Z)
| TtlField (Ttl : Z)
| ArpXHaField (ArpHa : list Z)
| ArpXPaField (ArpPa : list Z)
| ActsetOutputField (OutputPort : Z)
| IcmpTypeField (Type_ : Z)
| IcmpCodeField (Code : Z)
| PacketTypeField (Namespace NsType : Z)
(* The four types below are used by DecodeMatchField but declared in a
   file of the repository that is not among the sources. *)
| Uint32Message (Data : Z)
| Uint16Message (Data : Z)
| ByteArrayField (Data : list Z) (Length : Z)
| CTLabel (data : list Z).

(** Modelled from the spec: the declarations of [Uint32Message] and
    [Uint16Message] are missing.  The payload catalog gives the u32 shape
    (4 bytes: NX regs, PKT_MARK, CONJ_ID, CT_STATE, CT_MARK) and the u16
    shape (2 bytes: CT_ZONE); the wire primitives are big-endian and
    every reader fails with short-buffer when fewer bytes than required
    are available. *)
Definition Uint32Message_Len : Z := 4.
Definition Uint16Message_Len : Z := 2.

Definition Uint32Message_UnmarshalBinary (b : list Z) : result Message :=
  if len b <? Uint32Message_Len then Err ErrWrongSize
  else v <- BigEndian_Uint32 b ;; Ok (Uint32Message v).

Definition Uint16Message_UnmarshalBinary (b : list Z) : result Message :=
  if len b <? Uint16Message_Len then Err ErrWrongSize
  else v <- BigEndian_Uint16 b ;; Ok (Uint16Message v).

(** Modelled from the spec: the declaration of [ByteArrayField] is
    missing.  A byte-array field stores a fixed-length buffer; its
    [length] attribute is the payload length, and the [Len()] it reports
    equals that per-side size; its reader fails with short-buffer when
    fewer bytes are available. *)
Definition ByteArrayField_Len (Length : Z) : Z := Length.

Definition ByteArrayField_MarshalBinary (Data : list Z) (Length : Z) : list Z :=
  copy (make (ByteArrayField_Len Length)) Data.

Definition ByteArrayField_UnmarshalBinary (Length : Z) (b : list Z) : result Message :=
  if len b <? ByteArrayField_Len Length then Err ErrWrongSize
  else Ok (ByteArrayField (firstn (Z.to_nat (ByteArrayField_Len Length)) b) Length).

(** Modelled from the spec: the declaration of [CTLabel] is missing.
    DecodeMatchField creates it with [new(CTLabel)] and hands it only the
    data, never the header's length or mask bit, so its size is a
    constant of the type: the connection-tracking label is 128 bits wide,
    a 16-byte array.  Its reader fails with short-buffer on fewer
    bytes. *)
Definition CTLabel_Len : Z := 16.

Definition CTLabel_MarshalBinary (data : list Z) : list Z :=
  copy (make CTLabel_Len) data.

Definition CTLabel_UnmarshalBinary (b : list Z) : result Message :=
  if len b <? CTLabel_Len then Err ErrWrongSize
  else Ok (CTLabel (firstn (Z.to_nat CTLabel_Len) b)).

(** [Len()] of each payload type. *)
Definition Message_Len (m : Message) : Z :=
  match m with
  | InPortField _ | InPhyPortField _ => 4
  | MetadataField _ => 8
  | EthDstField _ | EthSrcField _ => 6
  | EthTypeField _ | VlanIdField _ => 2
  | VlanPcpField _ => 1
  | MplsLabelField _ => 4
  | MplsTcField _ | MplsBosField _ => 1
  | Ipv4SrcField _ | Ipv4DstField _ => 4
  | Ipv6SrcField _ | Ipv6DstField _ => 16
  | Ipv6FLabelField _ => 4
  | IpEcnField _ | IpProtoField _ | IpDscpField _ => 1
  | PbbIsidField _ => 4
  | TunnelIdField _ => 8
  | PortField _ | Ipv6ExtHdrField _ | TcpFlagsField _ | ArpOperField _ => 2
  | TunnelIpv4SrcField _ | TunnelIpv4DstField _ => 4
  | TtlField _ => 1
  | ArpXHaField _ => 6
  | ArpXPaField _ => 4
  | ActsetOutputField _ => 4
  | IcmpTypeField _ | IcmpCodeField _ => 1
  | PacketTypeField _ _ => 4
  | Uint32Message _ => Uint32Message_Len
  | Uint16Message _ => Uint16Message_Len
  | ByteArrayField _ Length => ByteArrayField_Len Length
  | CTLabel _ => CTLabel_Len
  end.

(** [MarshalBinary()] of each payload type.  None of them returns an
    error or can panic: each allocates [Len()] bytes and fills them. *)
Definition Message_MarshalBinary (m : Message) : list Z :=
  match m with
  | InPortField v | InPhyPortField v | MplsLabelField v | Ipv6FLabelField v
  | PbbIsidField v | ActsetOutputField v | Uint32Message v => be_bytes32 v
  | MetadataField v | TunnelIdField v => be_bytes64 v
  | EthDstField a | EthSrcField a | ArpXHaField a => copy (make 6) a
  | EthTypeField v | VlanIdField v | PortField v | Ipv6ExtHdrField v
  | TcpFlagsField v | ArpOperField v | Uint16Message v => be_bytes16 v
  | VlanPcpField v | MplsTcField v | MplsBosField v | IpEcnField v
  | IpProtoField v | IpDscpField v | TtlField v | IcmpTypeField v
  | IcmpCodeField v => [byte v]
  | Ipv4SrcField ip | Ipv4DstField ip | TunnelIpv4SrcField ip
  | TunnelIpv4DstField ip | ArpXPaField ip => copy (make 4) (To4 ip)
  | Ipv6SrcField ip | Ipv6DstField ip => copy (make 16) ip
  | PacketTypeField ns ty => be_bytes16 ns ++ be_bytes16 ty
  | ByteArrayField d l => ByteArrayField_MarshalBinary d l
  | CTLabel d => CTLabel_MarshalBinary d
  end.

(** [net.IPv4(data[0], data[1], data[2], data[3])] *)
Definition read_IPv4 (b : list Z) : result (list Z) :=
  b0 <- index b 0 ;; b1 <- index b 1 ;; b2 <- index b 2 ;; b3 <- index b 3 ;;
  Ok (net_IPv4 b0 b1 b2 b3).

(** [m.UnmarshalBinary(data)]: [m] is the receiver as it is before the
    call, the result is the receiver after it. *)
Definition Message_UnmarshalBinary (m : Message) (b : list Z) : result Message :=
  match m with
  | InPortField _ => v <- BigEndian_Uint32 b ;; Ok (InPortField v)
  | InPhyPortField _ => v <- BigEndian_Uint32 b ;; Ok (InPhyPortField v)
  | MetadataField _ => v <- BigEndian_Uint64 b ;; Ok (MetadataField v)
  | EthDstField a => Ok (EthDstField (copy a b))
  | EthSrcField a => Ok (EthSrcField (copy a b))
  | EthTypeField _ => v <- BigEndian_Uint16 b ;; Ok (EthTypeField v)
  | VlanIdField _ => v <- BigEndian_Uint16 b ;; Ok (VlanIdField v)
  | VlanPcpField _ => v <- index b 0 ;; Ok (VlanPcpField v)
  | MplsLabelField _ => v <- BigEndian_Uint32 b ;; Ok (MplsLabelField v)
  | MplsTcField _ => v <- index b 0 ;; Ok (MplsTcField v)
  | MplsBosField _ => v <- index b 0 ;; Ok (MplsBosField v)
  | Ipv4SrcField _ => ip <- read_IPv4 b ;; Ok (Ipv4SrcField ip)
  | Ipv4DstField _ => ip <- read_IPv4 b ;; Ok (Ipv4DstField ip)
  | Ipv6SrcField _ => Ok (Ipv6SrcField (copy (make 16) b))
  | Ipv6DstField _ => Ok (Ipv6DstField (copy (make 16) b))
  | Ipv6FLabelField _ =>
      if len b <? 4 then Err ErrWrongSize
      else v <- BigEndian_Uint32 b ;; Ok (Ipv6FLabelField v)
  | IpEcnField _ => v <- index b 0 ;; Ok (IpEcnField v)
  | IpProtoField _ => v <- index b 0 ;; Ok (IpProtoField v)
  | IpDscpField _ => v <- index b 0 ;; Ok (IpDscpField v)
  | PbbIsidField _ =>
      if len b <? 4 then Err ErrWrongSize
      else v <- BigEndian_Uint32 b ;; Ok (PbbIsidField v)
  | TunnelIdField _ => v <- BigEndian_Uint64 b ;; Ok (TunnelIdField v)
  | PortField _ => v <- BigEndian_Uint16 b ;; Ok (PortField v)
  | Ipv6ExtHdrField _ =>
      if len b <? 2 then Err ErrWrongSize
      else v <- BigEndian_Uint16 b ;; Ok (Ipv6ExtHdrField v)
  | TcpFlagsField _ => v <- BigEndian_Uint16 b ;; Ok (TcpFlagsField v)
  | ArpOperField _ => v <- BigEndian_Uint16 b ;; Ok (ArpOperField v)
  | TunnelIpv4SrcField _ => ip <- read_IPv4 b ;; Ok (TunnelIpv4SrcField ip)
  | TunnelIpv4DstField _ => ip <- read_IPv4 b ;; Ok (TunnelIpv4DstField ip)
  | TtlField _ =>
      if len b <? 1 then Err ErrWrongSize
      else v <- index b 0 ;; Ok (TtlField v)
  | ArpXHaField a =>
      if len b <? 6 then Err ErrWrongSize
      else d <- slice_to b 6 ;; Ok (ArpXHaField (copy a d))
  | ArpXPaField _ =>
      if len b <? 4 then Err ErrWrongSize
      else ip <- read_IPv4 b ;; Ok (ArpXPaField ip)
  | ActsetOutputField _ => v <- BigEndian_Uint32 b ;; Ok (ActsetOutputField v)
  | IcmpTypeField _ =>
      if len b <? 1 then Err ErrWrongSize
      else v <- index b 0 ;; Ok (IcmpTypeField v)
  | IcmpCodeField _ =>
      if len b <? 1 then Err ErrWrongSize
      else v <- index b 0 ;; Ok (IcmpCodeField v)
  | PacketTypeField _ _ =>
      ns <- BigEndian_Uint16 b ;;
      tl <- slice_from b 2 ;;
      ty <- BigEndian_Uint16 tl ;;
      Ok (PacketTypeField ns ty)
  | Uint32Message _ => Uint32Message_UnmarshalBinary b
  | Uint16Message _ => Uint16Message_UnmarshalBinary b
  | ByteArrayField _ l => ByteArrayField_UnmarshalBinary l b
  | CTLabel _ => CTLabel_UnmarshalBinary b
  end.

(** [val.UnmarshalBinary(data)] through the interface: [val] may be nil. *)
Definition call_UnmarshalBinary (val : option Message) (b : list Z) : result Message :=
  match val with
  | None => Panic NilDereference
  | Some m => Message_UnmarshalBinary m b
  end.

(** ** DecodeMatchField

    A Go [switch] over constant cases: the first case equal to the tag is
    taken; [None] stands for the [default] branch. *)
Fixpoint switch {A : Type} (tag : Z) (cases : list (Z * A)) : option A :=
  match cases with
  | [] => None
  | (k, v) :: rest => if tag =? k then Some v else switch tag rest
  end.

(** The cases of [switch field] under OXM_CLASS_OPENFLOW_BASIC, each with
    the receiver [new(T)] it assigns to [val]. *)
Definition basic_cases : list (Z * option Message) :=
  [ (OXM_FIELD_IN_PORT, Some (InPortField 0));
    (OXM_FIELD_IN_PHY_PORT, Some (InPhyPortField 0));
    (OXM_FIELD_METADATA, Some (MetadataField 0));
    (OXM_FIELD_ETH_DST, Some (EthDstField []));
    (OXM_FIELD_ETH_SRC, Some (EthSrcField []));
    (OXM_FIELD_ETH_TYPE, Some (EthTypeField 0));
    (OXM_FIELD_VLAN_VID, Some (VlanIdField 0));
    (OXM_FIELD_VLAN_PCP, Some (VlanPcpField 0));
    (OXM_FIELD_IP_DSCP, Some (IpDscpField 0));
    (OXM_FIELD_IP_ECN, Some (IpEcnField 0));
    (OXM_FIELD_IP_PROTO, Some (IpProtoField 0));
    (OXM_FIELD_IPV4_SRC, Some (Ipv4SrcField []));
    (OXM_FIELD_IPV4_DST, Some (Ipv4DstField []));
    (OXM_FIELD_TCP_SRC, Some (PortField 0));
    (OXM_FIELD_TCP_DST, Some (PortField 0));
    (OXM_FIELD_UDP_SRC, Some (PortField 0));
    (OXM_FIELD_UDP_DST, Some (PortField 0));
    (OXM_FIELD_SCTP_SRC, Some (PortField 0));
    (OXM_FIELD_SCTP_DST, Some (PortField 0));
    (OXM_FIELD_ICMPV4_TYPE, Some (IcmpTypeField 0));
    (OXM_FIELD_ICMPV4_CODE, Some (IcmpCodeField 0));
    (OXM_FIELD_ARP_OP, Some (ArpOperField 0));
    (OXM_FIELD_ARP_SPA, Some (ArpXPaField []));
    (OXM_FIELD_ARP_TPA, Some (ArpXPaField []));
    (OXM_FIELD_ARP_SHA, Some (ArpXHaField []));
    (OXM_FIELD_ARP_THA, Some (ArpXHaField []));
    (OXM_FIELD_IPV6_SRC, Some (Ipv6SrcField []));
    (OXM_FIELD_IPV6_DST, Some (Ipv6DstField []));
    (OXM_FIELD_IPV6_FLABEL, Some (Ipv6FLabelField 0));
    (OXM_FIELD_ICMPV6_TYPE, Some (IcmpTypeField 0));
    (OXM_FIELD_ICMPV6_CODE, Some (IcmpCodeField 0));
    (OXM_FIELD_IPV6_ND_TARGET, Some (Ipv6DstField []));
    (OXM_FIELD_IPV6_ND_SLL, Some (EthSrcField []));
    (OXM_FIELD_IPV6_ND_TLL, Some (EthDstField []));
    (OXM_FIELD_MPLS_LABEL, Some (MplsLabelField 0));
    (OXM_FIELD_MPLS_TC, Some (MplsTcField 0));
    (OXM_FIELD_MPLS_BOS, Some (MplsBosField 0));
    (OXM_FIELD_PBB_ISID, Some (PbbIsidField 0));
    (OXM_FIELD_TUNNEL_ID, Some (TunnelIdField 0));
    (OXM_FIELD_IPV6_EXTHDR, Some (Ipv6ExtHdrField 0));
    (OXM_FIELD_TCP_FLAGS, Some (TcpFlagsField 0));
    (OXM_FIELD_ACTSET_OUTPUT, Some (ActsetOutputField 0)) ].

(** [msg := new(ByteArrayField)] with [msg.Length] set from the header:
    [length] when there is no mask, [length / 2] otherwise. *)
Definition new_ByteArrayField (length : Z) (hasMask : bool) : Message :=
  ByteArrayField [] (if negb hasMask then length else length / 2).

(** The cases under OXM_CLASS_NXM_1.  [var val util.Message] starts as
    nil, and a case with an empty body leaves it nil ([None]): Go does
    not fall through to the next case without [fallthrough]. *)
Definition nxm1_cases (length : Z) (hasMask : bool) : list (Z * option Message) :=
  [ (NXM_NX_REG0, Some (Uint32Message 0));
    (NXM_NX_REG1, Some (Uint32Message 0));
    (NXM_NX_REG2, Some (Uint32Message 0));
    (NXM_NX_REG3, Some (Uint32Message 0));
    (NXM_NX_REG4, Some (Uint32Message 0));
    (NXM_NX_REG5, Some (Uint32Message 0));
    (NXM_NX_REG6, Some (Uint32Message 0));
    (NXM_NX_REG7, Some (Uint32Message 0));
    (NXM_NX_REG8, Some (Uint32Message 0));
    (NXM_NX_REG9, Some (Uint32Message 0));
    (NXM_NX_REG10, Some (Uint32Message 0));
    (NXM_NX_REG11, Some (Uint32Message 0));
    (NXM_NX_REG12, Some (Uint32Message 0));
    (NXM_NX_REG13, Some (Uint32Message 0));
    (NXM_NX_REG14, Some (Uint32Message 0));
    (NXM_NX_REG15, Some (Uint32Message 0));
    (NXM_NX_TUN_ID, None);
    (NXM_NX_ARP_SHA, Some (ArpXHaField []));
    (NXM_NX_ARP_THA, Some (ArpXHaField []));
    (NXM_NX_IPV6_SRC, Some (Ipv6SrcField []));
    (NXM_NX_IPV6_DST, Some (Ipv6DstField []));
    (NXM_NX_ICMPV6_TYPE, Some (IcmpTypeField 0));
    (NXM_NX_ICMPV6_CODE, Some (IcmpCodeField 0));
    (NXM_NX_ND_TARGET, Some (Ipv6DstField []));
    (NXM_NX_ND_SLL, Some (EthDstField []));
    (NXM_NX_ND_TLL, Some (EthSrcField []));
    (NXM_NX_IP_FRAG, None);
    (NXM_NX_IPV6_LABEL, None);
    (NXM_NX_IP_ECN, None);
    (NXM_NX_IP_TTL, Some (TtlField 0));
    (NXM_NX_MPLS_TTL, None);
    (NXM_NX_TUN_IPV4_SRC, Some (TunnelIpv4SrcField []));
    (NXM_NX_TUN_IPV4_DST, Some (TunnelIpv4DstField []));
    (NXM_NX_PKT_MARK, Some (Uint32Message 0));
    (NXM_NX_TCP_FLAGS, None);
    (NXM_NX_DP_HASH, None);
    (NXM_NX_RECIRC_ID, None);
    (NXM_NX_CONJ_ID, Some (Uint32Message 0));
    (NXM_NX_TUN_GBP_ID, None);
    (NXM_NX_TUN_GBP_FLAGS, None);
    (NXM_NX_TUN_METADATA0, Some (new_ByteArrayField length hasMask));
    (NXM_NX_TUN_METADATA1, Some (new_ByteArrayField length hasMask));
    (NXM_NX_TUN_METADATA2, Some (new_ByteArrayField length hasMask));
    (NXM_NX_TUN_METADATA3, Some (new_ByteArrayField length hasMask));
    (NXM_NX_TUN_METADATA4, Some (new_ByteArrayField length hasMask));
    (NXM_NX_TUN_METADATA5, Some (new_ByteArrayField length hasMask));
    (NXM_NX_TUN_METADATA6, Some (new_ByteArrayField length hasMask));
    (NXM_NX_TUN_METADATA7, Some (new_ByteArrayField length hasMask));
    (NXM_NX_TUN_FLAGS, None);
    (NXM_NX_CT_STATE, Some (Uint32Message 0));
    (NXM_NX_CT_ZONE, Some (Uint16Message 0));
    (NXM_NX_CT_MARK, Some (Uint32Message 0));
    (NXM_NX_CT_LABEL, Some (CTLabel []));
    (NXM_NX_TUN_IPV6_SRC, Some (Ipv6SrcField []));
    (NXM_NX_TUN_IPV6_DST, Some (Ipv6DstField []));
    (NXM_NX_CT_NW_PROTO, Some (IpProtoField 0));
    (NXM_NX_CT_NW_SRC, Some (Ipv4SrcField []));
    (NXM_NX_CT_NW_DST, Some (Ipv4DstField []));
    (NXM_NX_CT_IPV6_SRC, Some (Ipv6SrcField []));
    (NXM_NX_CT_IPV6_DST, Some (Ipv6DstField []));
    (NXM_NX_CT_TP_DST, Some (PortField 0));
    (NXM_NX_CT_TP_SRC, Some (PortField 0));
    (NXM_NX_XXREG0, Some (new_ByteArrayField length hasMask));
    (NXM_NX_XXREG1, Some (new_ByteArrayField length hasMask));
    (NXM_NX_XXREG2, Some (new_ByteArrayField length hasMask));
    (NXM_NX_XXREG3, Some (new_ByteArrayField length hasMask)) ].

(** The cases under OXM_CLASS_PACKET_REGS. *)
Definition packet_regs_cases (length : Z) (hasMask : bool) : list (Z * option Message) :=
  [ (OXM_PACKET_REG0, Some (new_ByteArrayField length hasMask));
    (OXM_PACKET_REG1, Some (new_ByteArrayField length hasMask));
    (OXM_PACKET_REG2, Some (new_ByteArrayField length hasMask));
    (OXM_PACKET_REG3, Some (new_ByteArrayField length hasMask));
    (OXM_PACKET_REG4, Some (new_ByteArrayField length hasMask));
    (OXM_PACKET_REG5, Some (new_ByteArrayField length hasMask));
    (OXM_PACKET_REG6, Some (new_ByteArrayField length hasMask));
    (OXM_PACKET_REG7, Some (new_ByteArrayField length hasMask)) ].

(** The cases under OXM_CLASS_EXPERIMENTER. *)
Definition experimenter_cases : list (Z * option Message) :=
  [ (OXM_FIELD_TCP_FLAGS, Some (TcpFlagsField 0)) ].

Definition DecodeMatchField (class field length : Z) (hasMask : bool) (data : list Z)
  : result Message :=
  if class =? OXM_CLASS_OPENFLOW_BASIC then
    match switch field basic_cases with
    | None => Err (ErrUnhandledField field class)
    | Some val => call_UnmarshalBinary val data
    end
  else if class =? OXM_CLASS_NXM_1 then
    match switch field (nxm1_cases length hasMask) with
    | None => Err (ErrUnknownNxm1Field field)
    | Some val => call_UnmarshalBinary val data
    end
  else if class =? OXM_CLASS_PACKET_REGS then
    match switch field (packet_regs_cases length hasMask) with
    | None => Err (ErrUnknownPacketRegsField field)
    | Some val => call_UnmarshalBinary val data
    end
  else if class =? OXM_CLASS_EXPERIMENTER then
    match switch field experimenter_cases with
    | None => Err (ErrUnknownExperimenterField field)
    | Some val => call_UnmarshalBinary val data
    end
  else Err (ErrUnsupportedMatchField field class).

(** ** One match field TLV *)

Record MatchField : Type := mkMatchField {
  MatchField_Class : Z;
  MatchField_Field : Z;
  MatchField_HasMask : bool;
  MatchField_Length : Z;
  MatchField_ExperimenterID : Z;
  MatchField_Value : option Message;
  MatchField_Mask : option Message
}.

(** [new(MatchField)] *)
Definition new_MatchField : MatchField := mkMatchField 0 0 false 0 0 None None.

(** [v.Len()] through the interface. *)
Definition call_Len (v : option Message) : result Z :=
  match v with
  | None => Panic NilDereference
  | Some m => Ok (Message_Len m)
  end.

(** [v.MarshalBinary()] through the interface. *)
Definition call_MarshalBinary (v : option Message) : result (list Z) :=
  match v with
  | None => Panic NilDereference
  | Some m => Ok (Message_MarshalBinary m)
  end.

Definition MatchField_Len (m : MatchField) : result Z :=
  let n := 4 in
  let n := if MatchField_ExperimenterID m =? 0 then n else wrap16 (n + 4) in
  vl <- call_Len (MatchField_Value m) ;;
  let n := wrap16 (n + vl) in
  if MatchField_HasMask m
  then ml <- call_Len (MatchField_Mask m) ;; Ok (wrap16 (n + ml))
  else Ok n.

Definition MatchField_MarshalBinary (m : MatchField) : result (list Z) :=
  l <- MatchField_Len m ;;
  let data := make l in
  let n := 0 in
  data <- BigEndian_PutUint16 data n (MatchField_Class m) ;;
  let n := n + 2 in
  let fld := if MatchField_HasMask m
             then Z.lor (wrap8 (Z.shiftl (MatchField_Field m) 1)) 1
             else wrap8 (Z.shiftl (MatchField_Field m) 1) in
  data <- set_index data n fld ;;
  let n := n + 1 in
  data <- set_index data n (MatchField_Length m) ;;
  let n := n + 1 in
  b <- call_MarshalBinary (MatchField_Value m) ;;
  data <- copy_at data n b ;;
  let n := n + len b in
  if MatchField_HasMask m then
    b <- call_MarshalBinary (MatchField_Mask m) ;;
    data <- copy_at data n b ;;
    Ok data
  else Ok data.

Definition MatchField_UnmarshalBinary (m : MatchField) (data : list Z) : result MatchField :=
  let n := 0 in
  tl <- slice_from data n ;;
  class <- BigEndian_Uint16 tl ;;
  let n := n + 2 in
  fld <- index data n ;;
  let n := n + 1 in
  let hasMask := Z.land fld 1 =? 1 in
  let field := Z.shiftr fld 1 in
  length <- index data n ;;
  let n := n + 1 in
  ne <- (if class =? OXM_CLASS_EXPERIMENTER then
           tl <- slice_from data n ;;
           experimenterID <- BigEndian_Uint32 tl ;;
           if experimenterID =? ONF_EXPERIMENTER_ID
           then Ok (wrap16 (n + 4), experimenterID)
           else Err (ErrUnsupportedExperimenter experimenterID class)
         else Ok (n, MatchField_ExperimenterID m)) ;;
  let n := fst ne in
  tl <- slice_from data n ;;
  value <- DecodeMatchField class field length hasMask tl ;;
  let n := wrap16 (n + Message_Len value) in
  if hasMask then
    tl <- slice_from data n ;;
    mask <- DecodeMatchField class field length hasMask tl ;;
    Ok (mkMatchField class field hasMask length (snd ne) (Some value) (Some mask))
  else
    Ok (mkMatchField class field hasMask length (snd ne) (Some value) (MatchField_Mask m)).

(** [UnmarshalHeader]: the reader of the four header bytes alone. *)
Definition MatchField_UnmarshalHeader (m : MatchField) (data : list Z) : result MatchField :=
  if len data <? 4 then Err ErrHeaderTooShort
  else
    tl <- slice_from data 0 ;;
    class <- BigEndian_Uint16 tl ;;
    fieldWithMask <- index data 2 ;;
    length <- index data 3 ;;
    Ok (mkMatchField class (Z.shiftr fieldWithMask 1) (Z.land fieldWithMask 1 =? 1)
          (Z.land length 255) (MatchField_ExperimenterID m)
          (MatchField_Value m) (MatchField_Mask m)).

(** ** The match block (ofp_match) *)

Record Match : Type := mkMatch {
  Match_Type : Z;
  Match_Length : Z;
  Match_Fields : list MatchField
}.

(** [new(Match)] *)
Definition new_Match : Match := mkMatch 0 0 [].

Definition NewMatch : Match := mkMatch MatchType_OXM 4 [].

(** The loop of [Match.Len]: [n += a.Len()] on [uint16]. *)
Fixpoint sum_field_lens (n : Z) (fields : list MatchField) : result Z :=
  match fields with
  | [] => Ok n
  | a :: rest => l <- MatchField_Len a ;; sum_field_lens (wrap16 (n + l)) rest
  end.

Definition Match_Len (m : Match) : result Z :=
  n <- sum_field_lens 4 (Match_Fields m) ;;
  (* Round it to closest multiple of 8 *)
  Ok (wrap16 (wrap16 (n + 7) / 8 * 8)).

(** The loop of [Match.MarshalBinary] over the fields. *)
Fixpoint marshal_fields (data : list Z) (n : Z) (fields : list MatchField)
  : result (list Z) :=
  match fields with
  | [] => Ok data
  | a :: rest =>
      b <- MatchField_MarshalBinary a ;;
      data <- copy_at data n b ;;
      marshal_fields data (n + len b) rest
  end.

Definition Match_MarshalBinary (m : Match) : result (list Z) :=
  l <- Match_Len m ;;
  let data := make l in
  let n := 0 in
  data <- BigEndian_PutUint16 data n (Match_Type m) ;;
  let n := n + 2 in
  data <- BigEndian_PutUint16 data n (Match_Length m) ;;
  let n := n + 2 in
  marshal_fields data n (Match_Fields m).

(** The loop [for n < int(m.Length)] of [Match.UnmarshalBinary].  Every
    turn adds the length of a decoded field to [n]; [fuel] bounds the
    number of turns and [None] means it ran out. *)
Fixpoint unmarshal_fields (fuel : nat) (data : list Z) (length n : Z)
    (fields : list MatchField) : option (result (list MatchField)) :=
  if n <? length then
    match fuel with
    | O => None
    | S fuel' =>
        match (tl <- slice_from data n ;; MatchField_UnmarshalBinary new_MatchField tl) with
        | Ok field =>
            match MatchField_Len field with
            | Ok l => unmarshal_fields fuel' data length (n + l) (fields ++ [field])
            | Err e => Some (Err e)
            | Panic p => Some (Panic p)
            end
        | Err e => Some (Err e)
        | Panic p => Some (Panic p)
        end
    end
  else Some (Ok fields).

Definition Match_UnmarshalBinary (m : Match) (data : list Z) : option (result Match) :=
  let n := 0 in
  match (tl <- slice_from data n ;; BigEndian_Uint16 tl) with
  | Ok type =>
      let n := n + 2 in
      match (tl <- slice_from data n ;; BigEndian_Uint16 tl) with
      | Ok length =>
          let n := n + 2 in
          match unmarshal_fields (Z.to_nat length) data length n (Match_Fields m) with
          | Some (Ok fields) => Some (Ok (mkMatch type length fields))
          | Some (Err e) => Some (Err e)
          | Some (Panic p) => Some (Panic p)
          | None => None
          end
      | Err e => Some (Err e)
      | Panic p => Some (Panic p)
      end
  | Err e => Some (Err e)
  | Panic p => Some (Panic p)
  end.

Definition Match_AddField (m : Match) (f : MatchField) : result Match :=
  l <- MatchField_Len f ;;
  Ok (mkMatch (Match_Type m) (wrap16 (Match_Length m + l)) (Match_Fields m ++ [f])).

(** A match built from [NewMatch()] by [AddField] calls, in order. *)
Definition build_match (fields : list MatchField) : result Match :=
  fold_left (fun rm f => m <- rm ;; Match_AddField m f) fields (Ok NewMatch).

(** ** Match-field builders *)

(** [uint8(x.Len())] *)
Definition uint8_Len (m : Message) : Z := wrap8 (Message_Len m).

(** The common shape of the builders that take an optional mask: the
    value is stored, [Length] is its size, and a non-nil mask is stored
    too, sets [HasMask] and adds its size to [Length]. *)
Definition with_mask (class field : Z) (hasMask0 : bool) (value : Message)
    (mask : option Message) : MatchField :=
  match mask with
  | None => mkMatchField class field hasMask0 (uint8_Len value) 0 (Some value) None
  | Some mk =>
      mkMatchField class field true (wrap8 (uint8_Len value + uint8_Len mk)) 0
        (Some value) (Some mk)
  end.

Definition NewInPortField (inPort : Z) : MatchField :=
  with_mask OXM_CLASS_OPENFLOW_BASIC OXM_FIELD_IN_PORT false (InPortField inPort) None.

Definition NewEthDstField (ethDst : list Z) (ethDstMask : option (list Z)) : MatchField :=
  with_mask OXM_CLASS_OPENFLOW_BASIC OXM_FIELD_ETH_DST false (EthDstField ethDst)
    (option_map EthDstField ethDstMask).

Definition NewEthSrcField (ethSrc : list Z) (ethSrcMask : option (list Z)) : MatchField :=
  with_mask OXM_CLASS_OPENFLOW_BASIC OXM_FIELD_ETH_SRC false (EthSrcField ethSrc)
    (option_map EthSrcField ethSrcMask).

Definition NewEthTypeField (ethType : Z) : MatchField :=
  with_mask OXM_CLASS_OPENFLOW_BASIC OXM_FIELD_ETH_TYPE false (EthTypeField ethType) None.

Definition NewVlanIdField (vlanId : Z) (vlanMask : option Z) : MatchField :=
  with_mask OXM_CLASS_OPENFLOW_BASIC OXM_FIELD_VLAN_VID false
    (VlanIdField (Z.lor vlanId OFPVID_PRESENT)) (option_map VlanIdField vlanMask).

Definition NewVlanPcpField (vlanPcp : Z) : MatchField :=
  with_mask OXM_CLASS_OPENFLOW_BASIC OXM_FIELD_VLAN_PCP false (VlanPcpField vlanPcp) None.

(** [NewIpEcnField] never stores its argument: the value is the zero
    [new(IpEcnField)]. *)
Definition NewIpEcnField (vlanPcp : Z) : MatchField :=
  with_mask OXM_CLASS_OPENFLOW_BASIC OXM_FIELD_IP_ECN false (IpEcnField 0) None.

Definition NewIpv6SrcField (ipSrc : list Z) (ipSrcMask : option (list Z)) : MatchField :=
  with_mask OXM_CLASS_OPENFLOW_BASIC OXM_FIELD_IPV6_SRC false (Ipv6SrcField ipSrc)
    (option_map Ipv6SrcField ipSrcMask).

(** [NewIpv6FLabelField] sets [HasMask = true] before it looks at the mask. *)
Definition NewIpv6FLabelField (flabel : Z) (flabelMask : option Z) : MatchField :=
  with_mask OXM_CLASS_OPENFLOW_BASIC OXM_FIELD_IPV6_FLABEL true (Ipv6FLabelField flabel)
    (option_map Ipv6FLabelField flabelMask).

Definition NewIPTtlField (ttl : Z) : MatchField :=
  with_mask OXM_CLASS_NXM_1 NXM_NX_IP_TTL false (TtlField ttl) None.

Definition NewPacketTypeField (namespace nsType : Z) : MatchField :=
  with_mask OXM_CLASS_OPENFLOW_BASIC OXM_FIELD_PACKET_TYPE false
    (PacketTypeField namespace nsType) None.

(** ** util: the framed message stream ([MessageStream.inbound])

    The reader goroutine is modelled as a function of what [conn.Read]
    returns, call after call.  Its state is the unread content of [buf]
    and [totalLen]; what it does to the outside is a list of events, in
    order.  Channel sends are taken to complete. *)

Definition numParserGoroutines : Z := 25.

Inductive event : Type :=
| PublishError (e : error)                       (* m.Error <- err *)
| SignalShutdown                                 (* m.Shutdown <- true *)
| Dispatch (workerKey : Z) (msgBytes : list Z).  (* m.workers[workerKey].Full <- bytes.NewBuffer(msgBytes) *)

Inductive status : Type :=
| Reading (buf : list Z) (totalLen : Z)  (* back in conn.Read with this state *)
| Returned                               (* the goroutine has returned *)
| Panicked (p : panic)
| OutOfFuel.                             (* the model's bound on loop turns was reached *)

(** [binary.BigEndian.UintN(buf.Bytes()[off:])] where the guards of the
    caller have established [off + N/8 <= buf.Len()]. *)
Definition be16_at (buf : list Z) (off : nat) : Z := be_value (firstn 2 (skipn off buf)).
Definition be32_at (buf : list Z) (off : nat) : Z := be_value (firstn 4 (skipn off buf)).

(** [binary.BigEndian.PutUint32(buf.Bytes()[8:12], 0x10002320)] *)
Definition mark_oversize (buf : list Z) : list Z :=
  firstn 8 buf ++ be_bytes32 0x10002320 ++ skipn 12 buf.

Inductive header_step : Type :=
| HeaderBreak (buf : list Z) (totalLen : Z)   (* [break] out of the for loop *)
| HeaderInvalid (totalLen : Z)                (* totalLen < 8: publish and return *)
| HeaderDone (buf : list Z) (totalLen : Z).   (* go on with the loop body *)

(** The end of the [if totalLen == 0] block: the minimum-length check. *)
Definition check_min_len (buf : list Z) (totalLen : Z) : header_step :=
  if totalLen <? 8 then HeaderInvalid totalLen else HeaderDone buf totalLen.

(** The block under [if totalLen == 0], entered with [buf.Len() >= 4]. *)
Definition read_header (buf : list Z) : header_step :=
  let msgType := nth 1 buf 0 in
  let totalLen := be16_at buf 2 in
  if msgType =? 4 then
    if len buf <? 16 then HeaderBreak buf totalLen
    else
      let experimenterType := be32_at buf 12 in
      if experimenterType =? 30 then
        if len buf <? 20 then HeaderBreak buf totalLen
        else
          let pktProp := be16_at buf 16 in
          if pktProp =? 0 then
            let pktLength := be16_at buf 18 in
            if totalLen <? pktLength
            then check_min_len (mark_oversize buf) (totalLen + 65536)
            else check_min_len buf totalLen
          else check_min_len buf totalLen
      else check_min_len buf totalLen
  else check_min_len buf totalLen.

(** [xid := binary.BigEndian.Uint32(msgBytes[4:])] *)
Definition read_xid (msgBytes : list Z) : result Z :=
  tl <- slice_from msgBytes 4 ;; BigEndian_Uint32 tl.

(** The loop [for buf.Len() >= 4 { ... }]; one unit of [fuel] per turn. *)
Fixpoint frames_loop (fuel : nat) (buf : list Z) (totalLen : Z) : list event * status :=
  if len buf <? 4 then ([], Reading buf totalLen)
  else
    match fuel with
    | O => ([], OutOfFuel)
    | S fuel' =>
        match (if totalLen =? 0 then read_header buf else HeaderDone buf totalLen) with
        | HeaderBreak buf totalLen => ([], Reading buf totalLen)
        | HeaderInvalid totalLen =>
            ([PublishError (ErrInvalidLength totalLen); SignalShutdown], Returned)
        | HeaderDone buf totalLen =>
            if len buf <? totalLen then ([], Reading buf totalLen)
            else if totalLen <? 0 then ([], Panicked MakeSliceLenOutOfRange)
            else
              (* buf.Read(msgBytes) cannot fail: buf holds at least 4 bytes *)
              let msgBytes := firstn (Z.to_nat totalLen) buf in
              let buf := skipn (Z.to_nat totalLen) buf in
              match read_xid msgBytes with
              | Ok xid =>
                  let workerKey := xid mod numParserGoroutines in
                  let (evs, st) := frames_loop fuel' buf 0 in
                  (Dispatch workerKey msgBytes :: evs, st)
              | Err e => ([], Returned)
              | Panic p => ([], Panicked p)
              end
        end
    end.

(** One turn of the outer loop needs at most one turn of the inner loop
    per buffered byte. *)
Definition inbound_loop (buf : list Z) (totalLen : Z) : list event * status :=
  frames_loop (S (length buf)) buf totalLen.

(** What a call of [conn.Read(tmpBuf)] returns: [n] bytes, or an error,
    which is or is not "use of closed network connection". *)
Inductive read_result : Type :=
| ReadBytes (chunk : list Z)
| ReadError (closed : bool).

Fixpoint inbound_from (reads : list read_result) (buf : list Z) (totalLen : Z)
  : list event * status :=
  match reads with
  | [] => ([], Reading buf totalLen)
  | ReadError closed :: _ =>
      if closed then ([], Returned)
      else ([PublishError ErrConnRead; SignalShutdown], Returned)
  | ReadBytes chunk :: rest =>
      match inbound_loop (buf ++ chunk) totalLen with
      | (evs, Reading buf' totalLen') =>
          let (evs', st) := inbound_from rest buf' totalLen' in (evs ++ evs', st)
      | (evs, st) => (evs, st)
      end
  end.

(** [inbound()] starts with an empty buffer and [totalLen := 0]. *)
Definition inbound (reads : list read_result) : list event * status :=
  inbound_from reads [] 0.

(** ** Notions used to state the properties *)

(** The value payload a match field puts on the wire. *)
Definition value_payload (f : MatchField) : result (list Z) :=
  call_MarshalBinary (MatchField_Value f).

(** Marshal a field and unmarshal the bytes into a fresh [MatchField]. *)
Definition field_round_trip (f : MatchField) : result MatchField :=
  b <- MatchField_MarshalBinary f ;; MatchField_UnmarshalBinary new_MatchField b.

(** Marshal a match and unmarshal the bytes into a fresh [Match]. *)
Definition match_round_trip (m : Match) : option (result Match) :=
  match Match_MarshalBinary m with
  | Ok b => Match_UnmarshalBinary new_Match b
  | Err e => Some (Err e)
  | Panic p => Some (Panic p)
  end.

(** The fields DecodeMatchField decodes through [ByteArrayField]:
    TUN_METADATA0-7 and XXREG0-3 of NXM_1, and the packet registers. *)
Definition byte_array_field (class field : Z) : bool :=
  ((class =? OXM_CLASS_NXM_1) &&
   (((NXM_NX_TUN_METADATA0 <=? field) && (field <=? NXM_NX_TUN_METADATA7)) ||
    ((NXM_NX_XXREG0 <=? field) && (field <=? NXM_NX_XXREG3))))
  || ((class =? OXM_CLASS_PACKET_REGS) &&
      (OXM_PACKET_REG0 <=? field) && (field <=? OXM_PACKET_REG7)).

(** The per-side payload length of the length/mask rule. *)
Definition per_side_length (length : Z) (hasMask : bool) : Z :=
  if hasMask then length / 2 else length.

(** The values a Go program can hold in the [uint8] field
    [ByteArrayField.Length]. *)
Definition Message_typed (m : Message) : Prop :=
  match m with
  | ByteArrayField _ l => 0 <= l < 256
  | _ => True
  end.

Definition MatchField_typed (f : MatchField) : Prop :=
  match MatchField_Value f with Some v => Message_typed v | None => True end /\
  match MatchField_Mask f with Some v => Message_typed v | None => True end.

(** The sum of the [Len()] of the fields, as an integer. *)
Fixpoint total_len (fields : list MatchField) : result Z :=
  match fields with
  | [] => Ok 0
  | f :: rest => l <- MatchField_Len f ;; s <- total_len rest ;; Ok (l + s)
  end.

(** The bytes of each field, in order. *)
Fixpoint marshal_each (fields : list MatchField) : result (list (list Z)) :=
  match fields with
  | [] => Ok []
  | a :: rest =>
      b <- MatchField_MarshalBinary a ;; bs <- marshal_each rest ;; Ok (b :: bs)
  end.

(** The values of the Go type [byte]. *)
Definition is_byte (x : Z) : Prop := 0 <= x < 256.

(** A case of a switch assigns a well-typed receiver, or none. *)
Definition receiver_typed (c : Z * option Message) : Prop :=
  match snd c with Some m => Message_typed m | None => True end.

(** *** Frames *)

Definition frame_type (f : list Z) : Z := nth 1 f 0.
Definition frame_declared_len (f : list Z) : Z := be16_at f 2.

(** The condition of the PacketIn2 oversize rewrite, on the bytes at
    offsets 1, 2, 12, 16 and 18 of a buffer holding at least 20 bytes. *)
Definition oversize_packet_in2 (buf : list Z) : bool :=
  (frame_type buf =? 4) && (be32_at buf 12 =? 30) && (be16_at buf 16 =? 0)
  && (frame_declared_len buf <? be16_at buf 18).

(** A frame as the fragmentation property of the specification has it:
    at least 8 bytes, and the declared length is the actual length. *)
Definition plain_frame (f : list Z) : Prop :=
  8 <= len f /\ frame_declared_len f = len f.

(** The frames the reader can delimit on their own bytes: an Experimenter
    frame is long enough for the reader's look at its experimenter type
    (16 bytes), a PacketIn2 frame for the look at its first property (20
    bytes), and the oversize rewrite does not apply. *)
Definition framable (f : list Z) : Prop :=
  plain_frame f /\
  (frame_type f = 4 ->
     16 <= len f /\
     (be32_at f 12 = 30 ->
        20 <= len f /\ (be16_at f 16 = 0 -> be16_at f 18 <= frame_declared_len f))).

(** The event the reader emits for a frame. *)
Definition dispatch_of (f : list Z) : event :=
  Dispatch (be32_at f 4 mod numParserGoroutines) f.

(** The cases DecodeMatchField switches over for a class; [None] for a
    class it does not know. *)
Definition class_cases (class length : Z) (hasMask : bool)
  : option (list (Z * option Message)) :=
  if class =? OXM_CLASS_OPENFLOW_BASIC then Some basic_cases
  else if class =? OXM_CLASS_NXM_1 then Some (nxm1_cases length hasMask)
  else if class =? OXM_CLASS_PACKET_REGS then Some (packet_regs_cases length hasMask)
  else if class =? OXM_CLASS_EXPERIMENTER then Some experimenter_cases
  else None.

(** What the reader holds between two frames or in the middle of one:
    [totalLen] is unset or is the length of the frame being read, and the
    buffer holds less than that frame. *)
Definition pending (todo : list (list Z)) (buf : list Z) (totalLen : Z) : Prop :=
  (totalLen = 0 \/ exists f fs, todo = f :: fs /\ totalLen = len f) /\
  match todo with
  | [] => buf = []
  | f :: _ => len buf < len f
  end.

(** A PacketIn2 frame of scenario 4: type 4, declared length 40,
    experimenter type 30, first property NXPINT_PACKET with packet
    length 0x1000. *)
Definition packet_in2_40 : list Z :=
  [6; 4; 0; 40; 0; 0; 0; 1; 0; 0; 0x23; 0x20; 0; 0; 0; 30; 0; 0; 0x10; 0]
  ++ repeat 0 20.

(** One turn of the inner loop that ends in a dispatch: the message
    handed to a worker and the buffer left for the next turn.  [None]
    when the turn does anything else: leaves the loop to read more,
    publishes an error, or panics. *)
Definition dispatch_turn (buf : list Z) (totalLen : Z) : option (event * list Z) :=
  if len buf <? 4 then None
  else
    match (if totalLen =? 0 then read_header buf else HeaderDone buf totalLen) with
    | HeaderDone buf totalLen =>
        if len buf <? totalLen then None
        else if totalLen <? 0 then None
        else
          let msgBytes := firstn (Z.to_nat totalLen) buf in
          match read_xid msgBytes with
          | Ok xid =>
              Some (Dispatch (xid mod numParserGoroutines) msgBytes,
                    skipn (Z.to_nat totalLen) buf)
          | _ => None
          end
    | _ => None
    end.

(** [n] turns in a row that each end in a dispatch, the first one entered
    with [totalLen]: the messages dispatched, and the buffer the next turn
    starts from, with [totalLen] reset to 0. *)
Fixpoint dispatch_turns (n : nat) (buf : list Z) (totalLen : Z)
  : option (list event * list Z) :=
  match n with
  | O => if totalLen =? 0 then Some ([], buf) else None
  | S n' =>
      match dispatch_turn buf totalLen with
      | Some (e, buf') =>
          match dispatch_turns n' buf' 0 with
          | Some (evs, b) => Some (e :: evs, b)
          | None => None
          end
      | None => None
      end
  end.

(** * More of the code *)

(** ** The OXM TLV header on its own *)

(** [binary.BigEndian.PutUint32(data[n:], v)] seen from [data]. *)
Definition BigEndian_PutUint32 (data : list Z) (n : Z) (v : Z) : result (list Z) :=
  tl <- slice_from data n ;;
  if len tl <? 4 then Panic IndexOutOfRange else copy_at data n (be_bytes32 v).

(** [MatchField.MarshalHeader]: the header as a uint32. *)
Definition MatchField_MarshalHeader (m : MatchField) : Z :=
  let maskData := if MatchField_HasMask m then wrap32 (Z.shiftl 1 8) else wrap32 (Z.shiftl 0 8) in
  Z.lor (Z.lor (Z.lor (wrap32 (Z.shiftl (MatchField_Class m) 16))
                      (wrap32 (Z.shiftl (MatchField_Field m) 9)))
               maskData)
        (MatchField_Length m).

(** oxm_id - OXM TLV Header *)
Record OxmId : Type := mkOxmId {
  OxmId_Class : Z;
  OxmId_Field : Z;
  OxmId_HasMask : bool;
  OxmId_Length : Z;
  OxmId_ExperimenterID : Z
}.

(** [new(OxmId)] *)
Definition new_OxmId : OxmId := mkOxmId 0 0 false 0 0.

Definition NewOxmId (class field : Z) (hasMask : bool) (length expId : Z) : OxmId :=
  mkOxmId class field hasMask length
    (if class =? OXM_CLASS_EXPERIMENTER then expId else 0).

Definition OxmId_Len (o : OxmId) : Z :=
  let n := 4 in
  if OxmId_ExperimenterID o =? 0 then n else wrap16 (n + 4).

Definition OxmId_MarshalBinary (o : OxmId) : result (list Z) :=
  let data := make (OxmId_Len o) in
  let n := 0 in
  data <- BigEndian_PutUint16 data n (OxmId_Class o) ;;
  let n := n + 2 in
  let fld := if OxmId_HasMask o
             then Z.lor (wrap8 (Z.shiftl (OxmId_Field o) 1)) 1
             else wrap8 (Z.shiftl (OxmId_Field o) 1) in
  data <- set_index data n fld ;;
  let n := n + 1 in
  data <- set_index data n (OxmId_Length o) ;;
  let n := n + 1 in
  if OxmId_Class o =? OXM_CLASS_EXPERIMENTER
  then BigEndian_PutUint32 data n (OxmId_ExperimenterID o)
  else Ok data.

Definition OxmId_UnmarshalBinary (o : OxmId) (data : list Z) : result OxmId :=
  let n := 0 in
  tl <- slice_from data n ;;
  class <- BigEndian_Uint16 tl ;;
  let n := n + 2 in
  fld <- index data n ;;
  let n := n + 1 in
  let hasMask := Z.land fld 1 =? 1 in
  let field := Z.shiftr fld 1 in
  length <- index data n ;;
  let n := n + 1 in
  if class =? OXM_CLASS_EXPERIMENTER then
    tl <- slice_from data n ;;
    experimenterID <- BigEndian_Uint32 tl ;;
    if experimenterID =? ONF_EXPERIMENTER_ID
    then Ok (mkOxmId class field hasMask length experimenterID)
    else Err (ErrUnsupportedExperimenter experimenterID class)
  else Ok (mkOxmId class field hasMask length (OxmId_ExperimenterID o)).

(** ** The other match-field builders *)

Definition NewInPhyPortField (inPhyPort : Z) : MatchField :=
  with_mask OXM_CLASS_OPENFLOW_BASIC OXM_FIELD_IN_PHY_PORT false (InPhyPortField inPhyPort) None.

Definition NewMplsLabelField (mplsLabel : Z) : MatchField :=
  with_mask OXM_CLASS_OPENFLOW_BASIC OXM_FIELD_MPLS_LABEL false (MplsLabelField mplsLabel) None.

Definition NewMplsTcField (mplsTc : Z) : MatchField :=
  with_mask OXM_CLASS_OPENFLOW_BASIC OXM_FIELD_MPLS_TC false (MplsTcField mplsTc) None.

Definition NewMplsBosField (mplsBos : Z) : MatchField :=
  with_mask OXM_CLASS_OPENFLOW_BASIC OXM_FIELD_MPLS_BOS false (MplsBosField mplsBos) None.

Definition NewIpv4SrcField (ipSrc : list Z) (ipSrcMask : option (list Z)) : MatchField :=
  with_mask OXM_CLASS_OPENFLOW_BASIC OXM_FIELD_IPV4_SRC false (Ipv4SrcField ipSrc)
    (option_map Ipv4SrcField ipSrcMask).

Definition NewIpv4DstField (ipDst : list Z) (ipDstMask : option (list Z)) : MatchField :=
  with_mask OXM_CLASS_OPENFLOW_BASIC OXM_FIELD_IPV4_DST false (Ipv4DstField ipDst)
    (option_map Ipv4DstField ipDstMask).

Definition NewIpv6DstField (ipDst : list Z) (ipDstMask : option (list Z)) : MatchField :=
  with_mask OXM_CLASS_OPENFLOW_BASIC OXM_FIELD_IPV6_DST false (Ipv6DstField ipDst)
    (option_map Ipv6DstField ipDstMask).

Definition NewIpProtoField (protocol : Z) : MatchField :=
  with_mask OXM_CLASS_OPENFLOW_BASIC OXM_FIELD_IP_PROTO false (IpProtoField protocol) None.

Definition NewIpDscpField (dscp : Z) (ipDscpMask : option Z) : MatchField :=
  with_mask OXM_CLASS_OPENFLOW_BASIC OXM_FIELD_IP_DSCP false (IpDscpField dscp)
    (option_map IpDscpField ipDscpMask).

(** [NewPbbIsidField] sets [HasMask = true] before it looks at the mask. *)
Definition NewPbbIsidField (pbbIsid : Z) (pbbIsidMask : option Z) : MatchField :=
  with_mask OXM_CLASS_OPENFLOW_BASIC OXM_FIELD_PBB_ISID true (PbbIsidField pbbIsid)
    (option_map PbbIsidField pbbIsidMask).

Definition NewTunnelIdField (tunnelId : Z) : MatchField :=
  with_mask OXM_CLASS_OPENFLOW_BASIC OXM_FIELD_TUNNEL_ID false (TunnelIdField tunnelId) None.

Definition NewMetadataField (metadata : Z) (metadataMask : option Z) : MatchField :=
  with_mask OXM_CLASS_OPENFLOW_BASIC OXM_FIELD_METADATA false (MetadataField metadata)
    (option_map MetadataField metadataMask).

Definition NewPortField (port : Z) : Message := PortField port.

Definition NewTcpSrcField (port : Z) : MatchField :=
  with_mask OXM_CLASS_OPENFLOW_BASIC OXM_FIELD_TCP_SRC false (NewPortField port) None.

Definition NewTcpDstField (port : Z) : MatchField :=
  with_mask OXM_CLASS_OPENFLOW_BASIC OXM_FIELD_TCP_DST false (NewPortField port) None.

Definition NewUdpSrcField (port : Z) : MatchField :=
  with_mask OXM_CLASS_OPENFLOW_BASIC OXM_FIELD_UDP_SRC false (NewPortField port) None.

Definition NewUdpDstField (port : Z) : MatchField :=
  with_mask OXM_CLASS_OPENFLOW_BASIC OXM_FIELD_UDP_DST false (NewPortField port) None.

(** [NewIpv6ExtHdrField] sets [HasMask = true] before it looks at the mask. *)
Definition NewIpv6ExtHdrField (ipv6ExtHeader : Z) (ipv6ExtHeaderMask : option Z) : MatchField :=
  with_mask OXM_CLASS_OPENFLOW_BASIC OXM_FIELD_IPV6_EXTHDR true (Ipv6ExtHdrField ipv6ExtHeader)
    (option_map Ipv6ExtHdrField ipv6ExtHeaderMask).

Definition NewTcpFlagsField (tcpFlag : Z) (tcpFlagMask : option Z) : MatchField :=
  with_mask OXM_CLASS_OPENFLOW_BASIC OXM_FIELD_TCP_FLAGS false (TcpFlagsField tcpFlag)
    (option_map TcpFlagsField tcpFlagMask).

Definition NewArpOperField (arpOper : Z) : MatchField :=
  with_mask OXM_CLASS_OPENFLOW_BASIC OXM_FIELD_ARP_OP false (ArpOperField arpOper) None.

Definition NewTunnelIpv4SrcField (tunnelIpSrc : list Z) (tunnelIpSrcMask : option (list Z))
  : MatchField :=
  with_mask OXM_CLASS_NXM_1 NXM_NX_TUN_IPV4_SRC false (TunnelIpv4SrcField tunnelIpSrc)
    (option_map TunnelIpv4SrcField tunnelIpSrcMask).

Definition NewTunnelIpv4DstField (tunnelIpDst : list Z) (tunnelIpDstMask : option (list Z))
  : MatchField :=
  with_mask OXM_CLASS_NXM_1 NXM_NX_TUN_IPV4_DST false (TunnelIpv4DstField tunnelIpDst)
    (option_map TunnelIpv4DstField tunnelIpDstMask).

Definition NewTunnelIpv6SrcField (tunnelIpv6Src : list Z) (tunnelIpv6SrcMask : option (list Z))
  : MatchField :=
  with_mask OXM_CLASS_NXM_1 NXM_NX_TUN_IPV6_SRC false (Ipv6SrcField tunnelIpv6Src)
    (option_map Ipv6SrcField tunnelIpv6SrcMask).

Definition NewTunnelIpv6DstField (tunnelIpv6Dst : list Z) (tunnelIpv6DstMask : option (list Z))
  : MatchField :=
  with_mask OXM_CLASS_NXM_1 NXM_NX_TUN_IPV6_DST false (Ipv6DstField tunnelIpv6Dst)
    (option_map Ipv6DstField tunnelIpv6DstMask).

Definition NewSctpDstField (port : Z) : MatchField :=
  with_mask OXM_CLASS_OPENFLOW_BASIC OXM_FIELD_SCTP_DST false (PortField port) None.

Definition NewSctpSrcField (port : Z) : MatchField :=
  with_mask OXM_CLASS_OPENFLOW_BASIC OXM_FIELD_SCTP_SRC false (PortField port) None.

Definition NewArpThaField (arpTha : list Z) : MatchField :=
  with_mask OXM_CLASS_OPENFLOW_BASIC OXM_FIELD_ARP_THA false (ArpXHaField arpTha) None.

Definition NewArpShaField (arpSha : list Z) : MatchField :=
  with_mask OXM_CLASS_OPENFLOW_BASIC OXM_FIELD_ARP_SHA false (ArpXHaField arpSha) None.

Definition NewArpTpaField (arpTpa : list Z) : MatchField :=
  with_mask OXM_CLASS_OPENFLOW_BASIC OXM_FIELD_ARP_TPA false (ArpXPaField arpTpa) None.

Definition NewArpSpaField (arpSpa : list Z) : MatchField :=
  with_mask OXM_CLASS_OPENFLOW_BASIC OXM_FIELD_ARP_SPA false (ArpXPaField arpSpa) None.

Definition NewActsetOutputField (actsetOutputPort : Z) : MatchField :=
  with_mask OXM_CLASS_OPENFLOW_BASIC OXM_FIELD_ACTSET_OUTPUT false
    (ActsetOutputField actsetOutputPort) None.

(** ** Notions used to state the round trips *)

(** The receiver DecodeMatchField starts from to decode a value of the
    type of [v]: [new(T)], and for a [ByteArrayField] the length it has
    been given. *)
Definition new_of (v : Message) : Message :=
  match v with
  | InPortField _ => InPortField 0
  | InPhyPortField _ => InPhyPortField 0
  | MetadataField _ => MetadataField 0
  | EthDstField _ => EthDstField []
  | EthSrcField _ => EthSrcField []
  | EthTypeField _ => EthTypeField 0
  | VlanIdField _ => VlanIdField 0
  | VlanPcpField _ => VlanPcpField 0
  | MplsLabelField _ => MplsLabelField 0
  | MplsTcField _ => MplsTcField 0
  | MplsBosField _ => MplsBosField 0
  | Ipv4SrcField _ => Ipv4SrcField []
  | Ipv4DstField _ => Ipv4DstField []
  | Ipv6SrcField _ => Ipv6SrcField []
  | Ipv6FLabelField _ => Ipv6FLabelField 0
  | Ipv6DstField _ => Ipv6DstField []
  | IpEcnField _ => IpEcnField 0
  | IpProtoField _ => IpProtoField 0
  | IpDscpField _ => IpDscpField 0
  | PbbIsidField _ => PbbIsidField 0
  | TunnelIdField _ => TunnelIdField 0
  | PortField _ => PortField 0
  | Ipv6ExtHdrField _ => Ipv6ExtHdrField 0
  | TcpFlagsField _ => TcpFlagsField 0
  | ArpOperField _ => ArpOperField 0
  | TunnelIpv4SrcField _ => TunnelIpv4SrcField []
  | TunnelIpv4DstField _ => TunnelIpv4DstField []
  | TtlField _ => TtlField 0
  | ArpXHaField _ => ArpXHaField []
  | ArpXPaField _ => ArpXPaField []
  | ActsetOutputField _ => ActsetOutputField 0
  | IcmpTypeField _ => IcmpTypeField 0
  | IcmpCodeField _ => IcmpCodeField 0
  | PacketTypeField _ _ => PacketTypeField 0 0
  | Uint32Message _ => Uint32Message 0
  | Uint16Message _ => Uint16Message 0
  | ByteArrayField _ l => ByteArrayField [] l
  | CTLabel _ => CTLabel []
  end.

Definition is_uint8 (v : Z) : Prop := 0 <= v < 256.
Definition is_uint16 (v : Z) : Prop := 0 <= v < 65536.
Definition is_uint32 (v : Z) : Prop := 0 <= v < 4294967296.
Definition is_uint64 (v : Z) : Prop := 0 <= v < 18446744073709551616.

(** An IPv4 address in the 16-byte form, as [net.IPv4] and [net.ParseIP]
    return it. *)
Definition is_v4_form (ip : list Z) : Prop :=
  exists a b c d, ip = net_IPv4 a b c d.

(** The payload values that marshal to bytes holding all of them: the
    integers are values of their Go type, an IPv6 address has 16 bytes,
    an IPv4 address is in the 16-byte form, a byte array has the length
    it declares.  No MAC-shaped value is among them. *)
Definition canonical (v : Message) : Prop :=
  match v with
  | InPortField x | InPhyPortField x | MplsLabelField x | Ipv6FLabelField x
  | PbbIsidField x | ActsetOutputField x | Uint32Message x => is_uint32 x
  | MetadataField x | TunnelIdField x => is_uint64 x
  | EthTypeField x | VlanIdField x | PortField x | Ipv6ExtHdrField x
  | TcpFlagsField x | ArpOperField x | Uint16Message x => is_uint16 x
  | VlanPcpField x | MplsTcField x | MplsBosField x | IpEcnField x
  | IpProtoField x | IpDscpField x | TtlField x | IcmpTypeField x
  | IcmpCodeField x => is_uint8 x
  | Ipv4SrcField ip | Ipv4DstField ip | TunnelIpv4SrcField ip
  | TunnelIpv4DstField ip | ArpXPaField ip => is_v4_form ip
  | Ipv6SrcField ip | Ipv6DstField ip => length ip = 16%nat
  | PacketTypeField ns ty => is_uint16 ns /\ is_uint16 ty
  | ByteArrayField d l => 0 <= l < 256 /\ len d = l
  | CTLabel d => length d = 16%nat
  | EthDstField _ | EthSrcField _ | ArpXHaField _ => False
  end.

(** DecodeMatchField, for this header, starts from the receiver of the
    type of [v]. *)
Definition decodes_as (class field length : Z) (hasMask : bool) (v : Message) : Prop :=
  match class_cases class length hasMask with
  | Some cases => switch field cases = Some (Some (new_of v))
  | None => False
  end.

(** The fields whose bytes hold all of them: a class other than
    Experimenter, a 7-bit field, a one-byte length, no experimenter id, a
    canonical value of the type the decoder picks for (class, field), and
    a canonical mask of the same type exactly when [HasMask] is set. *)
Definition round_trippable (f : MatchField) : Prop :=
  is_uint16 (MatchField_Class f) /\ MatchField_Class f <> OXM_CLASS_EXPERIMENTER /\
  0 <= MatchField_Field f < 128 /\ is_uint8 (MatchField_Length f) /\
  MatchField_ExperimenterID f = 0 /\
  match MatchField_Value f with
  | None => False
  | Some v =>
      canonical v /\
      decodes_as (MatchField_Class f) (MatchField_Field f) (MatchField_Length f)
        (MatchField_HasMask f) v /\
      if MatchField_HasMask f
      then match MatchField_Mask f with
           | Some mk => canonical mk /\ new_of mk = new_of v
           | None => False
           end
      else MatchField_Mask f = None
  end.

(** A call of one of the builders, with its arguments. *)
Inductive builder_call : Type :=
| CallInPort (inPort : Z)
| CallInPhyPort (inPhyPort : Z)
| CallEthDst (ethDst : list Z) (ethDstMask : option (list Z))
| CallEthSrc (ethSrc : list Z) (ethSrcMask : option (list Z))
| CallEthType (ethType : Z)
| CallVlanId (vlanId : Z) (vlanMask : option Z)
| CallVlanPcp (vlanPcp : Z)
| CallMplsLabel (mplsLabel : Z)
| CallMplsTc (mplsTc : Z)
| CallMplsBos (mplsBos : Z)
| CallIpv4Src (ipSrc : list Z) (ipSrcMask : option (list Z))
| CallIpv4Dst (ipDst : list Z) (ipDstMask : option (list Z))
| CallIpv6Src (ipSrc : list Z) (ipSrcMask : option (list Z))
| CallIpv6FLabel (flabel : Z) (flabelMask : option Z)
| CallIpv6Dst (ipDst : list Z) (ipDstMask : option (list Z))
| CallIpEcn (vlanPcp : Z)
| CallIpProto (protocol : Z)
| CallIpDscp (dscp : Z) (ipDscpMask : option Z)
| CallPbbIsid (pbbIsid : Z) (pbbIsidMask : option Z)
| CallTunnelId (tunnelId : Z)
| CallMetadata (metadata : Z) (metadataMask : option Z)
| CallTcpSrc (port : Z)
| CallTcpDst (port : Z)
| CallUdpSrc (port : Z)
| CallUdpDst (port : Z)
| CallIpv6ExtHdr (ipv6ExtHeader : Z) (ipv6ExtHeaderMask : option Z)
| CallTcpFlags (tcpFlag : Z) (tcpFlagMask : option Z)
| CallArpOper (arpOper : Z)
| CallTunnelIpv4Src (ip : list Z) (mask : option (list Z))
| CallTunnelIpv4Dst (ip : list Z) (mask : option (list Z))
| CallTunnelIpv6Src (ip : list Z) (mask : option (list Z))
| CallTunnelIpv6Dst (ip : list Z) (mask : option (list Z))
| CallIPTtl (ttl : Z)
| CallSctpDst (port : Z)
| CallSctpSrc (port : Z)
| CallArpTha (arpTha : list Z)
| CallArpSha (arpSha : list Z)
| CallArpTpa (arpTpa : list Z)
| CallArpSpa (arpSpa : list Z)
| CallActsetOutput (actsetOutputPort : Z)
| CallPacketType (namespace nsType : Z).

Definition run_builder (c : builder_call) : MatchField :=
  match c with
  | CallInPort x => NewInPortField x
  | CallInPhyPort x => NewInPhyPortField x
  | CallEthDst a m => NewEthDstField a m
  | CallEthSrc a m => NewEthSrcField a m
  | CallEthType x => NewEthTypeField x
  | CallVlanId x m => NewVlanIdField x m
  | CallVlanPcp x => NewVlanPcpField x
  | CallMplsLabel x => NewMplsLabelField x
  | CallMplsTc x => NewMplsTcField x
  | CallMplsBos x => NewMplsBosField x
  | CallIpv4Src a m => NewIpv4SrcField a m
  | CallIpv4Dst a m => NewIpv4DstField a m
  | CallIpv6Src a m => NewIpv6SrcField a m
  | CallIpv6FLabel x m => NewIpv6FLabelField x m
  | CallIpv6Dst a m => NewIpv6DstField a m
  | CallIpEcn x => NewIpEcnField x
  | CallIpProto x => NewIpProtoField x
  | CallIpDscp x m => NewIpDscpField x m
  | CallPbbIsid x m => NewPbbIsidField x m
  | CallTunnelId x => NewTunnelIdField x
  | CallMetadata x m => NewMetadataField x m
  | CallTcpSrc x => NewTcpSrcField x
  | CallTcpDst x => NewTcpDstField x
  | CallUdpSrc x => NewUdpSrcField x
  | CallUdpDst x => NewUdpDstField x
  | CallIpv6ExtHdr x m => NewIpv6ExtHdrField x m
  | CallTcpFlags x m => NewTcpFlagsField x m
  | CallArpOper x => NewArpOperField x
  | CallTunnelIpv4Src a m => NewTunnelIpv4SrcField a m
  | CallTunnelIpv4Dst a m => NewTunnelIpv4DstField a m
  | CallTunnelIpv6Src a m => NewTunnelIpv6SrcField a m
  | CallTunnelIpv6Dst a m => NewTunnelIpv6DstField a m
  | CallIPTtl x => NewIPTtlField x
  | CallSctpDst x => NewSctpDstField x
  | CallSctpSrc x => NewSctpSrcField x
  | CallArpTha a => NewArpThaField a
  | CallArpSha a => NewArpShaField a
  | CallArpTpa a => NewArpTpaField a
  | CallArpSpa a => NewArpSpaField a
  | CallActsetOutput x => NewActsetOutputField x
  | CallPacketType ns ty => NewPacketTypeField ns ty
  end.

Definition opt_ok {A : Type} (P : A -> Prop) (m : option A) : Prop :=
  match m with Some x => P x | None => True end.

Definition is_v6 (ip : list Z) : Prop := length ip = 16%nat.

(** The calls whose result comes back from its bytes: arguments that are
    values of their Go types, IP addresses in the 16-byte form, a mask
    given to the three builders that set [HasMask] without looking; none
    of the MAC builders, and not PACKET_TYPE. *)
Definition args_round_trip (c : builder_call) : Prop :=
  match c with
  | CallInPort x | CallInPhyPort x | CallMplsLabel x | CallActsetOutput x => is_uint32 x
  | CallEthType x | CallTcpSrc x | CallTcpDst x | CallUdpSrc x | CallUdpDst x
  | CallArpOper x | CallSctpDst x | CallSctpSrc x => is_uint16 x
  | CallVlanPcp x | CallMplsTc x | CallMplsBos x | CallIpProto x | CallIPTtl x => is_uint8 x
  | CallIpEcn _ => True
  | CallTunnelId x => is_uint64 x
  | CallVlanId x m => is_uint16 x /\ opt_ok is_uint16 m
  | CallTcpFlags x m => is_uint16 x /\ opt_ok is_uint16 m
  | CallIpDscp x m => is_uint8 x /\ opt_ok is_uint8 m
  | CallMetadata x m => is_uint64 x /\ opt_ok is_uint64 m
  | CallIpv6FLabel x m | CallPbbIsid x m =>
      is_uint32 x /\ match m with Some y => is_uint32 y | None => False end
  | CallIpv6ExtHdr x m =>
      is_uint16 x /\ match m with Some y => is_uint16 y | None => False end
  | CallIpv4Src a m | CallIpv4Dst a m | CallTunnelIpv4Src a m | CallTunnelIpv4Dst a m =>
      is_v4_form a /\ opt_ok is_v4_form m
  | CallArpTpa a | CallArpSpa a => is_v4_form a
  | CallIpv6Src a m | CallIpv6Dst a m | CallTunnelIpv6Src a m | CallTunnelIpv6Dst a m =>
      is_v6 a /\ opt_ok is_v6 m
  | CallEthDst _ _ | CallEthSrc _ _ | CallArpTha _ | CallArpSha _ | CallPacketType _ _ => False
  end.

(** The byte [MarshalBinary] writes at offset 2: the field number shifted
    left by one, with the mask bit. *)
Definition fld_byte (field : Z) (hasMask : bool) : Z :=
  if hasMask then Z.lor (wrap8 (Z.shiftl field 1)) 1 else wrap8 (Z.shiftl field 1).

(** The bytes of the mask a field puts on the wire, if any. *)
Definition mask_payload (f : MatchField) : list Z :=
  if MatchField_HasMask f
  then match MatchField_Mask f with Some mk => Message_MarshalBinary mk | None => [] end
  else [].

(** A field has the value and the mask its [HasMask] announces. *)
Definition MatchField_complete (f : MatchField) : Prop :=
  MatchField_Value f <> None /\
  (MatchField_HasMask f = true -> MatchField_Mask f <> None).

(** The four bytes [MatchField.Len] counts for a non-zero experimenter id;
    [MarshalBinary] never writes to them. *)
Definition experimenter_room (f : MatchField) : list Z :=
  if MatchField_ExperimenterID f =? 0 then [] else [0; 0; 0; 0].

(** ** package protocol: the TCP header *)

(** [b[i:j]] of a slice whose capacity is its length. *)
Definition slice (b : list Z) (i j : Z) : result (list Z) :=
  if (0 <=? i) && (i <=? j) && (j <=? len b)
  then Ok (firstn (Z.to_nat (j - i)) (skipn (Z.to_nat i) b))
  else Panic SliceBoundsOutOfRange.

(** [binary.BigEndian.PutUint16(data[i:j], v)] seen from [data]. *)
Definition PutUint16_in (data : list Z) (i j : Z) (v : Z) : result (list Z) :=
  s <- slice data i j ;;
  if len s <? 2 then Panic IndexOutOfRange else copy_at data i (be_bytes16 v).

(** [binary.BigEndian.PutUint32(data[i:j], v)] seen from [data]. *)
Definition PutUint32_in (data : list Z) (i j : Z) (v : Z) : result (list Z) :=
  s <- slice data i j ;;
  if len s <? 4 then Panic IndexOutOfRange else copy_at data i (be_bytes32 v).

Record TCP : Type := mkTCP {
  TCP_PortSrc : Z;
  TCP_PortDst : Z;
  TCP_SeqNum : Z;
  TCP_AckNum : Z;
  TCP_HdrLen : Z;
  TCP_Code : Z;
  TCP_WinSize : Z;
  TCP_Checksum : Z;
  TCP_UrgFlag : Z;
  (* TCP options and application layer message; [None] is the nil slice *)
  TCP_Data : option (list Z)
}.

(** The errors of the package. *)
Inductive tcp_error : Type :=
| errTooShort        (* "The []byte is too short to unmarshal a full ARP message." *)
| errHdrLenTooSmall  (* "a TCP header must be at least 20 bytes (5 32-bit words)" *)
| errHdrLenTooLarge. (* "the TCP header size is larger than the packet size" *)

(** [new(TCP)] *)
Definition new_TCP : TCP := mkTCP 0 0 0 0 0 0 0 0 0 None.

Definition NewTCP : TCP := mkTCP 0 0 0 0 0 0 0 0 0 (Some []).

(** The bytes of a slice that may be nil. *)
Definition bytes_of (d : option (list Z)) : list Z :=
  match d with Some l => l | None => [] end.

Definition TCP_Len (t : TCP) : Z :=
  match TCP_Data t with
  | Some d => wrap16 (20 + len d)
  | None => wrap16 20
  end.

Definition TCP_MarshalBinary (t : TCP) : result (list Z) :=
  let data := make (TCP_Len t) in
  data <- PutUint16_in data 0 2 (TCP_PortSrc t) ;;
  data <- PutUint16_in data 2 4 (TCP_PortDst t) ;;
  data <- PutUint32_in data 4 8 (TCP_SeqNum t) ;;
  data <- PutUint32_in data 8 12 (TCP_AckNum t) ;;
  data <- set_index data 12 (Z.land (wrap8 (Z.shiftl (TCP_HdrLen t) 4)) 0xf0) ;;
  data <- set_index data 13 (Z.land (TCP_Code t) 0x3f) ;;
  data <- PutUint16_in data 14 16 (TCP_WinSize t) ;;
  data <- PutUint16_in data 16 18 (TCP_Checksum t) ;;
  data <- PutUint16_in data 18 20 (TCP_UrgFlag t) ;;
  copy_at data 20 (bytes_of (TCP_Data t)).

(** [UnmarshalBinary] returns the receiver as it is after the call and
    the error value. *)
Definition TCP_UnmarshalBinary (t : TCP) (data : list Z) : result (TCP * option tcp_error) :=
  if len data <? 20 then Ok (t, Some errTooShort)
  else
    s <- slice data 0 2 ;; portSrc <- BigEndian_Uint16 s ;;
    s <- slice data 2 4 ;; portDst <- BigEndian_Uint16 s ;;
    s <- slice data 4 8 ;; seqNum <- BigEndian_Uint32 s ;;
    s <- slice data 8 12 ;; ackNum <- BigEndian_Uint32 s ;;
    b12 <- index data 12 ;;
    let hdrLen := Z.land (Z.shiftr b12 4) 0xf in
    b13 <- index data 13 ;;
    let code := Z.land b13 0x3f in
    s <- slice data 14 16 ;; winSize <- BigEndian_Uint16 s ;;
    s <- slice data 16 18 ;; checksum <- BigEndian_Uint16 s ;;
    s <- slice data 18 20 ;; urgFlag <- BigEndian_Uint16 s ;;
    d <- (if 20 <? len data
          then tl <- slice_from data 20 ;; Ok (Some (copy (make (len data - 20)) tl))
          else Ok (TCP_Data t)) ;;
    Ok (mkTCP portSrc portDst seqNum ackNum hdrLen code winSize checksum urgFlag d, None).

Definition TCP_getOptionsSize (t : TCP) : Z := (TCP_HdrLen t - 5) * 4.

Definition TCP_validateHdrLen (t : TCP) : option tcp_error :=
  if TCP_HdrLen t <? 5 then Some errHdrLenTooSmall
  else
    let optionsSize := TCP_getOptionsSize t in
    if len (bytes_of (TCP_Data t)) <? optionsSize then Some errHdrLenTooLarge
    else None.

(** [GetOptions] returns the TCP options in the header, or an error if
    HdrLen is invalid. *)
Definition TCP_GetOptions (t : TCP) : result (option (list Z) * option tcp_error) :=
  match TCP_validateHdrLen t with
  | Some err => Ok (None, Some err)
  | None =>
      let optionsSize := TCP_getOptionsSize t in
      s <- slice_to (bytes_of (TCP_Data t)) optionsSize ;;
      Ok (Some (copy (make optionsSize) s), None)
  end.

(** [GetPayload] returns the application layer message, or an error if
    HdrLen is invalid. *)
Definition TCP_GetPayload (t : TCP) : result (option (list Z) * option tcp_error) :=
  match TCP_validateHdrLen t with
  | Some err => Ok (None, Some err)
  | None =>
      let optionsSize := TCP_getOptionsSize t in
      s <- slice_from (bytes_of (TCP_Data t)) optionsSize ;;
      Ok (Some (copy (make (len (bytes_of (TCP_Data t)) - optionsSize)) s), None)
  end.

(** The fields hold values of their Go types. *)
Definition TCP_typed (t : TCP) : Prop :=
  is_uint16 (TCP_PortSrc t) /\ is_uint16 (TCP_PortDst t) /\
  is_uint32 (TCP_SeqNum t) /\ is_uint32 (TCP_AckNum t) /\
  is_uint8 (TCP_HdrLen t) /\ is_uint8 (TCP_Code t) /\
  is_uint16 (TCP_WinSize t) /\ is_uint16 (TCP_Checksum t) /\ is_uint16 (TCP_UrgFlag t).

(** The twenty header bytes [TCP.MarshalBinary] writes, in order. *)
Definition TCP_header_bytes (t : TCP) : list Z :=
  ((((((((be_bytes16 (TCP_PortSrc t) ++ be_bytes16 (TCP_PortDst t))
         ++ be_bytes32 (TCP_SeqNum t)) ++ be_bytes32 (TCP_AckNum t))
       ++ [Z.land (wrap8 (Z.shiftl (TCP_HdrLen t) 4)) 0xf0])
      ++ [Z.land (TCP_Code t) 0x3f])
     ++ be_bytes16 (TCP_WinSize t)) ++ be_bytes16 (TCP_Checksum t))
   ++ be_bytes16 (TCP_UrgFlag t)).

(** A TCP header after a round trip: the header length keeps its low four
    bits, the code its low six, and empty Data is what the receiver held. *)
Definition TCP_read_back (t r : TCP) : TCP :=
  mkTCP (TCP_PortSrc t) (TCP_PortDst t) (TCP_SeqNum t) (TCP_AckNum t)
    (TCP_HdrLen t mod 16) (TCP_Code t mod 64)
    (TCP_WinSize t) (TCP_Checksum t) (TCP_UrgFlag t)
    (if len (bytes_of (TCP_Data t)) =? 0 then TCP_Data r else Some (bytes_of (TCP_Data t))).

(** ** Notions used to state the properties of the frame reader *)

(** The number of bytes handed to the workers. *)
Fixpoint dispatched_len (evs : list event) : Z :=
  match evs with
  | [] => 0
  | Dispatch _ msgBytes :: rest => len msgBytes + dispatched_len rest
  | _ :: rest => dispatched_len rest
  end.

(** The number of bytes [conn.Read] has returned, up to its first error. *)
Fixpoint read_len (reads : list read_result) : Z :=
  match reads with
  | [] => 0
  | ReadBytes chunk :: rest => len chunk + read_len rest
  | ReadError _ :: _ => 0
  end.

(** A message goes to one of the workers and holds a whole header. *)
Definition safe_event (e : event) : Prop :=
  match e with
  | Dispatch workerKey msgBytes => 0 <= workerKey < numParserGoroutines /\ 8 <= len msgBytes
  | _ => True
  end.

Definition is_dispatch (e : event) : Prop :=
  match e with Dispatch _ _ => True | _ => False end.

(** What holds of a run of the reader: every dispatch is safe, and an
    error is published only by a reader that returns. *)
Definition safe_run (r : list event * status) : Prop :=
  Forall safe_event (fst r) /\ snd r <> OutOfFuel /\
  match snd r with
  | Returned => True
  | _ => Forall is_dispatch (fst r)
  end.
(** * Properties *)

(** ** Slices and copies *)

Lemma len_nonneg (b : list Z) : 0 <= len b.
Proof. unfold len. lia. Qed.

Lemma len_app (a b : list Z) : len (a ++ b) = len a + len b.
Proof. unfold len. rewrite length_app. lia. Qed.

Lemma len_make (n : Z) : 0 <= n -> len (make n) = n.
Proof. intros H. unfold len, make. rewrite repeat_length. lia. Qed.

Lemma length_copy (dst src : list Z) : length (copy dst src) = length dst.
Proof.
  unfold copy. rewrite length_app, length_firstn, length_skipn. lia.
Qed.

Lemma len_copy (dst src : list Z) : len (copy dst src) = len dst.
Proof. unfold len. now rewrite length_copy. Qed.

Lemma slice_from_ok (b : list Z) (i : Z) :
  0 <= i <= len b -> slice_from b i = Ok (skipn (Z.to_nat i) b).
Proof.
  intros [H1 H2]. unfold slice_from.
  destruct (0 <=? i) eqn:E1; [| lia].
  destruct (i <=? len b) eqn:E2; [reflexivity | lia].
Qed.

Lemma copy_at_ok (data : list Z) (n : Z) (src : list Z) :
  0 <= n <= len data ->
  exists d, copy_at data n src = Ok d /\ len d = len data.
Proof.
  intros H. unfold copy_at. rewrite slice_from_ok by exact H. cbn [bind].
  eexists; split; [reflexivity |].
  rewrite len_app, len_copy. unfold len in *.
  rewrite length_firstn, length_skipn. lia.
Qed.

Lemma copy_at_len (data : list Z) (n : Z) (src d : list Z) :
  copy_at data n src = Ok d -> len d = len data.
Proof.
  unfold copy_at, slice_from.
  destruct ((0 <=? n) && (n <=? len data)) eqn:E; cbn [bind]; [| discriminate].
  intros [= <-]. apply andb_prop in E as [E1 E2].
  rewrite len_app, len_copy. unfold len in *.
  rewrite length_firstn, length_skipn. lia.
Qed.

Lemma set_index_ok (data : list Z) (n v : Z) :
  0 <= n < len data ->
  exists d, set_index data n v = Ok d /\ len d = len data.
Proof.
  intros [H1 H2]. unfold set_index.
  destruct (0 <=? n) eqn:E1; [| lia].
  destruct (n <? len data) eqn:E2; [| lia]. cbn [andb].
  eexists; split; [reflexivity |].
  unfold len in *. rewrite length_app. cbn [length].
  rewrite length_firstn, length_skipn. lia.
Qed.

Lemma PutUint16_ok (data : list Z) (n v : Z) :
  0 <= n -> n + 2 <= len data ->
  exists d, BigEndian_PutUint16 data n v = Ok d /\ len d = len data.
Proof.
  intros H1 H2. unfold BigEndian_PutUint16.
  rewrite slice_from_ok by lia. cbn [bind].
  assert (L : len (skipn (Z.to_nat n) data) = len data - n).
  { unfold len in *. rewrite length_skipn. lia. }
  rewrite L. destruct (len data - n <? 2) eqn:E; [lia |].
  apply copy_at_ok. lia.
Qed.

Lemma PutUint16_len (data : list Z) (n v : Z) (d : list Z) :
  BigEndian_PutUint16 data n v = Ok d -> len d = len data.
Proof.
  unfold BigEndian_PutUint16. destruct (slice_from data n); cbn [bind]; try discriminate.
  destruct (len a <? 2); [discriminate |]. apply copy_at_len.
Qed.

(** Every payload marshals to exactly [Len()] bytes. *)
Lemma Message_MarshalBinary_len (m : Message) :
  Message_typed m -> len (Message_MarshalBinary m) = Message_Len m.
Proof.
  destruct m; cbn [Message_MarshalBinary Message_Len Message_typed]; intros T;
    try reflexivity;
    try (rewrite len_copy; reflexivity).
  - unfold ByteArrayField_MarshalBinary, ByteArrayField_Len.
    rewrite len_copy. apply len_make. lia.
  - unfold CTLabel_MarshalBinary. rewrite len_copy. reflexivity.
Qed.

(** ** Length accounting *)

Lemma Message_Len_range (m : Message) : Message_typed m -> 0 <= Message_Len m < 256.
Proof.
  destruct m; cbn [Message_Len Message_typed]; intros T;
    unfold Uint32Message_Len, Uint16Message_Len, ByteArrayField_Len, CTLabel_Len; lia.
Qed.

Lemma Ok_inj {A : Type} (a b : A) : Ok a = Ok b -> a = b.
Proof. now intros [= ->]. Qed.

Lemma wrap16_small (v : Z) : 0 <= v < 65536 -> wrap16 v = v.
Proof. intros H. unfold wrap16. apply Z.mod_small. exact H. Qed.

Ltac unwrap16 :=
  repeat match goal with
         | |- context [wrap16 ?x] => rewrite (wrap16_small x) by lia
         end.

(** What [MatchField.Len] computes when it returns: no addition wraps. *)
Lemma MatchField_Len_inv (f : MatchField) (n : Z) :
  MatchField_typed f -> MatchField_Len f = Ok n ->
  exists v, MatchField_Value f = Some v /\
    let hdr := if MatchField_ExperimenterID f =? 0 then 4 else 8 in
    if MatchField_HasMask f
    then exists mk, MatchField_Mask f = Some mk /\
                    n = hdr + Message_Len v + Message_Len mk
    else n = hdr + Message_Len v.
Proof.
  intros [T1 T2] H. unfold MatchField_Len in H.
  destruct (MatchField_Value f) as [v |];
    cbv beta iota delta [call_Len bind] in H; [| discriminate].
  pose proof (Message_Len_range v T1) as Rv.
  exists v. split; [reflexivity |]. cbv zeta.
  destruct (MatchField_ExperimenterID f =? 0);
    destruct (MatchField_HasMask f);
    try (destruct (MatchField_Mask f) as [mk |];
         cbv beta iota delta [call_Len bind] in H;
         [pose proof (Message_Len_range mk T2) as Rm | discriminate]);
    cbv beta iota in H; apply Ok_inj in H; subst n;
    try (exists mk; split; [reflexivity |]);
    unwrap16; lia.
Qed.

Lemma MatchField_Len_range (f : MatchField) (n : Z) :
  MatchField_typed f -> MatchField_Len f = Ok n -> 4 <= n < 1024.
Proof.
  intros T H. pose proof T as [T1 T2].
  destruct (MatchField_Len_inv f n T H) as (v & Hv & Hn).
  rewrite Hv in T1. pose proof (Message_Len_range v T1).
  cbn zeta in Hn.
  destruct (MatchField_ExperimenterID f =? 0); destruct (MatchField_HasMask f).
  all: try (destruct Hn as (mk & Hm & ->); rewrite Hm in T2;
            pose proof (Message_Len_range mk T2)); subst; lia.
Qed.

(** [MatchField.MarshalBinary] returns exactly [Len()] bytes whenever
    [Len()] itself returns. *)
Lemma MatchField_MarshalBinary_len (f : MatchField) (n : Z) :
  MatchField_typed f -> MatchField_Len f = Ok n ->
  exists data, MatchField_MarshalBinary f = Ok data /\ len data = n.
Proof.
  intros T H. pose proof T as [T1 T2].
  pose proof (MatchField_Len_range f n T H) as R.
  destruct (MatchField_Len_inv f n T H) as (v & Hv & Hn). cbn zeta in Hn.
  rewrite Hv in T1.
  pose proof (Message_Len_range v T1) as Rv.
  pose proof (Message_MarshalBinary_len v T1) as Lv.
  unfold MatchField_MarshalBinary. rewrite H. cbn [bind].
  destruct (PutUint16_ok (make n) 0 (MatchField_Class f)) as (d1 & E1 & L1);
    [lia | rewrite len_make; lia |].
  rewrite len_make in L1 by lia. rewrite E1. cbn [bind].
  match goal with |- context [set_index d1 ?i ?x] =>
    destruct (set_index_ok d1 i x) as (d2 & E2 & L2); [lia |]; rewrite E2 end.
  cbn [bind].
  match goal with |- context [set_index d2 ?i ?x] =>
    destruct (set_index_ok d2 i x) as (d3 & E3 & L3); [lia |]; rewrite E3 end.
  cbn [bind]. rewrite Hv. cbn [call_MarshalBinary bind].
  match goal with |- context [copy_at d3 ?i ?x] =>
    destruct (copy_at_ok d3 i x) as (d4 & E4 & L4); [lia |]; rewrite E4 end.
  cbn [bind].
  destruct (MatchField_HasMask f).
  - destruct Hn as (mk & Hm & Hn). rewrite Hm in T2 |- *.
    pose proof (Message_Len_range mk T2) as Rm.
    cbn [call_MarshalBinary bind].
    match goal with |- context [copy_at d4 ?i ?x] =>
      destruct (copy_at_ok d4 i x) as (d5 & E5 & L5);
        [destruct (MatchField_ExperimenterID f =? 0); lia |]; rewrite E5 end.
    cbn [bind]. exists d5. split; [reflexivity | lia].
  - exists d4. split; [reflexivity | lia].
Qed.

(** [AddField] calls keep [Length = 4 + sum of Len()] in uint16 arithmetic. *)
Lemma build_match_snoc (fields : list MatchField) (f : MatchField) :
  build_match (fields ++ [f]) = (m <- build_match fields ;; Match_AddField m f).
Proof. unfold build_match. now rewrite fold_left_app. Qed.

Lemma total_len_snoc (fields : list MatchField) (f : MatchField) (s l : Z) :
  total_len fields = Ok s -> MatchField_Len f = Ok l ->
  total_len (fields ++ [f]) = Ok (s + l).
Proof.
  revert s. induction fields as [| a rest IH]; intros s Hs Hl; cbn [app total_len] in *.
  - injection Hs as <-. rewrite Hl. cbn [bind]. f_equal. lia.
  - destruct (MatchField_Len a) as [la | |]; cbn [bind] in *; try discriminate.
    destruct (total_len rest) as [sr | |]; cbn [bind] in *; try discriminate.
    injection Hs as <-. rewrite (IH sr eq_refl Hl). cbn [bind]. f_equal. lia.
Qed.

Lemma build_match_inv (fields : list MatchField) (m : Match) :
  build_match fields = Ok m ->
  Match_Type m = MatchType_OXM /\ Match_Fields m = fields /\
  exists s, total_len fields = Ok s /\ Match_Length m = wrap16 (4 + s).
Proof.
  revert m. induction fields as [| f fields IH] using rev_ind; intros m H.
  - injection H as <-. repeat split. exists 0. split; reflexivity.
  - rewrite build_match_snoc in H.
    destruct (build_match fields) as [m0 | |]; cbn [bind] in H; try discriminate.
    destruct (IH m0 eq_refl) as (Ht & Hf & s & Hs & Hl).
    unfold Match_AddField in H.
    destruct (MatchField_Len f) as [l | |] eqn:El; cbn [bind] in H; try discriminate.
    injection H as <-. cbn [Match_Type Match_Fields Match_Length].
    split; [exact Ht |]. split; [now rewrite Hf |].
    exists (s + l). split; [now apply total_len_snoc |].
    rewrite Hl. unfold wrap16. rewrite Zplus_mod_idemp_l. f_equal. lia.
Qed.

Lemma MatchField_Len_nonneg (f : MatchField) (n : Z) :
  MatchField_Len f = Ok n -> 0 <= n.
Proof.
  unfold MatchField_Len. intros H.
  destruct (call_Len (MatchField_Value f)) as [vl | |];
    cbv beta iota delta [bind] in H; try discriminate.
  destruct (MatchField_HasMask f).
  - destruct (call_Len (MatchField_Mask f)) as [ml | |];
      cbv beta iota delta [bind] in H; try discriminate.
    apply Ok_inj in H. subst n. apply Z.mod_pos_bound. lia.
  - apply Ok_inj in H. subst n. apply Z.mod_pos_bound. lia.
Qed.

Lemma total_len_nonneg (fields : list MatchField) (s : Z) :
  total_len fields = Ok s -> 0 <= s.
Proof.
  revert s. induction fields as [| a rest IH]; intros s Hs; cbn [total_len] in Hs.
  - apply Ok_inj in Hs. lia.
  - destruct (MatchField_Len a) as [l | |] eqn:El;
      cbv beta iota delta [bind] in Hs; try discriminate.
    destruct (total_len rest) as [sr | |];
      cbv beta iota delta [bind] in Hs; try discriminate.
    apply Ok_inj in Hs. subst s.
    pose proof (MatchField_Len_nonneg a l El). specialize (IH sr eq_refl). lia.
Qed.

(** C8 as stated fails: after 3277 calls of [AddField] with an unmasked
    IPV6_SRC field (20 bytes each) the fields add up to 65540 bytes, and
    the stored [Length] is 8, not 65544. *)
Lemma length_accounting_overflow :
  let fields := repeat (NewIpv6SrcField (repeat 1 16) None) 3277 in
  exists m, build_match fields = Ok m /\ total_len fields = Ok 65540 /\
            Match_Length m = 8 /\ Match_Length m <> 4 + 65540.
Proof.
  cbn zeta. eexists. split; [vm_compute; reflexivity |].
  split; [vm_compute; reflexivity |]. split; [reflexivity | discriminate].
Qed.

(** C8 (amended): the length [MatchField.Len] reports is the number of
    bytes [MatchField.MarshalBinary] returns; and for a match built from
    [NewMatch] by [AddField] calls the stored [Length] is 4 plus the sum
    of the [Len()] of its fields in uint16 arithmetic, that is modulo
    65536, hence exactly that sum whenever it is below 65536. *)
Theorem length_accounting (f : MatchField) (n : Z) (fields : list MatchField) (m : Match) :
  MatchField_typed f -> MatchField_Len f = Ok n ->
  build_match fields = Ok m ->
  (exists data, MatchField_MarshalBinary f = Ok data /\ len data = n) /\
  Match_Fields m = fields /\
  exists s, total_len fields = Ok s /\
            Match_Length m = wrap16 (4 + s) /\
            (4 + s < 65536 -> Match_Length m = 4 + s).
Proof.
  intros T Hn Hb. split; [now apply MatchField_MarshalBinary_len |].
  destruct (build_match_inv fields m Hb) as (_ & Hf & s & Hs & Hl).
  split; [exact Hf |]. exists s. split; [exact Hs |]. split; [exact Hl |].
  intros Hlt. rewrite Hl. apply wrap16_small.
  pose proof (total_len_nonneg fields s Hs). lia.
Qed.

Lemma length_accounting_witness :
  let f := NewEthDstField [1; 2; 3; 4; 5; 6] (Some [255; 255; 255; 0; 0; 0]) in
  let fields := [NewInPortField 3; f] in
  let m := mkMatch MatchType_OXM 28 fields in
  (exists data, MatchField_MarshalBinary f = Ok data /\ len data = 16) /\
  Match_Fields m = fields /\
  exists s, total_len fields = Ok s /\
            Match_Length m = wrap16 (4 + s) /\
            (4 + s < 65536 -> Match_Length m = 4 + s).
Proof.
  cbn zeta.
  apply (length_accounting
           (NewEthDstField [1; 2; 3; 4; 5; 6] (Some [255; 255; 255; 0; 0; 0])) 16
           [NewInPortField 3;
            NewEthDstField [1; 2; 3; 4; 5; 6] (Some [255; 255; 255; 0; 0; 0])]).
  - split; exact I.
  - reflexivity.
  - reflexivity.
Defined.

(** ** Big-endian values *)

Lemma testbit_byte (v n : Z) : Z.testbit (byte v) n = Z.testbit v n && (n <? 8).
Proof.
  unfold byte. rewrite Z.land_spec. change 255 with (Z.ones 8).
  destruct (0 <=? n) eqn:E.
  - rewrite Z.testbit_ones_nonneg by lia. reflexivity.
  - rewrite !Z.testbit_neg_r by lia. reflexivity.
Qed.

Lemma testbit_shl_lor (a x n : Z) :
  Z.testbit (Z.lor (Z.shiftl a 8) x) n = Z.testbit a (n - 8) || Z.testbit x n.
Proof.
  rewrite Z.lor_spec. f_equal.
  destruct (0 <=? n) eqn:E.
  - apply Z.shiftl_spec. lia.
  - rewrite !Z.testbit_neg_r by lia. reflexivity.
Qed.

Ltac bits_by_range :=
  repeat match goal with
         | |- context [Z.testbit (Z.shiftr ?a ?k) ?i] =>
             first [ rewrite (Z.testbit_neg_r (Z.shiftr a k) i) by lia
                   | rewrite (Z.shiftr_spec a k i) by lia ]
         end;
  repeat match goal with
         | |- context [?a <? ?b] =>
             first [ replace (a <? b) with true by (symmetry; apply Z.ltb_lt; lia)
                   | replace (a <? b) with false by (symmetry; apply Z.ltb_ge; lia) ]
         end;
  rewrite ?andb_true_r, ?andb_false_r, ?orb_false_r, ?orb_false_l;
  try reflexivity; try (f_equal; lia).

(** Reading back what [PutUint32] wrote gives the value as a uint32. *)
Lemma be_value_bytes32 (v : Z) : be_value (be_bytes32 v) = wrap32 v.
Proof.
  unfold wrap32. change 4294967296 with (2 ^ 32). rewrite <- Z.land_ones by lia.
  apply Z.bits_inj'. intros n Hn.
  unfold be_value, be_bytes32. cbn [fold_left].
  rewrite !testbit_shl_lor, !testbit_byte, Z.land_spec, Z.testbit_ones_nonneg by lia.
  rewrite Z.bits_0. cbn [orb].
  destruct (Z_lt_dec n 8);
    [| destruct (Z_lt_dec n 16);
       [| destruct (Z_lt_dec n 24); [| destruct (Z_lt_dec n 32)]]];
    bits_by_range.
Qed.

Lemma be_value_bytes16 (v : Z) : be_value (be_bytes16 v) = wrap16 v.
Proof.
  unfold wrap16. change 65536 with (2 ^ 16). rewrite <- Z.land_ones by lia.
  apply Z.bits_inj'. intros n Hn.
  unfold be_value, be_bytes16. cbn [fold_left].
  rewrite !testbit_shl_lor, !testbit_byte, Z.land_spec, Z.testbit_ones_nonneg by lia.
  rewrite Z.bits_0. cbn [orb].
  destruct (Z_lt_dec n 8); [| destruct (Z_lt_dec n 16)]; bits_by_range.
Qed.

Lemma byte_small (v : Z) : 0 <= v < 256 -> byte v = v.
Proof.
  intros H. unfold byte. change 255 with (Z.ones 8).
  rewrite Z.land_ones by lia. apply Z.mod_small. exact H.
Qed.

(** ** The OXM field codec *)

(** Scenario 1 of the specification: IN_PORT 3 is [80 00 00 04 00 00 00 03]. *)
Example marshal_in_port_3 :
  MatchField_MarshalBinary (NewInPortField 3) = Ok [0x80; 0x00; 0x00; 0x04; 0; 0; 0; 3].
Proof. reflexivity. Qed.

(** Scenario 2: ETH_DST with a mask. *)
Example marshal_eth_dst_masked :
  MatchField_MarshalBinary
    (NewEthDstField [1; 2; 3; 4; 5; 6] (Some [0xff; 0xff; 0xff; 0; 0; 0]))
  = Ok [0x80; 0x00; 0x07; 0x0c; 1; 2; 3; 4; 5; 6; 0xff; 0xff; 0xff; 0; 0; 0].
Proof. reflexivity. Qed.

(** Scenario 3: VLAN_VID 100 goes out as [10 64]. *)
Example marshal_vlan_vid_100 :
  value_payload (NewVlanIdField 100 None) = Ok [0x10; 0x64].
Proof. reflexivity. Qed.

(** The round trip does hold for IN_PORT, for every uint32 port. *)
Lemma in_port_round_trip (inPort : Z) :
  0 <= inPort < 4294967296 ->
  field_round_trip (NewInPortField inPort) = Ok (NewInPortField inPort).
Proof.
  intros H. unfold field_round_trip.
  assert (E : MatchField_MarshalBinary (NewInPortField inPort)
              = Ok ([0x80; 0x00; 0x00; 0x04] ++ be_bytes32 inPort)) by reflexivity.
  rewrite E. cbv beta iota delta [bind].
  unfold MatchField_UnmarshalBinary.
  change (slice_from ([128; 0; 0; 4] ++ be_bytes32 inPort) 0)
    with (Ok ([128; 0; 0; 4] ++ be_bytes32 inPort)).
  cbv beta iota delta [bind].
  change (BigEndian_Uint16 ([128; 0; 0; 4] ++ be_bytes32 inPort)) with (Ok 32768).
  cbv beta iota delta [bind].
  change (index ([128; 0; 0; 4] ++ be_bytes32 inPort) (0 + 2)) with (Ok 0).
  cbv beta iota delta [bind].
  change (index ([128; 0; 0; 4] ++ be_bytes32 inPort) (0 + 2 + 1)) with (Ok 4).
  cbv beta iota delta [bind].
  change (32768 =? OXM_CLASS_EXPERIMENTER) with false.
  cbv beta iota zeta delta [bind fst snd].
  change (slice_from ([128; 0; 0; 4] ++ be_bytes32 inPort) (0 + 2 + 1 + 1))
    with (Ok (be_bytes32 inPort)).
  cbv beta iota delta [bind].
  change (Z.land 0 1 =? 1) with false. change (Z.shiftr 0 1) with 0.
  change (DecodeMatchField 32768 0 4 false (be_bytes32 inPort))
    with (v <- BigEndian_Uint32 (be_bytes32 inPort) ;; Ok (InPortField v)).
  change (BigEndian_Uint32 (be_bytes32 inPort))
    with (Ok (be_value (be_bytes32 inPort))).
  rewrite be_value_bytes32. unfold wrap32. rewrite Z.mod_small by exact H.
  reflexivity.
Qed.

(** More of the builders, through the codec and back. *)
Example eth_type_round_trip :
  field_round_trip (NewEthTypeField 0x0800) = Ok (NewEthTypeField 0x0800).
Proof. reflexivity. Qed.

Example ip_ttl_round_trip :
  field_round_trip (NewIPTtlField 64) = Ok (NewIPTtlField 64).
Proof. reflexivity. Qed.

(** PACKET_TYPE has a builder but no case in DecodeMatchField. *)
Example packet_type_not_decoded :
  field_round_trip (NewPacketTypeField 0 0x0800)
  = Err (ErrUnhandledField OXM_FIELD_PACKET_TYPE OXM_CLASS_OPENFLOW_BASIC).
Proof. reflexivity. Qed.

(** [NewIpv6FLabelField] without a mask leaves [HasMask] set and [Mask]
    nil: [Len] and [MarshalBinary] panic on it. *)
Example ipv6_flabel_without_mask :
  MatchField_Len (NewIpv6FLabelField 5 None) = Panic NilDereference /\
  MatchField_MarshalBinary (NewIpv6FLabelField 5 None) = Panic NilDereference.
Proof. split; reflexivity. Qed.

(** A masked ETH_SRC comes back without its address and without its mask. *)
Example eth_src_masked_round_trip :
  field_round_trip (NewEthSrcField [1; 2; 3; 4; 5; 6] (Some [255; 255; 255; 0; 0; 0]))
  = Ok (mkMatchField OXM_CLASS_OPENFLOW_BASIC OXM_FIELD_ETH_SRC true 12 0
          (Some (EthSrcField [])) (Some (EthSrcField []))).
Proof. reflexivity. Qed.

(** C1: the round trip of an OXM field fails for ETH_DST.  The field
    marshals to the expected bytes, but [EthDstField.UnmarshalBinary]
    copies into the zero-length [EthDst] of the fresh receiver, so the
    decoded value holds no address. *)
Theorem eth_dst_round_trip_loses_address :
  let f := NewEthDstField [1; 2; 3; 4; 5; 6] None in
  MatchField_MarshalBinary f = Ok [0x80; 0x00; 0x06; 0x06; 1; 2; 3; 4; 5; 6] /\
  field_round_trip f
  = Ok (mkMatchField OXM_CLASS_OPENFLOW_BASIC OXM_FIELD_ETH_DST false 6 0
          (Some (EthDstField [])) None) /\
  field_round_trip f <> Ok f.
Proof.
  cbn zeta. split; [reflexivity |]. split; [reflexivity |]. discriminate.
Qed.

Lemma copy_into_empty (src : list Z) : copy [] src = [].
Proof. unfold copy. cbn [length firstn app]. apply skipn_nil. Qed.

(** The same loss for the other MAC-shaped decoders. *)
Lemma mac_decoders_lose_address (b : list Z) :
  Message_UnmarshalBinary (EthDstField []) b = Ok (EthDstField []) /\
  Message_UnmarshalBinary (EthSrcField []) b = Ok (EthSrcField []) /\
  (6 <= len b -> Message_UnmarshalBinary (ArpXHaField []) b = Ok (ArpXHaField [])).
Proof.
  cbn [Message_UnmarshalBinary]. rewrite !copy_into_empty.
  split; [reflexivity |]. split; [reflexivity |].
  intros H. destruct (len b <? 6) eqn:E; [lia |].
  unfold slice_to. destruct (6 <=? len b) eqn:E2; [| lia].
  cbn [andb Z.leb Z.compare bind]. now rewrite copy_into_empty.
Qed.

(** ** The match block *)

(** Scenario 6: a match with one IN_PORT field has inner size 12 and
    marshals to 16 bytes, the last four being zero. *)
Example marshal_match_in_port :
  (m <- build_match [NewInPortField 3] ;; Match_MarshalBinary m)
  = Ok [0; 1; 0; 12; 0x80; 0; 0; 4; 0; 0; 0; 3; 0; 0; 0; 0].
Proof. reflexivity. Qed.

Lemma marshal_fields_len (fields : list MatchField) (data : list Z) (n : Z) (d : list Z) :
  marshal_fields data n fields = Ok d -> len d = len data.
Proof.
  revert data n. induction fields as [| a rest IH]; intros data n H; cbn [marshal_fields] in H.
  - apply Ok_inj in H. now subst.
  - destruct (MatchField_MarshalBinary a) as [b | |];
      cbv beta iota delta [bind] in H; try discriminate.
    destruct (copy_at data n b) as [d1 | |] eqn:E;
      cbv beta iota delta [bind] in H; try discriminate.
    rewrite (IH _ _ H). now apply copy_at_len in E.
Qed.

(** Whatever [Match.MarshalBinary] returns is a multiple of 8 bytes long. *)
Lemma Match_MarshalBinary_len_mod8 (m : Match) (data : list Z) :
  Match_MarshalBinary m = Ok data -> len data mod 8 = 0.
Proof.
  unfold Match_MarshalBinary, Match_Len. intros H.
  destruct (sum_field_lens 4 (Match_Fields m)) as [n | |];
    cbv beta iota zeta delta [bind] in H; try discriminate.
  set (l := wrap16 (wrap16 (n + 7) / 8 * 8)) in H.
  assert (Hl : 0 <= l /\ l mod 8 = 0).
  { subst l. unfold wrap16.
    pose proof (Z.mod_pos_bound (n + 7) 65536 ltac:(lia)) as B.
    set (x := (n + 7) mod 65536) in *.
    assert (0 <= x / 8 * 8 <= x).
    { pose proof (Z.mul_div_le x 8 ltac:(lia)).
      pose proof (Z.div_pos x 8 ltac:(lia) ltac:(lia)). lia. }
    rewrite (Z.mod_small (x / 8 * 8)) by lia. split; [lia |].
    apply Z.mod_mul. lia. }
  destruct (BigEndian_PutUint16 (make l) 0 (Match_Type m)) as [d1 | |] eqn:E1;
    cbv beta iota zeta delta [bind] in H; try discriminate.
  destruct (BigEndian_PutUint16 d1 (0 + 2) (Match_Length m)) as [d2 | |] eqn:E2;
    cbv beta iota zeta delta [bind] in H; try discriminate.
  apply marshal_fields_len in H. apply PutUint16_len in E1, E2.
  rewrite H, E2, E1, len_make by lia. apply Hl.
Qed.

(** The layout of a marshaled match. *)

Lemma skipn_zeros (n k : nat) : skipn n (repeat 0 k) = repeat 0 (k - n).
Proof.
  revert k. induction n as [| n IH]; intros k.
  - now rewrite Nat.sub_0_r.
  - destruct k as [| k]; [reflexivity | apply IH].
Qed.

Lemma slice_from_app (pre tl : list Z) : slice_from (pre ++ tl) (len pre) = Ok tl.
Proof.
  rewrite slice_from_ok
    by (rewrite len_app; pose proof (len_nonneg tl); pose proof (len_nonneg pre); lia).
  unfold len. rewrite Nat2Z.id, skipn_app, Nat.sub_diag, skipn_all. reflexivity.
Qed.

(** [copy(data[n:], b)] where [data] is [pre] followed by zeros, [n] is
    the length of [pre] and [b] fits in the zeros. *)
Lemma copy_at_zeros (pre b : list Z) (k : nat) :
  (length b <= k)%nat ->
  copy_at (pre ++ repeat 0 k) (len pre) b = Ok (pre ++ b ++ repeat 0 (k - length b)).
Proof.
  intros H. unfold copy_at.
  rewrite slice_from_app. cbv beta iota delta [bind]. unfold len. rewrite Nat2Z.id.
  rewrite firstn_app, Nat.sub_diag, firstn_all. cbn [firstn]. rewrite app_nil_r.
  unfold copy. rewrite repeat_length, firstn_all2 by exact H.
  now rewrite skipn_zeros.
Qed.

Lemma PutUint16_zeros (pre : list Z) (n : nat) (v : Z) :
  BigEndian_PutUint16 (pre ++ repeat 0 (2 + n)) (len pre) v
  = Ok (pre ++ be_bytes16 v ++ repeat 0 n).
Proof.
  unfold BigEndian_PutUint16. rewrite slice_from_app. cbv beta iota delta [bind].
  assert (L : len (repeat 0 (2 + n)) = 2 + Z.of_nat n)
    by (unfold len; rewrite repeat_length; lia).
  rewrite L. destruct (2 + Z.of_nat n <? 2) eqn:E; [lia |].
  rewrite copy_at_zeros by (cbn [be_bytes16 length]; lia).
  cbn [be_bytes16 length]. replace (2 + n - 2)%nat with n by lia. reflexivity.
Qed.

Lemma marshal_fields_zeros (fields : list MatchField) :
  forall (pre : list Z) (k : nat) (bs : list (list Z)),
    marshal_each fields = Ok bs -> (length (concat bs) <= k)%nat ->
    marshal_fields (pre ++ repeat 0 k) (len pre) fields
    = Ok (pre ++ concat bs ++ repeat 0 (k - length (concat bs))).
Proof.
  induction fields as [| a rest IH]; intros pre k bs E Hk;
    cbn [marshal_each marshal_fields] in *.
  - apply Ok_inj in E. subst bs. cbn [concat app length]. now rewrite Nat.sub_0_r.
  - destruct (MatchField_MarshalBinary a) as [b | |];
      cbv beta iota delta [bind] in E |- *; try discriminate.
    destruct (marshal_each rest) as [bs' | |];
      cbv beta iota delta [bind] in E; try discriminate.
    apply Ok_inj in E. subst bs. cbn [concat] in *. rewrite length_app in Hk.
    rewrite copy_at_zeros by lia. cbv beta iota delta [bind].
    rewrite app_assoc, <- len_app.
    rewrite (IH (pre ++ b) (k - length b)%nat bs' eq_refl) by lia.
    rewrite <- !app_assoc, length_app.
    replace (k - length b - length (concat bs'))%nat
      with (k - (length b + length (concat bs')))%nat by lia.
    reflexivity.
Qed.

Lemma sum_field_lens_exact (fields : list MatchField) :
  forall (n s : Z), total_len fields = Ok s -> 0 <= n -> n + s < 65536 ->
                    sum_field_lens n fields = Ok (n + s).
Proof.
  induction fields as [| a rest IH]; intros n s Hs Hn Hlt; cbn [total_len sum_field_lens] in *.
  - apply Ok_inj in Hs. subst s. f_equal. lia.
  - destruct (MatchField_Len a) as [l | |] eqn:El;
      cbv beta iota delta [bind] in Hs |- *; try discriminate.
    destruct (total_len rest) as [sr | |] eqn:Er;
      cbv beta iota delta [bind] in Hs; try discriminate.
    apply Ok_inj in Hs. subst s.
    pose proof (MatchField_Len_nonneg a l El).
    pose proof (total_len_nonneg rest sr Er).
    rewrite wrap16_small by lia.
    rewrite (IH (n + l) sr eq_refl) by lia. f_equal. lia.
Qed.

Lemma marshal_each_len (fields : list MatchField) :
  Forall MatchField_typed fields ->
  forall s, total_len fields = Ok s ->
  exists bs, marshal_each fields = Ok bs /\ len (concat bs) = s.
Proof.
  induction 1 as [| a rest Ta Tr IH]; intros s Hs; cbn [total_len marshal_each] in *.
  - apply Ok_inj in Hs. subst s. now exists [].
  - destruct (MatchField_Len a) as [l | |] eqn:El;
      cbv beta iota delta [bind] in Hs; try discriminate.
    destruct (total_len rest) as [sr | |] eqn:Er;
      cbv beta iota delta [bind] in Hs; try discriminate.
    apply Ok_inj in Hs. subst s.
    destruct (MatchField_MarshalBinary_len a l Ta El) as (b & Eb & Lb).
    destruct (IH sr eq_refl) as (bs & Ebs & Lbs).
    rewrite Eb, Ebs. cbv beta iota delta [bind].
    exists (b :: bs). split; [reflexivity |].
    cbn [concat]. rewrite len_app. lia.
Qed.

(** A match built by [AddField] calls whose fields fit in a uint16
    marshals to: type, inner length, the fields one after the other, and
    zero bytes up to the next multiple of 8. *)
Lemma Match_MarshalBinary_layout (fields : list MatchField) (m : Match) (s : Z) :
  Forall MatchField_typed fields ->
  build_match fields = Ok m -> total_len fields = Ok s -> 4 + s + 7 < 65536 ->
  exists bs,
    marshal_each fields = Ok bs /\
    Match_MarshalBinary m
    = Ok (be_bytes16 MatchType_OXM ++ be_bytes16 (4 + s) ++ concat bs
          ++ repeat 0 (Z.to_nat ((4 + s + 7) / 8 * 8 - (4 + s)))).
Proof.
  intros T Hb Hs Hlt.
  destruct (build_match_inv fields m Hb) as (Ht & Hf & s' & Hs' & Hl).
  rewrite Hs in Hs'. apply Ok_inj in Hs'. subst s'.
  pose proof (total_len_nonneg fields s Hs) as S0.
  rewrite wrap16_small in Hl by lia.
  destruct (marshal_each_len fields T s Hs) as (bs & Ebs & Lbs).
  exists bs. split; [exact Ebs |].
  set (L := (4 + s + 7) / 8 * 8).
  assert (HL : 4 + s <= L <= 4 + s + 7).
  { subst L. pose proof (Z.mul_div_le (4 + s + 7) 8 ltac:(lia)).
    pose proof (Z.mod_pos_bound (4 + s + 7) 8 ltac:(lia)).
    pose proof (Z.div_mod (4 + s + 7) 8 ltac:(lia)). lia. }
  set (k := Z.to_nat (L - (4 + s))).
  assert (HLen : Match_Len m = Ok L).
  { unfold Match_Len. rewrite Hf, (sum_field_lens_exact fields 4 s Hs) by lia.
    cbv beta iota delta [bind].
    rewrite (wrap16_small (4 + s + 7)) by lia. fold L. now rewrite (wrap16_small L) by lia. }
  assert (Hmk : make L = repeat 0 (2 + (2 + (length (concat bs) + k)))).
  { unfold make. f_equal. unfold len in Lbs. lia. }
  assert (E1 : BigEndian_PutUint16 (make L) 0 MatchType_OXM
               = Ok (be_bytes16 MatchType_OXM
                     ++ repeat 0 (2 + (length (concat bs) + k)))).
  { rewrite Hmk.
    exact (PutUint16_zeros [] (2 + (length (concat bs) + k)) MatchType_OXM). }
  assert (E2 : BigEndian_PutUint16
                 (be_bytes16 MatchType_OXM ++ repeat 0 (2 + (length (concat bs) + k)))
                 (0 + 2) (4 + s)
               = Ok ((be_bytes16 MatchType_OXM ++ be_bytes16 (4 + s))
                     ++ repeat 0 (length (concat bs) + k))).
  { rewrite <- app_assoc.
    exact (PutUint16_zeros (be_bytes16 MatchType_OXM) (length (concat bs) + k) (4 + s)). }
  assert (E3 : marshal_fields
                 ((be_bytes16 MatchType_OXM ++ be_bytes16 (4 + s))
                  ++ repeat 0 (length (concat bs) + k))
                 (0 + 2 + 2) fields
               = Ok ((be_bytes16 MatchType_OXM ++ be_bytes16 (4 + s))
                     ++ concat bs ++ repeat 0 k)).
  { replace k with (length (concat bs) + k - length (concat bs))%nat at 2 by lia.
    apply (marshal_fields_zeros fields
             (be_bytes16 MatchType_OXM ++ be_bytes16 (4 + s)) _ bs Ebs). lia. }
  unfold Match_MarshalBinary. rewrite HLen, Ht, Hl, Hf.
  cbv beta iota zeta delta [bind]. rewrite E1, E2, E3.
  now rewrite <- app_assoc.
Qed.

(** C2: the round trip of a match block fails for a match holding an
    ETH_DST field.  The bytes are a multiple of 8 long and zero-padded
    past the inner length 14, but the decoded match holds an ETH_DST
    field without its address. *)
Theorem match_round_trip_loses_address :
  let f := NewEthDstField [1; 2; 3; 4; 5; 6] None in
  exists m,
    build_match [f] = Ok m /\ Match_Length m = 14 /\
    Match_MarshalBinary m
    = Ok [0; 1; 0; 14; 0x80; 0x00; 0x06; 0x06; 1; 2; 3; 4; 5; 6; 0; 0] /\
    match_round_trip m
    = Some (Ok (mkMatch MatchType_OXM 14
                  [mkMatchField OXM_CLASS_OPENFLOW_BASIC OXM_FIELD_ETH_DST false 6 0
                     (Some (EthDstField [])) None])) /\
    match_round_trip m <> Some (Ok m).
Proof.
  cbn zeta. eexists. split; [reflexivity |]. split; [reflexivity |].
  split; [reflexivity |]. split; [reflexivity |]. discriminate.
Qed.

(** ** Short input *)

(** The readers that check the length first return an error. *)
Lemma checked_readers_short (b : list Z) :
  (len b < 4 -> Message_UnmarshalBinary (Ipv6FLabelField 0) b = Err ErrWrongSize) /\
  (len b < 1 -> Message_UnmarshalBinary (TtlField 0) b = Err ErrWrongSize) /\
  (len b < 6 -> Message_UnmarshalBinary (ArpXHaField []) b = Err ErrWrongSize) /\
  (len b < 4 -> MatchField_UnmarshalHeader new_MatchField b = Err ErrHeaderTooShort).
Proof.
  repeat split; intros H;
    cbn [Message_UnmarshalBinary]; unfold MatchField_UnmarshalHeader;
    match goal with |- context [len b <? ?k] => destruct (len b <? k) eqn:E end;
    (reflexivity || lia).
Qed.

(** The readers that do not check panic on the first missing byte. *)
Lemma InPortField_short (v : Z) (b : list Z) :
  len b < 4 -> Message_UnmarshalBinary (InPortField v) b = Panic IndexOutOfRange.
Proof.
  intros H. cbn [Message_UnmarshalBinary]. unfold BigEndian_Uint32.
  destruct (len b <? 4) eqn:E; [reflexivity | lia].
Qed.

Lemma EthTypeField_short (v : Z) (b : list Z) :
  len b < 2 -> Message_UnmarshalBinary (EthTypeField v) b = Panic IndexOutOfRange.
Proof.
  intros H. cbn [Message_UnmarshalBinary]. unfold BigEndian_Uint16.
  destruct (len b <? 2) eqn:E; [reflexivity | lia].
Qed.

Lemma MatchField_UnmarshalBinary_short (m : MatchField) (data : list Z) :
  len data < 4 -> MatchField_UnmarshalBinary m data = Panic IndexOutOfRange.
Proof.
  intros H.
  destruct data as [| a [| b [| c [| d rest]]]]; try reflexivity.
  unfold len in H. cbn [length] in H. lia.
Qed.

(** C5: the decoders do not all return a short-buffer error on short
    input.  [InPortField], [EthTypeField] and [MatchField.UnmarshalBinary]
    panic with an index out of range, and [EthDstField] succeeds on an
    empty slice; none of them returns an error. *)
Theorem unchecked_readers_on_short_input :
  Message_UnmarshalBinary (InPortField 0) [0; 0; 1] = Panic IndexOutOfRange /\
  Message_UnmarshalBinary (EthTypeField 0) [8] = Panic IndexOutOfRange /\
  MatchField_UnmarshalBinary new_MatchField [0x80; 0x00; 0x00] = Panic IndexOutOfRange /\
  Message_UnmarshalBinary (EthDstField []) [] = Ok (EthDstField []).
Proof. repeat split. Qed.

(** ** Unknown fields *)

Lemma DecodeMatchField_by_cases (class field length : Z) (hasMask : bool) (data : list Z) :
  DecodeMatchField class field length hasMask data =
  match class_cases class length hasMask with
  | None => Err (ErrUnsupportedMatchField field class)
  | Some cases =>
      match switch field cases with
      | Some val => call_UnmarshalBinary val data
      | None =>
          Err (if class =? OXM_CLASS_OPENFLOW_BASIC then ErrUnhandledField field class
               else if class =? OXM_CLASS_NXM_1 then ErrUnknownNxm1Field field
               else if class =? OXM_CLASS_PACKET_REGS then ErrUnknownPacketRegsField field
               else ErrUnknownExperimenterField field)
      end
  end.
Proof.
  unfold DecodeMatchField, class_cases.
  destruct (class =? OXM_CLASS_OPENFLOW_BASIC); [reflexivity |].
  destruct (class =? OXM_CLASS_NXM_1); [reflexivity |].
  destruct (class =? OXM_CLASS_PACKET_REGS); [reflexivity |].
  destruct (class =? OXM_CLASS_EXPERIMENTER); reflexivity.
Qed.

(** A field that reaches a [default] branch, or a class that reaches the
    final [else], gets an unknown-field error. *)
Lemma DecodeMatchField_default (class field length : Z) (hasMask : bool) (data : list Z) :
  match class_cases class length hasMask with
  | None => True
  | Some cases => switch field cases = None
  end ->
  exists e, DecodeMatchField class field length hasMask data = Err e /\
            is_unknown_oxm_field e = true.
Proof.
  rewrite DecodeMatchField_by_cases.
  destruct (class_cases class length hasMask) as [cases |].
  - intros ->. eexists. split; [reflexivity |].
    destruct (class =? OXM_CLASS_OPENFLOW_BASIC); [reflexivity |].
    destruct (class =? OXM_CLASS_NXM_1); [reflexivity |].
    destruct (class =? OXM_CLASS_PACKET_REGS); reflexivity.
  - intros _. eexists. split; reflexivity.
Qed.

(** C6: for the NXM_1 constants whose case has no body, DecodeMatchField
    does not return an error: [val] is still nil when
    [val.UnmarshalBinary(data)] is called, which panics. *)
Theorem nxm1_empty_cases_panic (length : Z) (hasMask : bool) (data : list Z) :
  DecodeMatchField OXM_CLASS_NXM_1 NXM_NX_TUN_ID length hasMask data = Panic NilDereference /\
  DecodeMatchField OXM_CLASS_NXM_1 NXM_NX_IP_FRAG length hasMask data = Panic NilDereference /\
  DecodeMatchField OXM_CLASS_NXM_1 NXM_NX_MPLS_TTL length hasMask data = Panic NilDereference /\
  DecodeMatchField OXM_CLASS_NXM_1 NXM_NX_TUN_FLAGS length hasMask data = Panic NilDereference.
Proof. repeat split. Qed.

(** All eleven constants with an empty case. *)
Lemma nxm1_empty_cases (field length : Z) (hasMask : bool) (data : list Z) :
  In field [NXM_NX_TUN_ID; NXM_NX_IP_FRAG; NXM_NX_IPV6_LABEL; NXM_NX_IP_ECN;
            NXM_NX_MPLS_TTL; NXM_NX_TCP_FLAGS; NXM_NX_DP_HASH; NXM_NX_RECIRC_ID;
            NXM_NX_TUN_GBP_ID; NXM_NX_TUN_GBP_FLAGS; NXM_NX_TUN_FLAGS] ->
  DecodeMatchField OXM_CLASS_NXM_1 field length hasMask data = Panic NilDereference.
Proof.
  cbn [In]. intros H.
  repeat (destruct H as [<- | H]; [reflexivity |]). contradiction.
Qed.

(** *** The decoding loop of a match comes to an end *)

Lemma index_In (b : list Z) (i x : Z) : index b i = Ok x -> In x b.
Proof.
  unfold index. destruct ((0 <=? i) && (i <? len b)) eqn:E; [| discriminate].
  intros H. apply Ok_inj in H. subst x.
  apply andb_prop in E as [E1 E2]. apply Z.leb_le in E1. apply Z.ltb_lt in E2.
  apply nth_In. unfold len in E2. lia.
Qed.

Lemma switch_In {A : Type} (tag : Z) (cases : list (Z * A)) (v : A) :
  switch tag cases = Some v -> exists k, In (k, v) cases.
Proof.
  induction cases as [| [k w] rest IH]; cbn [switch]; [discriminate |].
  destruct (tag =? k).
  - intros [= ->]. exists k. now left.
  - intros H. destruct (IH H) as [k' Hk]. exists k'. now right.
Qed.

Lemma new_ByteArrayField_typed (length : Z) (hasMask : bool) :
  0 <= length < 256 -> Message_typed (new_ByteArrayField length hasMask).
Proof.
  intros H. unfold new_ByteArrayField, Message_typed.
  destruct hasMask; cbn [negb]; [| exact H].
  pose proof (Z.div_pos length 2 ltac:(lia) ltac:(lia)).
  pose proof (Z.div_le_upper_bound length 2 length ltac:(lia) ltac:(lia)). lia.
Qed.

Lemma class_cases_typed (class length : Z) (hasMask : bool) (cases : list (Z * option Message)) :
  0 <= length < 256 -> class_cases class length hasMask = Some cases ->
  Forall receiver_typed cases.
Proof.
  intros H. pose proof (new_ByteArrayField_typed length hasMask H) as T.
  unfold class_cases.
  destruct (class =? OXM_CLASS_OPENFLOW_BASIC);
    [| destruct (class =? OXM_CLASS_NXM_1);
       [| destruct (class =? OXM_CLASS_PACKET_REGS);
          [| destruct (class =? OXM_CLASS_EXPERIMENTER); [| discriminate]]]];
    intros [= <-]; repeat (constructor; [first [exact T | exact I] |]); constructor.
Qed.

(** Unmarshaling keeps the receiver's type, and with it [Length]. *)
Lemma Message_UnmarshalBinary_typed (m v : Message) (b : list Z) :
  Message_typed m -> Message_UnmarshalBinary m b = Ok v -> Message_typed v.
Proof.
  intros T H.
  destruct m; cbn [Message_UnmarshalBinary] in H;
    unfold Uint32Message_UnmarshalBinary, Uint16Message_UnmarshalBinary,
      ByteArrayField_UnmarshalBinary, CTLabel_UnmarshalBinary in H;
    cbv beta iota delta [bind] in H;
    repeat match type of H with
           | (if ?c then _ else _) = _ => destruct c; [discriminate |]
           | match ?r with Ok _ => _ | Err _ => _ | Panic _ => _ end = _ =>
               destruct r; try discriminate
           end;
    apply Ok_inj in H; subst v; exact T.
Qed.

Lemma DecodeMatchField_typed (class field length : Z) (hasMask : bool) (data : list Z)
    (v : Message) :
  0 <= length < 256 ->
  DecodeMatchField class field length hasMask data = Ok v -> Message_typed v.
Proof.
  intros H. rewrite DecodeMatchField_by_cases.
  destruct (class_cases class length hasMask) as [cases |] eqn:Ec; [| discriminate].
  pose proof (class_cases_typed class length hasMask cases H Ec) as F.
  destruct (switch field cases) as [val |] eqn:Es; [| discriminate].
  destruct (switch_In field cases val Es) as [k Hk].
  rewrite Forall_forall in F. specialize (F _ Hk). unfold receiver_typed in F. cbn [snd] in F.
  destruct val as [m |]; cbn [call_UnmarshalBinary]; [| discriminate].
  now apply Message_UnmarshalBinary_typed.
Qed.

(** A field decoded from bytes is well typed. *)
Lemma MatchField_UnmarshalBinary_typed (data : list Z) (f : MatchField) :
  Forall is_byte data ->
  MatchField_UnmarshalBinary new_MatchField data = Ok f -> MatchField_typed f.
Proof.
  intros B. unfold MatchField_UnmarshalBinary.
  destruct (slice_from data 0) as [tl0 | |]; cbv beta iota delta [bind]; try discriminate.
  destruct (BigEndian_Uint16 tl0) as [class | |]; cbv beta iota delta [bind]; try discriminate.
  destruct (index data (0 + 2)) as [fld | |]; cbv beta iota delta [bind]; try discriminate.
  destruct (index data (0 + 2 + 1)) as [length | |] eqn:El;
    cbv beta iota delta [bind]; try discriminate.
  assert (Hl : 0 <= length < 256).
  { apply index_In in El. rewrite Forall_forall in B. exact (B _ El). }
  match goal with |- match ?r with _ => _ end = _ -> _ =>
    destruct r as [ne | |]; try discriminate end.
  cbv zeta.
  destruct (slice_from data (fst ne)) as [tl1 | |]; try discriminate.
  destruct (DecodeMatchField class (Z.shiftr fld 1) length (Z.land fld 1 =? 1) tl1)
    as [value | |] eqn:Ev; try discriminate.
  apply DecodeMatchField_typed in Ev; [| exact Hl].
  destruct (Z.land fld 1 =? 1).
  - destruct (slice_from data _) as [tl2 | |]; try discriminate.
    destruct (DecodeMatchField class (Z.shiftr fld 1) length true tl2)
      as [mask | |] eqn:Em; try discriminate.
    apply DecodeMatchField_typed in Em; [| exact Hl].
    intros H. apply Ok_inj in H. subst f. split; assumption.
  - intros H. apply Ok_inj in H. subst f. split; [assumption | exact I].
Qed.

Lemma skipn_bytes (n : nat) (data : list Z) :
  Forall is_byte data -> Forall is_byte (skipn n data).
Proof.
  intros B. rewrite Forall_forall in *. intros x Hx. apply B.
  rewrite <- (firstn_skipn n data). apply in_or_app. now right.
Qed.

(** Each turn of the loop moves [n] forward by at least 4, so a fuel of
    [length - n] turns is never used up. *)
Lemma unmarshal_fields_terminates (data : list Z) (length : Z) :
  Forall is_byte data ->
  forall (fuel : nat) (n : Z) (fields : list MatchField),
    length - n <= Z.of_nat fuel ->
    unmarshal_fields fuel data length n fields <> None.
Proof.
  intros B. induction fuel as [| fuel IH]; intros n fields H; cbn [unmarshal_fields].
  - destruct (n <? length) eqn:E; [lia | discriminate].
  - destruct (n <? length) eqn:E; [| discriminate].
    unfold slice_from.
    destruct ((0 <=? n) && (n <=? len data)); cbv beta iota delta [bind]; [| discriminate].
    destruct (MatchField_UnmarshalBinary new_MatchField (skipn (Z.to_nat n) data))
      as [field | |] eqn:Ef; try discriminate.
    apply MatchField_UnmarshalBinary_typed in Ef; [| now apply skipn_bytes].
    destruct (MatchField_Len field) as [l | |] eqn:El; try discriminate.
    pose proof (MatchField_Len_range field l Ef El).
    apply IH. lia.
Qed.

(** [Match.UnmarshalBinary] always comes back, with a match, an error or
    a panic. *)
Lemma Match_UnmarshalBinary_terminates (m : Match) (data : list Z) :
  Forall is_byte data -> Match_UnmarshalBinary m data <> None.
Proof.
  intros B. unfold Match_UnmarshalBinary.
  destruct (tl <- slice_from data 0 ;; BigEndian_Uint16 tl) as [type | |]; try discriminate.
  destruct (tl <- slice_from data (0 + 2) ;; BigEndian_Uint16 tl) as [length | |];
    try discriminate.
  pose proof (unmarshal_fields_terminates data length B (Z.to_nat length) (0 + 2 + 2)
                (Match_Fields m) ltac:(lia)) as T.
  destruct (unmarshal_fields (Z.to_nat length) data length (0 + 2 + 2) (Match_Fields m))
    as [[fields | |] |]; try discriminate. contradiction.
Qed.

(** ** The length/mask rule *)

Lemma ByteArrayField_decode (length : Z) (hasMask : bool) (data : list Z) :
  let L := per_side_length length hasMask in
  call_UnmarshalBinary (Some (new_ByteArrayField length hasMask)) data =
  if len data <? L then Err ErrWrongSize
  else Ok (ByteArrayField (firstn (Z.to_nat L) data) L).
Proof.
  cbn zeta. unfold per_side_length, new_ByteArrayField.
  destruct hasMask; reflexivity.
Qed.

Lemma byte_array_field_cases (class field length : Z) (hasMask : bool) :
  byte_array_field class field = true ->
  exists cases, class_cases class length hasMask = Some cases /\
                switch field cases = Some (Some (new_ByteArrayField length hasMask)).
Proof.
  unfold byte_array_field. intros H.
  apply orb_prop in H as [H | H].
  - apply andb_prop in H as [Hc H]. apply Z.eqb_eq in Hc. subst class.
    exists (nxm1_cases length hasMask). split; [reflexivity |].
    apply orb_prop in H as [H | H]; apply andb_prop in H as [H1 H2];
      apply Z.leb_le in H1, H2.
    + assert (E : field = 40 \/ field = 41 \/ field = 42 \/ field = 43 \/
                  field = 44 \/ field = 45 \/ field = 46 \/ field = 47)
        by (unfold NXM_NX_TUN_METADATA0, NXM_NX_TUN_METADATA7 in *; lia).
      repeat (destruct E as [-> | E]; [reflexivity |]). subst. reflexivity.
    + assert (E : field = 111 \/ field = 112 \/ field = 113 \/ field = 114)
        by (unfold NXM_NX_XXREG0, NXM_NX_XXREG3 in *; lia).
      repeat (destruct E as [-> | E]; [reflexivity |]). subst. reflexivity.
  - apply andb_prop in H as [H H2]. apply andb_prop in H as [Hc H1].
    apply Z.eqb_eq in Hc. subst class. apply Z.leb_le in H1, H2.
    exists (packet_regs_cases length hasMask). split; [reflexivity |].
    assert (E : field = 0 \/ field = 1 \/ field = 2 \/ field = 3 \/
                field = 4 \/ field = 5 \/ field = 6 \/ field = 7)
      by (unfold OXM_PACKET_REG0, OXM_PACKET_REG7 in *; lia).
    repeat (destruct E as [-> | E]; [reflexivity |]). subst. reflexivity.
Qed.

(** The CT_LABEL case hands [new(CTLabel)] the data and nothing else:
    what it decodes does not depend on the header's length or mask bit,
    however [CTLabel] reads its bytes. *)
Lemma ct_label_decoding_ignores_header (length1 length2 : Z) (hasMask1 hasMask2 : bool)
    (data : list Z) :
  DecodeMatchField OXM_CLASS_NXM_1 NXM_NX_CT_LABEL length1 hasMask1 data =
  DecodeMatchField OXM_CLASS_NXM_1 NXM_NX_CT_LABEL length2 hasMask2 data.
Proof. reflexivity. Qed.

(** C7 as stated fails for CT_LABEL: it is decoded through [CTLabel],
    which is never told the header length.  With header length 8 and no
    mask the decoded value reports 16 bytes. *)
Lemma ct_label_ignores_header_length :
  let data := [1; 2; 3; 4; 5; 6; 7; 8; 9; 10; 11; 12; 13; 14; 15; 16] in
  DecodeMatchField OXM_CLASS_NXM_1 NXM_NX_CT_LABEL 8 false data = Ok (CTLabel data) /\
  Message_Len (CTLabel data) = 16 /\
  per_side_length 8 false = 8.
Proof. repeat split. Qed.

(** C7 (amended): for TUN_METADATA0-7, XXREG0-3 and the packet registers
    0-7, DecodeMatchField allocates a [ByteArrayField] whose length is
    the header length when there is no mask and half of it when there is
    one; it decodes that many bytes when the data has them and returns a
    wrong-size error otherwise, and the decoded value reports that
    length. *)
Theorem byte_array_length_rule (class field length : Z) (hasMask : bool) (data : list Z) :
  byte_array_field class field = true ->
  let L := per_side_length length hasMask in
  DecodeMatchField class field length hasMask data =
    (if len data <? L then Err ErrWrongSize
     else Ok (ByteArrayField (firstn (Z.to_nat L) data) L)) /\
  (forall v, DecodeMatchField class field length hasMask data = Ok v -> Message_Len v = L).
Proof.
  intros H. cbn zeta.
  destruct (byte_array_field_cases class field length hasMask H) as (cases & Hc & Hs).
  assert (E : DecodeMatchField class field length hasMask data =
              if len data <? per_side_length length hasMask then Err ErrWrongSize
              else Ok (ByteArrayField
                         (firstn (Z.to_nat (per_side_length length hasMask)) data)
                         (per_side_length length hasMask))).
  { rewrite DecodeMatchField_by_cases, Hc, Hs. apply ByteArrayField_decode. }
  split; [exact E |].
  intros v Hv. rewrite E in Hv.
  destruct (len data <? per_side_length length hasMask); [discriminate |].
  apply Ok_inj in Hv. subst v. reflexivity.
Qed.

Lemma byte_array_length_rule_witness :
  DecodeMatchField OXM_CLASS_NXM_1 NXM_NX_XXREG0 32 true (repeat 7 32) =
    (if len (repeat 7 32) <? per_side_length 32 true then Err ErrWrongSize
     else Ok (ByteArrayField
                (firstn (Z.to_nat (per_side_length 32 true)) (repeat 7 32))
                (per_side_length 32 true))) /\
  (forall v, DecodeMatchField OXM_CLASS_NXM_1 NXM_NX_XXREG0 32 true (repeat 7 32) = Ok v ->
             Message_Len v = per_side_length 32 true).
Proof.
  apply (byte_array_length_rule OXM_CLASS_NXM_1 NXM_NX_XXREG0 32 true (repeat 7 32)).
  reflexivity.
Defined.

(** ** The VLAN_PCP builder *)

(** C10 as stated fails: the builder puts its argument on the wire. *)
Lemma vlan_pcp_builder_uses_input :
  value_payload (NewVlanPcpField 1) = Ok [1] /\
  value_payload (NewVlanPcpField 2) = Ok [2] /\
  value_payload (NewVlanPcpField 1) <> value_payload (NewVlanPcpField 2).
Proof. split; [reflexivity |]. split; [reflexivity | discriminate]. Qed.

(** It is the IP_ECN builder that drops its argument. *)
Lemma ip_ecn_builder_ignores_input (a b : Z) : NewIpEcnField a = NewIpEcnField b.
Proof. reflexivity. Qed.

(** C10 (amended): [NewVlanPcpField] stores its argument as the field
    value: the value payload on the wire is the one byte [pcp], so
    distinct PCP arguments give distinct payloads. *)
Theorem vlan_pcp_builder_payload (pcp1 pcp2 : Z) :
  0 <= pcp1 < 256 -> 0 <= pcp2 < 256 -> pcp1 <> pcp2 ->
  value_payload (NewVlanPcpField pcp1) = Ok [pcp1] /\
  value_payload (NewVlanPcpField pcp2) = Ok [pcp2] /\
  value_payload (NewVlanPcpField pcp1) <> value_payload (NewVlanPcpField pcp2).
Proof.
  intros H1 H2 Hne.
  assert (P : forall p, 0 <= p < 256 -> value_payload (NewVlanPcpField p) = Ok [p]).
  { intros p Hp. unfold value_payload, NewVlanPcpField, with_mask.
    cbn [MatchField_Value call_MarshalBinary Message_MarshalBinary].
    now rewrite byte_small. }
  rewrite (P pcp1 H1), (P pcp2 H2).
  split; [reflexivity |]. split; [reflexivity |].
  intros E. apply Ok_inj in E. injection E as E. contradiction.
Qed.

Lemma vlan_pcp_builder_payload_witness :
  value_payload (NewVlanPcpField 3) = Ok [3] /\
  value_payload (NewVlanPcpField 5) = Ok [5] /\
  value_payload (NewVlanPcpField 3) <> value_payload (NewVlanPcpField 5).
Proof. apply (vlan_pcp_builder_payload 3 5); lia. Defined.

(** ** The frame reader *)

(** *** Windows of a buffer and of what it is a prefix of *)

Lemma window_of_prefix (buf more s : list Z) (off k : nat) :
  buf ++ more = s -> (off + k <= length buf)%nat ->
  firstn k (skipn off buf) = firstn k (skipn off s).
Proof.
  intros <- H. rewrite skipn_app, firstn_app, length_skipn.
  replace (k - (length buf - off))%nat with 0%nat by lia.
  cbn [firstn]. now rewrite app_nil_r.
Qed.

Lemma window_shared (buf more f tail : list Z) (off k : nat) :
  buf ++ more = f ++ tail ->
  (off + k <= length buf)%nat -> (off + k <= length f)%nat ->
  firstn k (skipn off buf) = firstn k (skipn off f).
Proof.
  intros E Hb Hf.
  rewrite (window_of_prefix buf more _ off k E Hb).
  symmetry. now apply (window_of_prefix f tail).
Qed.

Lemma nth_shared (buf more f tail : list Z) (i : nat) :
  buf ++ more = f ++ tail ->
  (i < length buf)%nat -> (i < length f)%nat ->
  nth i buf 0 = nth i f 0.
Proof.
  intros E Hb Hf.
  rewrite <- (app_nth1 buf more 0 Hb), E. now apply app_nth1.
Qed.

(** A buffer that holds at least a whole first frame starts with it. *)
Lemma split_first_frame (buf more f tail : list Z) :
  buf ++ more = f ++ tail -> (length f <= length buf)%nat ->
  firstn (length f) buf = f /\ skipn (length f) buf ++ more = tail.
Proof.
  intros E H.
  assert (F : firstn (length f) buf = f).
  { pose proof (f_equal (firstn (length f)) E) as E1.
    rewrite !firstn_app in E1.
    replace (length f - length buf)%nat with 0%nat in E1 by lia.
    rewrite Nat.sub_diag in E1. cbn [firstn] in E1.
    rewrite !app_nil_r, firstn_all in E1. exact E1. }
  split; [exact F |].
  rewrite <- (firstn_skipn (length f) buf), F, <- app_assoc in E.
  now apply app_inv_head in E.
Qed.

(** *** The header of a framable frame *)

Lemma read_header_framable (f tail buf more : list Z) :
  framable f -> buf ++ more = f ++ tail -> 4 <= len buf ->
  read_header buf = HeaderDone buf (len f) \/
  (read_header buf = HeaderBreak buf (len f) /\ len buf < len f).
Proof.
  intros [[H8 Hd] Hx] E H4. unfold len in *.
  assert (Ety : nth 1 buf 0 = frame_type f).
  { unfold frame_type. apply (nth_shared buf more f tail); [exact E | lia | lia]. }
  assert (Edl : be16_at buf 2 = len f).
  { unfold len. rewrite <- Hd. unfold frame_declared_len, be16_at. f_equal.
    apply (window_shared buf more f tail); [exact E | lia | lia]. }
  unfold read_header. rewrite Ety, Edl.
  assert (Chk : check_min_len buf (len f) = HeaderDone buf (len f)).
  { unfold check_min_len, len. destruct (Z.of_nat (length f) <? 8) eqn:C; [lia | reflexivity]. }
  destruct (frame_type f =? 4) eqn:T4; [| left; exact Chk].
  apply Z.eqb_eq in T4. destruct (Hx T4) as [H16 Hp].
  unfold len. destruct (Z.of_nat (length buf) <? 16) eqn:B16.
  { right. split; [reflexivity | lia]. }
  assert (Eex : be32_at buf 12 = be32_at f 12).
  { unfold be32_at. f_equal.
    apply (window_shared buf more f tail); [exact E | lia | lia]. }
  rewrite Eex. destruct (be32_at f 12 =? 30) eqn:X30; [| left; exact Chk].
  apply Z.eqb_eq in X30. destruct (Hp X30) as [H20 Hq].
  destruct (Z.of_nat (length buf) <? 20) eqn:B20.
  { right. split; [reflexivity | lia]. }
  assert (Epr : be16_at buf 16 = be16_at f 16).
  { unfold be16_at. f_equal.
    apply (window_shared buf more f tail); [exact E | lia | lia]. }
  assert (Epl : be16_at buf 18 = be16_at f 18).
  { unfold be16_at. f_equal.
    apply (window_shared buf more f tail); [exact E | lia | lia]. }
  rewrite Epr, Epl. destruct (be16_at f 16 =? 0) eqn:P0; [| left; exact Chk].
  apply Z.eqb_eq in P0. specialize (Hq P0). rewrite Hd in Hq.
  fold (len f). destruct (len f <? be16_at f 18) eqn:L; [unfold len in *; lia |].
  left. exact Chk.
Qed.

Lemma read_xid_frame (f : list Z) :
  8 <= len f -> read_xid f = Ok (be32_at f 4).
Proof.
  intros H. unfold read_xid. rewrite slice_from_ok by lia. cbv beta iota delta [bind].
  unfold BigEndian_Uint32.
  assert (L : len (skipn (Z.to_nat 4) f) = len f - 4).
  { unfold len in *. rewrite length_skipn. lia. }
  rewrite L. destruct (len f - 4 <? 4) eqn:E; [lia | reflexivity].
Qed.

(** *** The inner loop on a buffer of framable frames *)

Lemma frames_loop_frames (frames : list (list Z)) :
  Forall framable frames ->
  forall (fuel : nat) (buf more : list Z) (totalLen : Z),
    buf ++ more = concat frames ->
    (totalLen = 0 \/ exists f fs, frames = f :: fs /\ totalLen = len f) ->
    (length buf < fuel)%nat ->
    exists done todo buf' totalLen',
      frames = done ++ todo /\ buf = concat done ++ buf' /\
      pending todo buf' totalLen' /\
      frames_loop fuel buf totalLen = (map dispatch_of done, Reading buf' totalLen').
Proof.
  induction 1 as [| f fs Hf Hfs IH]; intros fuel buf more totalLen E HT Hfuel.
  - cbn [concat] in E. apply app_eq_nil in E as [-> ->].
    exists [], [], [], totalLen. repeat split.
    + destruct HT as [HT | (f & fs & HT & _)]; [now left | discriminate].
    + destruct fuel; reflexivity.
  - cbn [concat] in E.
    assert (Stop : forall t, (t = 0 \/ t = len f) -> len buf < len f ->
              exists done todo buf' totalLen',
                f :: fs = done ++ todo /\ buf = concat done ++ buf' /\
                pending todo buf' totalLen' /\
                ([] : list event, Reading buf t) = (map dispatch_of done, Reading buf' totalLen')).
    { intros t Ht Hlt. exists [], (f :: fs), buf, t. repeat split.
      - destruct Ht as [-> | ->]; [now left | right; now exists f, fs].
      - exact Hlt. }
    pose proof Hf as [[H8 Hd] _].
    destruct fuel as [| fuel']; [lia |].
    cbn [frames_loop].
    destruct (len buf <? 4) eqn:B4.
    { apply (Stop totalLen); [| lia].
      destruct HT as [-> | (f0 & fs0 & [= <- <-] & ->)]; [now left | now right]. }
    assert (Hdr : (if totalLen =? 0 then read_header buf else HeaderDone buf totalLen)
                  = HeaderDone buf (len f) \/
                  ((if totalLen =? 0 then read_header buf else HeaderDone buf totalLen)
                   = HeaderBreak buf (len f) /\ len buf < len f)).
    { destruct HT as [-> | (f0 & fs0 & [= <- <-] & ->)].
      - cbn [Z.eqb]. apply (read_header_framable f (concat fs) buf more Hf E). lia.
      - destruct (len f =? 0) eqn:Z0; [lia | now left]. }
    destruct Hdr as [-> | [-> Hlt]].
    2:{ apply (Stop (len f)); [now right | exact Hlt]. }
    destruct (len buf <? len f) eqn:Blt.
    { apply (Stop (len f)); [now right | lia]. }
    destruct (len f <? 0) eqn:Neg; [lia |].
    replace (Z.to_nat (len f)) with (length f) by (unfold len; now rewrite Nat2Z.id).
    assert (Hle : (length f <= length buf)%nat) by (unfold len in *; lia).
    destruct (split_first_frame buf more f (concat fs) E Hle) as [F1 F2].
    rewrite F1, (read_xid_frame f H8).
    destruct (IH fuel' (skipn (length f) buf) more 0 F2 (or_introl eq_refl))
      as (done & todo & buf' & totalLen' & E1 & E2 & P & R).
    { rewrite length_skipn. unfold len in *. lia. }
    rewrite R.
    exists (f :: done), todo, buf', totalLen'. repeat split.
    + cbn [app]. now rewrite E1.
    + cbn [concat]. rewrite <- app_assoc, <- E2, <- F1 at 1. now rewrite firstn_skipn.
    + apply P.
    + apply P.
Qed.

(** *** The outer loop *)

Lemma inbound_from_frames (chunks : list (list Z)) :
  forall (frames : list (list Z)) (buf : list Z) (totalLen : Z),
    Forall framable frames ->
    buf ++ concat chunks = concat frames ->
    pending frames buf totalLen ->
    inbound_from (map ReadBytes chunks) buf totalLen
    = (map dispatch_of frames, Reading [] 0).
Proof.
  induction chunks as [| c cs IH]; intros frames buf totalLen Hf E [HT HP].
  - cbn [concat] in E. rewrite app_nil_r in E. cbn [map inbound_from].
    destruct frames as [| f fs].
    + subst buf. destruct HT as [-> | (f & fs & HT & _)]; [reflexivity | discriminate].
    + exfalso. cbn [concat] in E. subst buf. rewrite len_app in HP.
      pose proof (len_nonneg (concat fs)). lia.
  - cbn [concat] in E. rewrite app_assoc in E.
    cbn [map inbound_from]. unfold inbound_loop.
    destruct (frames_loop_frames frames Hf (S (length (buf ++ c))) (buf ++ c)
                (concat cs) totalLen E HT (Nat.lt_succ_diag_r _))
      as (done & todo & buf' & totalLen' & E1 & E2 & P & R).
    rewrite R. subst frames.
    apply Forall_app in Hf as [_ Hf].
    rewrite E2, concat_app, <- app_assoc in E. apply app_inv_head in E.
    rewrite (IH todo buf' totalLen' Hf E P).
    now rewrite map_app.
Qed.

(** *** The loop bound is never reached *)

Lemma length_mark_oversize (buf : list Z) :
  (12 <= length buf)%nat -> length (mark_oversize buf) = length buf.
Proof.
  intros H. unfold mark_oversize.
  rewrite !length_app, length_firstn, length_skipn. cbn [be_bytes32 length]. lia.
Qed.

Lemma read_header_length (buf b : list Z) (t : Z) :
  read_header buf = HeaderDone b t -> length b = length buf.
Proof.
  assert (C : forall b0 t0, check_min_len b0 t0 = HeaderDone b t -> b = b0).
  { intros b0 t0. unfold check_min_len. destruct (t0 <? 8); [discriminate |].
    now intros [= <- _]. }
  unfold read_header.
  destruct (nth 1 buf 0 =? 4); [| intros H; now rewrite (C _ _ H)].
  destruct (len buf <? 16); [discriminate |].
  destruct (be32_at buf 12 =? 30); [| intros H; now rewrite (C _ _ H)].
  destruct (len buf <? 20) eqn:B20; [discriminate |].
  destruct (be16_at buf 16 =? 0); [| intros H; now rewrite (C _ _ H)].
  destruct (be16_at buf 2 <? be16_at buf 18); intros H; rewrite (C _ _ H);
    [| reflexivity].
  apply length_mark_oversize. unfold len in B20. lia.
Qed.

Lemma read_xid_ok (msgBytes : list Z) (xid : Z) :
  read_xid msgBytes = Ok xid -> 8 <= len msgBytes.
Proof.
  unfold read_xid, slice_from.
  destruct ((0 <=? 4) && (4 <=? len msgBytes)) eqn:E;
    cbv beta iota delta [bind]; [| discriminate].
  unfold BigEndian_Uint32.
  destruct (len (skipn (Z.to_nat 4) msgBytes) <? 4) eqn:E2; [discriminate |].
  intros _. apply Z.ltb_ge in E2. unfold len in *. rewrite length_skipn in E2. lia.
Qed.

(** With one unit of fuel per buffered byte (and one to spare) the inner
    loop always comes to an end of its own: every turn that goes round
    takes at least 8 bytes out of the buffer. *)
Lemma frames_loop_terminates (fuel : nat) :
  forall (buf : list Z) (totalLen : Z),
    (length buf < fuel)%nat -> snd (frames_loop fuel buf totalLen) <> OutOfFuel.
Proof.
  induction fuel as [| fuel IH]; intros buf totalLen H; [lia |].
  cbn [frames_loop].
  destruct (len buf <? 4); [discriminate |].
  destruct (if totalLen =? 0 then read_header buf else HeaderDone buf totalLen)
    as [b t | t | b t] eqn:Hdr; try discriminate.
  assert (L : length b = length buf).
  { destruct (totalLen =? 0); [now apply read_header_length in Hdr |].
    now injection Hdr as <- _. }
  destruct (len b <? t) eqn:Lt; [discriminate |].
  destruct (t <? 0) eqn:Neg; [discriminate |].
  destruct (read_xid (firstn (Z.to_nat t) b)) as [xid | e | p] eqn:X; try discriminate.
  apply read_xid_ok in X. unfold len in X, Lt. rewrite length_firstn in X.
  specialize (IH (skipn (Z.to_nat t) b) 0).
  destruct (frames_loop fuel (skipn (Z.to_nat t) b) 0) as [evs st].
  cbn [snd] in *. apply IH. rewrite length_skipn. lia.
Qed.

(** *** The PacketIn2 oversize rewrite, at the time the header is read *)

Lemma be_value_nonneg (b : list Z) : Forall (fun x => 0 <= x) b -> 0 <= be_value b.
Proof.
  unfold be_value. intros Hb.
  assert (G : forall acc, 0 <= acc ->
                0 <= fold_left (fun a x => Z.lor (Z.shiftl a 8) x) b acc).
  { induction Hb as [| x b Hx Hb IH]; intros acc Hacc; cbn [fold_left]; [exact Hacc |].
    apply IH. apply Z.lor_nonneg. split; [now apply Z.shiftl_nonneg | exact Hx]. }
  apply G. lia.
Qed.

(** When the header is read from a buffer that already holds the 20
    bytes and they meet the condition, [totalLen] grows by 65536 and the
    sentinel is written. *)
Lemma read_header_oversize (buf : list Z) :
  20 <= len buf -> oversize_packet_in2 buf = true -> 0 <= frame_declared_len buf ->
  read_header buf = HeaderDone (mark_oversize buf) (frame_declared_len buf + 65536).
Proof.
  unfold oversize_packet_in2, frame_type, frame_declared_len, read_header.
  intros H20 Hc H0.
  apply andb_prop in Hc as [Hc H4]. apply andb_prop in Hc as [Hc H3].
  apply andb_prop in Hc as [H1 H2].
  rewrite H1, H2, H3, H4.
  destruct (len buf <? 16) eqn:B16; [lia |].
  destruct (len buf <? 20) eqn:B20; [lia |].
  unfold check_min_len.
  destruct (be16_at buf 2 + 65536 <? 8) eqn:C; [lia | reflexivity].
Qed.

(** In every other case the header step leaves the buffer as it is and
    [totalLen] is the declared length. *)
Lemma read_header_plain (buf : list Z) :
  len buf < 20 \/ oversize_packet_in2 buf = false ->
  let t := frame_declared_len buf in
  read_header buf = HeaderDone buf t \/ read_header buf = HeaderBreak buf t \/
  read_header buf = HeaderInvalid t.
Proof.
  unfold oversize_packet_in2, frame_type, frame_declared_len, read_header. cbn zeta.
  intros H.
  assert (C : check_min_len buf (be16_at buf 2) = HeaderDone buf (be16_at buf 2) \/
              check_min_len buf (be16_at buf 2) = HeaderBreak buf (be16_at buf 2) \/
              check_min_len buf (be16_at buf 2) = HeaderInvalid (be16_at buf 2)).
  { unfold check_min_len. destruct (be16_at buf 2 <? 8); auto. }
  destruct (nth 1 buf 0 =? 4); [| exact C].
  destruct (len buf <? 16); [auto |].
  destruct (be32_at buf 12 =? 30); [| exact C].
  destruct (len buf <? 20) eqn:B20; [auto |].
  destruct (be16_at buf 16 =? 0); [| exact C].
  destruct (be16_at buf 2 <? be16_at buf 18); [| exact C].
  destruct H as [H | H]; [lia | discriminate].
Qed.

Lemma xid_of_marked (buf : list Z) (n : nat) :
  (8 <= n)%nat -> (12 <= length buf)%nat ->
  be32_at (firstn n (mark_oversize buf)) 4 = be32_at buf 4.
Proof.
  intros Hn Hb. unfold be32_at. f_equal.
  assert (Lm : length (mark_oversize buf) = length buf) by now apply length_mark_oversize.
  rewrite (window_of_prefix (firstn n (mark_oversize buf)) (skipn n (mark_oversize buf))
             (mark_oversize buf) 4 4 (firstn_skipn _ _))
    by (rewrite length_firstn; lia).
  unfold mark_oversize.
  rewrite <- (window_of_prefix (firstn 8 buf) _ _ 4 4 eq_refl)
    by (rewrite length_firstn; lia).
  apply (window_of_prefix (firstn 8 buf) (skipn 8 buf) buf 4 4 (firstn_skipn _ _)).
  rewrite length_firstn. lia.
Qed.

(** When the header is read from a buffer that meets the condition and
    holds the corrected number of bytes, the first frame out is exactly
    that long and carries the sentinel. *)
Lemma frames_loop_oversize (fuel : nat) (buf : list Z) :
  20 <= len buf -> oversize_packet_in2 buf = true -> 0 <= frame_declared_len buf ->
  frame_declared_len buf + 65536 <= len buf ->
  frames_loop (S fuel) buf 0 =
  let n := Z.to_nat (frame_declared_len buf + 65536) in
  let (evs, st) := frames_loop fuel (skipn n (mark_oversize buf)) 0 in
  (Dispatch (be32_at buf 4 mod numParserGoroutines) (firstn n (mark_oversize buf)) :: evs, st).
Proof.
  intros H20 Ho H0 Hl. cbn [frames_loop].
  destruct (len buf <? 4) eqn:B4; [lia |].
  cbn [Z.eqb]. rewrite (read_header_oversize buf H20 Ho H0).
  assert (Lm : len (mark_oversize buf) = len buf).
  { unfold len in *. rewrite length_mark_oversize; lia. }
  rewrite Lm.
  destruct (len buf <? frame_declared_len buf + 65536) eqn:C1; [lia |].
  destruct (frame_declared_len buf + 65536 <? 0) eqn:C2; [lia |].
  cbn zeta. set (n := Z.to_nat (frame_declared_len buf + 65536)).
  rewrite read_xid_frame, xid_of_marked; [reflexivity | lia | unfold len in *; lia |].
  unfold len in *. rewrite length_firstn, length_mark_oversize; lia.
Qed.

(** The defect in general: whenever the first read brings 4 to 15 bytes
    of an Experimenter message, the length declared in the header is the
    frame length for good, whatever the bytes at offsets 12 to 20 turn
    out to be; the frame goes out with that length and unmarked. *)
Lemma fragmented_experimenter_header (first rest : list Z) :
  4 <= len first < 16 -> frame_type first = 4 ->
  8 <= frame_declared_len first <= len (first ++ rest) ->
  exists evs st,
    inbound [ReadBytes first; ReadBytes rest]
    = (Dispatch (be32_at (first ++ rest) 4 mod numParserGoroutines)
         (firstn (Z.to_nat (frame_declared_len first)) (first ++ rest)) :: evs, st).
Proof.
  intros H4 Ht Hd. unfold inbound. cbn [inbound_from app]. unfold inbound_loop.
  set (d := frame_declared_len first) in *.
  assert (R1 : frames_loop (S (length first)) first 0 = ([], Reading first d)).
  { cbn [frames_loop]. destruct (len first <? 4) eqn:B4; [lia |].
    cbn [Z.eqb]. unfold read_header. unfold frame_type in Ht. rewrite Ht.
    cbn [Z.eqb Pos.eqb]. destruct (len first <? 16) eqn:B16; [reflexivity | lia]. }
  rewrite R1. cbn [app]. set (buf := first ++ rest) in *.
  cbn [frames_loop].
  destruct (len buf <? 4) eqn:B4; [lia |].
  destruct (d =? 0) eqn:D0; [lia |].
  destruct (len buf <? d) eqn:Bd; [lia |].
  destruct (d <? 0) eqn:Dn; [lia |].
  assert (Lm : len (firstn (Z.to_nat d) buf) = d).
  { unfold len in *. rewrite length_firstn. lia. }
  rewrite read_xid_frame by lia.
  assert (X : be32_at (firstn (Z.to_nat d) buf) 4 = be32_at buf 4).
  { unfold be32_at. f_equal.
    apply (window_of_prefix _ (skipn (Z.to_nat d) buf) buf 4 4 (firstn_skipn _ _)).
    unfold len in Lm. lia. }
  rewrite X.
  destruct (frames_loop (length buf) (skipn (Z.to_nat d) buf) 0) as [evs st].
  destruct st; cbn [app]; eauto.
Qed.

(** C3: when the first read brings fewer than 16 bytes of such a frame,
    the header step breaks out with [totalLen = 40] already set and is
    never entered again: the reader emits a 40-byte frame with bytes
    8..12 untouched.  Read in one piece, the same bytes make the reader
    write the sentinel and wait for 65576 bytes. *)
Theorem oversize_rewrite_skipped_when_fragmented :
  oversize_packet_in2 packet_in2_40 = true /\
  inbound [ReadBytes (firstn 10 packet_in2_40); ReadBytes (skipn 10 packet_in2_40)]
  = ([Dispatch 1 packet_in2_40], Reading [] 0) /\
  inbound [ReadBytes packet_in2_40]
  = ([], Reading ([6; 4; 0; 40; 0; 0; 0; 1; 0x10; 0x00; 0x23; 0x20; 0; 0; 0; 30;
                   0; 0; 0x10; 0] ++ repeat 0 20) 65576).
Proof. repeat split. Qed.

(** *** Invalid length *)

Lemma inbound_single (chunk : list Z) :
  inbound [ReadBytes chunk] =
  match inbound_loop chunk 0 with
  | (evs, Reading buf totalLen) => (evs ++ [], Reading buf totalLen)
  | (evs, st) => (evs, st)
  end.
Proof. reflexivity. Qed.

(** C9 as stated fails: a header declaring length 5 on a PacketIn2 frame
    whose first property announces a longer packet is taken for an
    oversize frame of 65541 bytes.  No error is published; the reader
    waits for the 65541 bytes, and dispatches them once they are there. *)
Lemma declared_length_5_not_rejected :
  let header := [6; 4; 0; 5; 0; 0; 0; 1; 0; 0; 0x23; 0x20; 0; 0; 0; 30; 0; 0; 0; 100] in
  frame_declared_len header = 5 /\
  inbound [ReadBytes header]
  = ([], Reading [6; 4; 0; 5; 0; 0; 0; 1; 0x10; 0x00; 0x23; 0x20; 0; 0; 0; 30; 0; 0; 0; 100]
           65541) /\
  (forall rest, len rest = 65521 ->
     inbound [ReadBytes (header ++ rest)]
     = ([Dispatch 1 (mark_oversize (header ++ rest))], Reading [] 0)).
Proof.
  cbn zeta. split; [reflexivity |]. split; [reflexivity |].
  intros rest Hr.
  set (header := [6; 4; 0; 5; 0; 0; 0; 1; 0; 0; 35; 32; 0; 0; 0; 30; 0; 0; 0; 100]).
  assert (L : len (header ++ rest) = 65541) by (rewrite len_app, Hr; reflexivity).
  assert (Lm : length (mark_oversize (header ++ rest)) = Z.to_nat 65541).
  { rewrite length_mark_oversize; unfold len in L; lia. }
  rewrite inbound_single. unfold inbound_loop.
  rewrite (frames_loop_oversize (length (header ++ rest)) (header ++ rest));
    [ | rewrite L; lia | reflexivity | change (frame_declared_len (header ++ rest)) with 5; lia
      | change (frame_declared_len (header ++ rest)) with 5; rewrite L; lia ].
  change (frame_declared_len (header ++ rest)) with 5.
  change (be32_at (header ++ rest) 4) with 1.
  change (5 + 65536) with 65541. cbv zeta.
  rewrite firstn_all2, skipn_all2 by lia.
  destruct (length (header ++ rest)); reflexivity.
Qed.

(** The header block on a header that declares less than 8 bytes. *)
Lemma read_header_invalid (buf : list Z) :
  frame_declared_len buf < 8 ->
  (frame_type buf <> 4 \/
   (16 <= len buf /\
    (be32_at buf 12 <> 30 \/ (20 <= len buf /\ oversize_packet_in2 buf = false)))) ->
  read_header buf = HeaderInvalid (frame_declared_len buf).
Proof.
  intros H8 Hc.
  assert (C : check_min_len buf (frame_declared_len buf)
              = HeaderInvalid (frame_declared_len buf)).
  { unfold check_min_len. destruct (frame_declared_len buf <? 8) eqn:E; [reflexivity | lia]. }
  unfold oversize_packet_in2, frame_type in Hc. unfold frame_declared_len in *.
  unfold read_header.
  destruct (nth 1 buf 0 =? 4) eqn:T4; [| exact C].
  apply Z.eqb_eq in T4.
  destruct Hc as [Hc | [H16 Hc]]; [contradiction |].
  destruct (len buf <? 16) eqn:B16; [lia |].
  destruct (be32_at buf 12 =? 30) eqn:X30; [| exact C].
  apply Z.eqb_eq in X30.
  destruct Hc as [Hc | [H20 Hc]]; [contradiction |].
  destruct (len buf <? 20) eqn:B20; [lia |].
  cbn [andb] in Hc.
  destruct (be16_at buf 16 =? 0); [| exact C].
  cbn [andb] in Hc. rewrite Hc. exact C.
Qed.

(** A turn that ends in a dispatch is a turn of the loop: the loop emits
    the dispatch and goes on from the buffer left, which is at least 8
    bytes shorter. *)
Lemma dispatch_turn_loop (fuel : nat) (buf b : list Z) (totalLen : Z) (e : event) :
  dispatch_turn buf totalLen = Some (e, b) ->
  frames_loop (S fuel) buf totalLen
  = (e :: fst (frames_loop fuel b 0), snd (frames_loop fuel b 0)) /\
  (length b + 8 <= length buf)%nat.
Proof.
  unfold dispatch_turn. cbn [frames_loop]. intros H.
  destruct (len buf <? 4); [discriminate |].
  destruct (if totalLen =? 0 then read_header buf else HeaderDone buf totalLen)
    as [b1 t1 | t1 | b1 t1] eqn:Hdr; try discriminate.
  assert (L : length b1 = length buf).
  { destruct (totalLen =? 0); [now apply read_header_length in Hdr |].
    now injection Hdr as <- _. }
  destruct (len b1 <? t1) eqn:Lt; [discriminate |].
  destruct (t1 <? 0) eqn:Neg; [discriminate |].
  cbv zeta in H.
  destruct (read_xid (firstn (Z.to_nat t1) b1)) as [xid | |] eqn:X; try discriminate.
  injection H as <- <-.
  split; [destruct (frames_loop fuel (skipn (Z.to_nat t1) b1) 0); reflexivity |].
  apply read_xid_ok in X. apply Z.ltb_ge in Lt. apply Z.ltb_ge in Neg.
  unfold len in *. rewrite length_firstn in X. rewrite length_skipn. lia.
Qed.

Lemma dispatch_turns_loop (n : nat) :
  forall (fuel : nat) (buf b : list Z) (totalLen : Z) (sent : list event),
    dispatch_turns n buf totalLen = Some (sent, b) -> (length buf < fuel)%nat ->
    exists fuel', (length b < fuel')%nat /\
      frames_loop fuel buf totalLen
      = (sent ++ fst (frames_loop fuel' b 0), snd (frames_loop fuel' b 0)).
Proof.
  induction n as [| n IH]; intros fuel buf b totalLen sent H Hfuel; cbn [dispatch_turns] in H.
  - destruct (totalLen =? 0) eqn:T0; [| discriminate]. apply Z.eqb_eq in T0. subst totalLen.
    injection H as <- <-. exists fuel. split; [exact Hfuel |].
    cbn [app]. now destruct (frames_loop fuel buf 0).
  - destruct (dispatch_turn buf totalLen) as [[e b1] |] eqn:D; [| discriminate].
    destruct (dispatch_turns n b1 0) as [[evs b2] |] eqn:Dn; [| discriminate].
    injection H as <- <-.
    destruct fuel as [| fuel]; [lia |].
    destruct (dispatch_turn_loop fuel buf b1 totalLen e D) as [R Lb].
    destruct (IH fuel b1 b2 0 evs Dn ltac:(lia)) as (fuel' & Hf' & R').
    exists fuel'. split; [exact Hf' |].
    rewrite R, R'. reflexivity.
Qed.

(** Frames the reader can delimit, one behind the other, are as many
    turns that end in a dispatch, whatever follows them. *)
Lemma dispatch_turns_frames (frames : list (list Z)) (tail : list Z) :
  Forall framable frames ->
  dispatch_turns (length frames) (concat frames ++ tail) 0
  = Some (map dispatch_of frames, tail).
Proof.
  induction 1 as [| f fs Hf Hfs IH]; [reflexivity |].
  cbn [length concat dispatch_turns map]. rewrite <- app_assoc.
  set (buf := f ++ concat fs ++ tail).
  pose proof Hf as [[H8 Hd] _].
  assert (Lb : len f <= len buf)
    by (unfold buf; rewrite len_app; pose proof (len_nonneg (concat fs ++ tail)); lia).
  assert (D : dispatch_turn buf 0 = Some (dispatch_of f, concat fs ++ tail)).
  { unfold dispatch_turn. destruct (len buf <? 4) eqn:B4; [lia |]. cbn [Z.eqb].
    destruct (read_header_framable f (concat fs ++ tail) buf [] Hf
                ltac:(now rewrite app_nil_r) ltac:(lia)) as [-> | [_ Hlt]]; [| lia].
    destruct (len buf <? len f) eqn:Blt; [lia |].
    destruct (len f <? 0) eqn:Neg; [lia |].
    cbv zeta.
    assert (F : firstn (Z.to_nat (len f)) buf = f).
    { unfold len. rewrite Nat2Z.id. unfold buf.
      rewrite firstn_app, Nat.sub_diag, firstn_all. cbn [firstn]. apply app_nil_r. }
    assert (S : skipn (Z.to_nat (len f)) buf = concat fs ++ tail).
    { unfold len. rewrite Nat2Z.id. unfold buf.
      rewrite skipn_app, Nat.sub_diag, skipn_all. reflexivity. }
    rewrite F, S, (read_xid_frame f H8). reflexivity. }
  rewrite D, IH. reflexivity.
Qed.

(** The loop on a header, read with no length pending, that declares
    fewer than 8 bytes. *)
Lemma frames_loop_invalid (fuel : nat) (buf : list Z) :
  (length buf < fuel)%nat -> 4 <= len buf ->
  frame_declared_len buf < 8 ->
  (frame_type buf <> 4 \/
   (16 <= len buf /\
    (be32_at buf 12 <> 30 \/ (20 <= len buf /\ oversize_packet_in2 buf = false)))) ->
  frames_loop fuel buf 0
  = ([PublishError (ErrInvalidLength (frame_declared_len buf)); SignalShutdown], Returned).
Proof.
  intros Hfuel H4 H8 Hc. destruct fuel as [| fuel]; [lia |].
  cbn [frames_loop]. destruct (len buf <? 4) eqn:B4; [lia |].
  cbn [Z.eqb]. now rewrite (read_header_invalid buf H8 Hc).
Qed.

(** The same from any state of the reader, reachable or not. *)
Lemma invalid_length_shutdown_from (buf0 chunk buf : list Z) (totalLen : Z) (n : nat)
    (sent : list event) (rest : list read_result) :
  dispatch_turns n (buf0 ++ chunk) totalLen = Some (sent, buf) ->
  4 <= len buf ->
  frame_declared_len buf < 8 ->
  (frame_type buf <> 4 \/
   (16 <= len buf /\
    (be32_at buf 12 <> 30 \/ (20 <= len buf /\ oversize_packet_in2 buf = false)))) ->
  inbound_from (ReadBytes chunk :: rest) buf0 totalLen
  = (sent ++ [PublishError (ErrInvalidLength (frame_declared_len buf)); SignalShutdown],
     Returned).
Proof.
  intros D H4 H8 Hc. cbn [inbound_from]. unfold inbound_loop.
  destruct (dispatch_turns_loop n _ _ _ _ _ D (Nat.lt_succ_diag_r _)) as (fuel' & Hf & R).
  rewrite R, (frames_loop_invalid fuel' buf Hf H4 H8 Hc). reflexivity.
Qed.

(** Reads after reads: the reader goes on from the state it is in. *)
Lemma inbound_from_app (reads more : list read_result) :
  forall (buf : list Z) (totalLen : Z) (evs : list event) (buf' : list Z) (totalLen' : Z),
    inbound_from reads buf totalLen = (evs, Reading buf' totalLen') ->
    inbound_from (reads ++ more) buf totalLen
    = (evs ++ fst (inbound_from more buf' totalLen'), snd (inbound_from more buf' totalLen')).
Proof.
  induction reads as [| r reads IH]; intros buf totalLen evs buf' totalLen' H;
    cbn [inbound_from app] in *.
  - injection H as <- <- <-. cbn [app]. now destruct (inbound_from more buf totalLen).
  - destruct r as [chunk | closed]; [| destruct closed; discriminate].
    destruct (inbound_loop (buf ++ chunk) totalLen) as [evs0 st0].
    destruct st0 as [b0 t0 | | p |]; try discriminate.
    destruct (inbound_from reads b0 t0) as [evs1 st1] eqn:E1.
    injection H as <- ->.
    rewrite (IH b0 t0 evs1 buf' totalLen' E1). now rewrite app_assoc.
Qed.

(** C9 (amended): at whatever turn of its inner loop the reader reads a
    header with no length pending (at the head of the buffer after a
    read, or behind any number of messages it cuts and dispatches in that
    read, whatever was read and dispatched before), if the header
    declares a length below 8 and the message is not an Experimenter
    message, or enough bytes are buffered for the reader's look into it
    (16, and 20 for a PacketIn2) and the oversize rewrite does not apply,
    then the reader publishes the invalid-length error, signals shutdown
    and returns: the messages cut before that header are all it
    dispatches, and nothing more is read. *)
Theorem invalid_length_shutdown (reads : list read_result) (evs : list event)
    (buf0 : list Z) (totalLen : Z) (chunk : list Z) (n : nat) (sent : list event)
    (buf : list Z) (rest : list read_result) :
  inbound reads = (evs, Reading buf0 totalLen) ->
  dispatch_turns n (buf0 ++ chunk) totalLen = Some (sent, buf) ->
  4 <= len buf ->
  frame_declared_len buf < 8 ->
  (frame_type buf <> 4 \/
   (16 <= len buf /\
    (be32_at buf 12 <> 30 \/ (20 <= len buf /\ oversize_packet_in2 buf = false)))) ->
  inbound (reads ++ ReadBytes chunk :: rest)
  = (evs ++ sent
     ++ [PublishError (ErrInvalidLength (frame_declared_len buf)); SignalShutdown],
     Returned).
Proof.
  intros Hr D H4 H8 Hc. unfold inbound in *.
  rewrite (inbound_from_app reads (ReadBytes chunk :: rest) [] 0 evs buf0 totalLen Hr).
  rewrite (invalid_length_shutdown_from buf0 chunk buf totalLen n sent rest D H4 H8 Hc).
  reflexivity.
Qed.

Lemma invalid_length_shutdown_witness :
  inbound ([ReadBytes [6; 0; 0; 8; 0; 0; 0; 3; 6; 0; 0; 8; 0; 0]]
           ++ ReadBytes [0; 7; 6; 0; 0; 5; 0; 0; 0; 1] :: [ReadBytes [1; 2; 3; 4]])
  = ([Dispatch 3 [6; 0; 0; 8; 0; 0; 0; 3]]
     ++ [Dispatch 7 [6; 0; 0; 8; 0; 0; 0; 7]]
     ++ [PublishError (ErrInvalidLength (frame_declared_len [6; 0; 0; 5; 0; 0; 0; 1]));
         SignalShutdown],
     Returned).
Proof.
  apply (invalid_length_shutdown
           [ReadBytes [6; 0; 0; 8; 0; 0; 0; 3; 6; 0; 0; 8; 0; 0]]
           [Dispatch 3 [6; 0; 0; 8; 0; 0; 0; 3]]
           [6; 0; 0; 8; 0; 0] 8
           [0; 7; 6; 0; 0; 5; 0; 0; 0; 1] 1
           [Dispatch 7 [6; 0; 0; 8; 0; 0; 0; 7]]
           [6; 0; 0; 5; 0; 0; 0; 1] [ReadBytes [1; 2; 3; 4]]).
  - reflexivity.
  - reflexivity.
  - vm_compute. discriminate.
  - vm_compute. reflexivity.
  - left. vm_compute. discriminate.
Defined.

(** *** Fragmentation *)

(** C4 as stated fails: an 8-byte Experimenter frame (declared length 8,
    no oversize rewrite) is not dispatched when it is all there is to
    read; the reader waits for 16 bytes before it looks further. *)
Lemma short_experimenter_frame_held_back :
  let frame := [6; 4; 0; 8; 0; 0; 0; 1] in
  plain_frame frame /\ oversize_packet_in2 frame = false /\
  inbound [ReadBytes frame] = ([], Reading frame 8) /\
  fst (inbound [ReadBytes frame]) <> [dispatch_of frame].
Proof.
  cbn zeta. split; [split; [vm_compute; discriminate | reflexivity] |].
  split; [reflexivity |]. split; [reflexivity | discriminate].
Qed.

(** C4 (amended): for every sequence of frames, each at least 8 bytes
    long with its declared length equal to its length, each Experimenter
    frame at least 16 bytes long and each PacketIn2 frame at least 20,
    none meeting the oversize condition, and for every way of cutting the
    concatenated bytes into chunks read one after the other, the reader
    dispatches exactly these frames, in order, byte for byte, each to the
    worker [xid mod 25], and is left with an empty buffer. *)
Theorem framer_fragmentation (frames chunks : list (list Z)) :
  Forall framable frames ->
  concat chunks = concat frames ->
  inbound (map ReadBytes chunks) = (map dispatch_of frames, Reading [] 0).
Proof.
  intros Hf E. unfold inbound.
  apply inbound_from_frames; [exact Hf | exact E |].
  split; [now left |].
  destruct frames as [| f fs]; [reflexivity |].
  inversion Hf as [| ? ? [[H8 _] _] _]; subst. cbn. lia.
Qed.

Lemma framer_fragmentation_witness :
  inbound (map ReadBytes [[6; 0; 0; 8; 0; 0]; [0; 7; 6; 4; 0; 16; 0];
                          [0; 0; 26; 0; 0; 0x23; 0x20; 0; 0; 0; 5]])
  = (map dispatch_of [[6; 0; 0; 8; 0; 0; 0; 7];
                      [6; 4; 0; 16; 0; 0; 0; 26; 0; 0; 0x23; 0x20; 0; 0; 0; 5]],
     Reading [] 0).
Proof.
  apply (framer_fragmentation
           [[6; 0; 0; 8; 0; 0; 0; 7];
            [6; 4; 0; 16; 0; 0; 0; 26; 0; 0; 0x23; 0x20; 0; 0; 0; 5]]
           [[6; 0; 0; 8; 0; 0]; [0; 7; 6; 4; 0; 16; 0];
            [0; 0; 26; 0; 0; 0x23; 0x20; 0; 0; 0; 5]]).
  - constructor; [| constructor; [| constructor]].
    + split; [split; [vm_compute; discriminate | reflexivity] |].
      intros H. vm_compute in H. discriminate.
    + split; [split; [vm_compute; discriminate | reflexivity] |].
      intros _. split; [vm_compute; discriminate |].
      intros H. vm_compute in H. discriminate.
  - reflexivity.
Defined.

(** * More properties *)

(** ** Reading back what was written *)

Lemma be_value_bytes64 (v : Z) :
  be_value (be_bytes64 v) = v mod 18446744073709551616.
Proof.
  change 18446744073709551616 with (2 ^ 64). rewrite <- Z.land_ones by lia.
  apply Z.bits_inj'. intros n Hn.
  unfold be_value, be_bytes64. cbn [fold_left].
  rewrite !testbit_shl_lor, !testbit_byte, Z.land_spec, Z.testbit_ones_nonneg by lia.
  rewrite Z.bits_0. cbn [orb].
  destruct (Z_lt_dec n 8);
    [| destruct (Z_lt_dec n 16);
       [| destruct (Z_lt_dec n 24);
          [| destruct (Z_lt_dec n 32);
             [| destruct (Z_lt_dec n 40);
                [| destruct (Z_lt_dec n 48);
                   [| destruct (Z_lt_dec n 56); [| destruct (Z_lt_dec n 64)]]]]]]];
    bits_by_range.
Qed.

Lemma Uint16_of_bytes (v : Z) (tl : list Z) :
  is_uint16 v -> BigEndian_Uint16 (be_bytes16 v ++ tl) = Ok v.
Proof.
  intros H. unfold BigEndian_Uint16. rewrite len_app.
  change (len (be_bytes16 v)) with 2. pose proof (len_nonneg tl).
  destruct (2 + len tl <? 2) eqn:E; [lia |].
  change (firstn 2 (be_bytes16 v ++ tl)) with (be_bytes16 v).
  rewrite be_value_bytes16. now rewrite wrap16_small.
Qed.

Lemma Uint32_of_bytes (v : Z) (tl : list Z) :
  is_uint32 v -> BigEndian_Uint32 (be_bytes32 v ++ tl) = Ok v.
Proof.
  intros H. unfold BigEndian_Uint32. rewrite len_app.
  change (len (be_bytes32 v)) with 4. pose proof (len_nonneg tl).
  destruct (4 + len tl <? 4) eqn:E; [lia |].
  change (firstn 4 (be_bytes32 v ++ tl)) with (be_bytes32 v).
  rewrite be_value_bytes32. unfold wrap32. now rewrite Z.mod_small.
Qed.

Lemma Uint64_of_bytes (v : Z) (tl : list Z) :
  is_uint64 v -> BigEndian_Uint64 (be_bytes64 v ++ tl) = Ok v.
Proof.
  intros H. unfold BigEndian_Uint64. rewrite len_app.
  change (len (be_bytes64 v)) with 8. pose proof (len_nonneg tl).
  destruct (8 + len tl <? 8) eqn:E; [lia |].
  change (firstn 8 (be_bytes64 v ++ tl)) with (be_bytes64 v).
  rewrite be_value_bytes64. now rewrite Z.mod_small.
Qed.

Lemma index_head (x : Z) (tl : list Z) : index (x :: tl) 0 = Ok x.
Proof.
  unfold index. pose proof (len_nonneg tl).
  assert (L : len (x :: tl) = 1 + len tl) by (unfold len; cbn [length]; lia).
  rewrite L. destruct (0 <? 1 + len tl) eqn:E; [reflexivity | lia].
Qed.

Lemma index_at (pre : list Z) (x : Z) (tl : list Z) (i : Z) :
  i = len pre -> index (pre ++ x :: tl) i = Ok x.
Proof.
  intros ->. unfold index. pose proof (len_nonneg pre). pose proof (len_nonneg tl).
  rewrite len_app.
  assert (L : len (x :: tl) = 1 + len tl) by (unfold len; cbn [length]; lia).
  rewrite L.
  destruct (0 <=? len pre) eqn:E1; [| lia].
  destruct (len pre <? len pre + (1 + len tl)) eqn:E2; [| lia].
  cbn [andb]. unfold len. rewrite Nat2Z.id, app_nth2, Nat.sub_diag by lia. reflexivity.
Qed.

Lemma slice_from_at (pre tl : list Z) (i : Z) :
  i = len pre -> slice_from (pre ++ tl) i = Ok tl.
Proof. intros ->. apply slice_from_app. Qed.

(** [copy] into a fresh buffer of the size of [d] gives [d], whatever
    follows it in the source. *)
Lemma copy_make_exact (d tl : list Z) (n : Z) :
  n = len d -> copy (make n) (d ++ tl) = d.
Proof.
  intros ->. unfold copy, make, len. rewrite Nat2Z.id, repeat_length.
  rewrite firstn_app, Nat.sub_diag, firstn_all. cbn [firstn]. rewrite app_nil_r.
  rewrite skipn_all2; [apply app_nil_r |].
  rewrite repeat_length, length_app. lia.
Qed.

Lemma copy_make_self (d : list Z) (n : Z) : n = len d -> copy (make n) d = d.
Proof.
  intros H. rewrite <- (app_nil_r d) at 1. now apply copy_make_exact.
Qed.

Lemma To4_of_v4_form (a b c d : Z) : To4 (net_IPv4 a b c d) = [a; b; c; d].
Proof. reflexivity. Qed.

Lemma read_IPv4_of_bytes (a b c d : Z) (tl : list Z) :
  read_IPv4 ([a; b; c; d] ++ tl) = Ok (net_IPv4 a b c d).
Proof.
  unfold read_IPv4.
  assert (E0 : index ([a; b; c; d] ++ tl) 0 = Ok a)
    by exact (index_at [] a ([b; c; d] ++ tl) 0 eq_refl).
  assert (E1 : index ([a; b; c; d] ++ tl) 1 = Ok b)
    by exact (index_at [a] b ([c; d] ++ tl) 1 eq_refl).
  assert (E2 : index ([a; b; c; d] ++ tl) 2 = Ok c)
    by exact (index_at [a; b] c ([d] ++ tl) 2 eq_refl).
  assert (E3 : index ([a; b; c; d] ++ tl) 3 = Ok d)
    by exact (index_at [a; b; c] d tl 3 eq_refl).
  rewrite E0, E1, E2, E3. reflexivity.
Qed.

Lemma len_ge_app (a tl : list Z) (k : Z) : k <= len a -> (len (a ++ tl) <? k) = false.
Proof. intros H. rewrite len_app. pose proof (len_nonneg tl). apply Z.ltb_ge. lia. Qed.

(** ** Payloads: what is marshaled is what is unmarshaled *)

Lemma payload_round_trip (v : Message) (tl : list Z) :
  canonical v ->
  Message_UnmarshalBinary (new_of v) (Message_MarshalBinary v ++ tl) = Ok v.
Proof.
  destruct v; cbn [canonical new_of Message_MarshalBinary Message_UnmarshalBinary];
    intros C;
    unfold Uint32Message_UnmarshalBinary, Uint16Message_UnmarshalBinary,
      Uint32Message_Len, Uint16Message_Len;
    try contradiction;
    try (rewrite Uint32_of_bytes by exact C; reflexivity);
    try (rewrite Uint16_of_bytes by exact C; reflexivity);
    try (rewrite Uint64_of_bytes by exact C; reflexivity);
    try (cbn [app]; rewrite index_head; cbv beta iota delta [bind];
         rewrite byte_small by exact C; reflexivity);
    try (rewrite len_ge_app by (cbn; lia); rewrite Uint32_of_bytes by exact C; reflexivity);
    try (rewrite len_ge_app by (cbn; lia); rewrite Uint16_of_bytes by exact C; reflexivity);
    try (destruct C as (a & b & c & d & ->); rewrite To4_of_v4_form;
         change (copy (make 4) [a; b; c; d]) with [a; b; c; d];
         rewrite ?len_ge_app by (cbn; lia);
         rewrite read_IPv4_of_bytes; reflexivity);
    idtac.
  - rewrite (copy_make_self Ipv6Src 16) by (unfold len; rewrite C; reflexivity).
    rewrite (copy_make_exact Ipv6Src tl 16) by (unfold len; rewrite C; reflexivity).
    reflexivity.
  - rewrite (copy_make_self Ipv6Dst 16) by (unfold len; rewrite C; reflexivity).
    rewrite (copy_make_exact Ipv6Dst tl 16) by (unfold len; rewrite C; reflexivity).
    reflexivity.
  - rewrite (len_ge_app [byte Ttl] tl 1) by (cbn; lia).
    cbn [app]. rewrite index_head. cbv beta iota delta [bind].
    now rewrite byte_small.
  - rewrite (len_ge_app [byte Type_] tl 1) by (cbn; lia).
    cbn [app]. rewrite index_head. cbv beta iota delta [bind].
    now rewrite byte_small.
  - rewrite (len_ge_app [byte Code] tl 1) by (cbn; lia).
    cbn [app]. rewrite index_head. cbv beta iota delta [bind].
    now rewrite byte_small.
  - (* PacketTypeField *)
    destruct C as [C1 C2]. rewrite <- app_assoc.
    rewrite (Uint16_of_bytes _ _ C1). cbv beta iota delta [bind].
    rewrite (slice_from_at (be_bytes16 Namespace) _ 2 eq_refl). cbv beta iota delta [bind].
    rewrite (Uint16_of_bytes _ _ C2). reflexivity.
  - (* ByteArrayField *)
    destruct C as [C1 C2].
    unfold ByteArrayField_MarshalBinary, ByteArrayField_UnmarshalBinary, ByteArrayField_Len.
    rewrite (copy_make_self _ Length) by (symmetry; exact C2).
    rewrite len_ge_app by lia.
    rewrite <- C2 at 1. unfold len at 1. rewrite Nat2Z.id, firstn_app, Nat.sub_diag, firstn_all.
    cbn [firstn]. now rewrite app_nil_r.
  - (* CTLabel *)
    unfold CTLabel_MarshalBinary, CTLabel_UnmarshalBinary, CTLabel_Len.
    rewrite (copy_make_self _ 16) by (unfold len; rewrite C; reflexivity).
    rewrite len_ge_app by (unfold len; rewrite C; lia).
    change (Z.to_nat 16) with 16%nat. rewrite <- C, firstn_app, Nat.sub_diag, firstn_all.
    cbn [firstn]. now rewrite app_nil_r.
Qed.

(** ** One match field: layout and round trip *)

(** A property of every number below [n], checked on each of them. *)
Lemma forall_below (P : Z -> bool) (n : nat) :
  forallb P (map Z.of_nat (seq 0 n)) = true ->
  forall x, 0 <= x < Z.of_nat n -> P x = true.
Proof.
  intros H x Hx. rewrite forallb_forall in H. apply H.
  rewrite <- (Z2Nat.id x) by lia. apply in_map. apply in_seq. lia.
Qed.

Lemma fld_byte_decode (field : Z) (hasMask : bool) :
  0 <= field < 128 ->
  (Z.land (fld_byte field hasMask) 1 =? 1) = hasMask /\
  Z.shiftr (fld_byte field hasMask) 1 = field.
Proof.
  intros H.
  assert (G : ((Z.land (fld_byte field true) 1 =? 1)
               && (Z.shiftr (fld_byte field true) 1 =? field)
               && negb (Z.land (fld_byte field false) 1 =? 1)
               && (Z.shiftr (fld_byte field false) 1 =? field)) = true).
  { apply (forall_below
             (fun x => (Z.land (fld_byte x true) 1 =? 1)
                       && (Z.shiftr (fld_byte x true) 1 =? x)
                       && negb (Z.land (fld_byte x false) 1 =? 1)
                       && (Z.shiftr (fld_byte x false) 1 =? x)) 128);
      [vm_compute; reflexivity | exact H]. }
  apply andb_prop in G as [G G4]. apply andb_prop in G as [G G3].
  apply andb_prop in G as [G1 G2].
  apply Z.eqb_eq in G2, G4. apply negb_true_iff in G3.
  destruct hasMask; split; assumption.
Qed.

Lemma set_index_zeros (pre : list Z) (k : nat) (i v : Z) :
  i = len pre ->
  set_index (pre ++ repeat 0 (S k)) i v = Ok (pre ++ v :: repeat 0 k).
Proof.
  intros ->. unfold set_index. pose proof (len_nonneg pre).
  rewrite len_app.
  assert (L : len (repeat 0 (S k)) = 1 + Z.of_nat k)
    by (unfold len; rewrite repeat_length; lia).
  rewrite L.
  destruct (0 <=? len pre) eqn:E1; [| lia].
  destruct (len pre <? len pre + (1 + Z.of_nat k)) eqn:E2; [| lia].
  cbn [andb]. unfold len. rewrite Nat2Z.id.
  rewrite firstn_app, Nat.sub_diag, firstn_all. cbn [firstn]. rewrite app_nil_r.
  replace (S (length pre)) with (length pre + 1)%nat by lia.
  rewrite skipn_app, skipn_all2 by lia.
  replace (length pre + 1 - length pre)%nat with 1%nat by lia.
  reflexivity.
Qed.

Lemma copy_at_zeros_at (pre b : list Z) (k : nat) (i : Z) :
  i = len pre -> (length b <= k)%nat ->
  copy_at (pre ++ repeat 0 k) i b = Ok (pre ++ b ++ repeat 0 (k - length b)).
Proof. intros ->. apply copy_at_zeros. Qed.

(** The bytes of a field: class, field and mask bit, length, value, mask,
    and four zero bytes when the experimenter id is not zero. *)
Lemma MatchField_MarshalBinary_layout (f : MatchField) (v : Message) :
  MatchField_typed f -> MatchField_complete f -> MatchField_Value f = Some v ->
  MatchField_MarshalBinary f
  = Ok (be_bytes16 (MatchField_Class f)
        ++ [fld_byte (MatchField_Field f) (MatchField_HasMask f); MatchField_Length f]
        ++ Message_MarshalBinary v ++ mask_payload f ++ experimenter_room f).
Proof.
  intros [T1 T2] [_ Cm] Hv. rewrite Hv in T1.
  pose proof (Message_MarshalBinary_len v T1) as Lv.
  pose proof (Message_Len_range v T1) as Rv.
  set (vb := Message_MarshalBinary v) in *.
  set (mb := mask_payload f).
  set (pad := experimenter_room f).
  assert (Hpad : pad = repeat 0 (length pad) /\ (len pad = 0 \/ len pad = 4)).
  { subst pad. unfold experimenter_room.
    destruct (MatchField_ExperimenterID f =? 0); split; try reflexivity; cbn; lia. }
  destruct Hpad as [Hpad Lpad].
  assert (Hlen : MatchField_Len f = Ok (4 + len vb + len mb + len pad)).
  { unfold MatchField_Len. rewrite Hv. cbn [call_Len]. cbv beta iota delta [bind].
    subst mb pad. unfold mask_payload, experimenter_room.
    destruct (MatchField_ExperimenterID f =? 0);
      (destruct (MatchField_HasMask f);
       [ destruct (MatchField_Mask f) as [mk |]; [| exfalso; now apply Cm];
         cbn [call_Len]; pose proof (Message_MarshalBinary_len mk T2) as Lm;
         pose proof (Message_Len_range mk T2); rewrite Lm, Lv; f_equal;
         change (len []) with 0; change (len [0; 0; 0; 0]) with 4; unwrap16; lia
       | rewrite Lv; f_equal;
         change (len []) with 0; change (len [0; 0; 0; 0]) with 4; unwrap16; lia ]). }
  unfold MatchField_MarshalBinary. rewrite Hlen, Hv.
  cbv beta iota zeta delta [bind call_MarshalBinary]. fold vb.
  pose proof (len_nonneg vb). pose proof (len_nonneg mb).
  set (k := (length vb + (length mb + length pad))%nat).
  assert (Hmk : make (4 + len vb + len mb + len pad) = repeat 0 (2 + S (S k))).
  { unfold make. f_equal. unfold len, k. lia. }
  rewrite Hmk.
  assert (E1 : BigEndian_PutUint16 (repeat 0 (2 + S (S k))) 0 (MatchField_Class f)
               = Ok (be_bytes16 (MatchField_Class f) ++ repeat 0 (S (S k))))
    by exact (PutUint16_zeros [] (S (S k)) (MatchField_Class f)).
  rewrite E1.
  set (c := be_bytes16 (MatchField_Class f)).
  set (fb := fld_byte (MatchField_Field f) (MatchField_HasMask f)).
  assert (E2 : set_index (c ++ repeat 0 (S (S k))) (0 + 2) fb
               = Ok ((c ++ [fb]) ++ repeat 0 (S k))).
  { rewrite (set_index_zeros c (S k) (0 + 2) fb eq_refl). now rewrite <- app_assoc. }
  fold (fld_byte (MatchField_Field f) (MatchField_HasMask f)). fold fb.
  rewrite E2.
  assert (E3 : set_index ((c ++ [fb]) ++ repeat 0 (S k)) (0 + 2 + 1) (MatchField_Length f)
               = Ok (((c ++ [fb]) ++ [MatchField_Length f]) ++ repeat 0 k)).
  { rewrite (set_index_zeros (c ++ [fb]) k (0 + 2 + 1) _ eq_refl). now rewrite <- app_assoc. }
  rewrite E3.
  set (hdr := (c ++ [fb]) ++ [MatchField_Length f]).
  assert (E4 : copy_at (hdr ++ repeat 0 k) (0 + 2 + 1 + 1) vb
               = Ok ((hdr ++ vb) ++ repeat 0 (length mb + length pad))).
  { rewrite (copy_at_zeros_at hdr vb k (0 + 2 + 1 + 1) eq_refl) by (unfold k; lia).
    replace (k - length vb)%nat with (length mb + length pad)%nat by (unfold k; lia).
    now rewrite <- app_assoc. }
  rewrite E4.
  assert (Fin : forall x, hdr ++ vb ++ x = c ++ [fb; MatchField_Length f] ++ vb ++ x).
  { intros x. unfold hdr. now rewrite <- !app_assoc. }
  assert (Lh : 0 + 2 + 1 + 1 + len vb = len (hdr ++ vb)).
  { rewrite len_app. unfold hdr, c. rewrite !len_app. cbn. lia. }
  clear E1 E2 E3 E4 Hmk Hlen. revert Fin. subst k fb. revert Hpad. subst mb.
  unfold mask_payload.
  destruct (MatchField_HasMask f) eqn:Hh.
  - destruct (MatchField_Mask f) as [mk |] eqn:HM; [| exfalso; now apply Cm].
    intros Hpad Fin.
    rewrite (copy_at_zeros_at (hdr ++ vb) (Message_MarshalBinary mk)
               (length (Message_MarshalBinary mk) + length pad) _ Lh (Nat.le_add_r _ _)).
    replace (length (Message_MarshalBinary mk) + length pad
             - length (Message_MarshalBinary mk))%nat with (length pad) by lia.
    rewrite <- Hpad, <- (app_assoc hdr). now rewrite Fin.
  - intros Hpad Fin. cbn [length Nat.add app]. rewrite <- Hpad, <- (app_assoc hdr).
    now rewrite Fin.
Qed.

Lemma MatchField_MarshalBinary_bytes (f : MatchField) (v : Message) :
  MatchField_typed f -> MatchField_complete f ->
  MatchField_ExperimenterID f = 0 -> MatchField_Value f = Some v ->
  MatchField_MarshalBinary f
  = Ok (be_bytes16 (MatchField_Class f)
        ++ [fld_byte (MatchField_Field f) (MatchField_HasMask f); MatchField_Length f]
        ++ Message_MarshalBinary v ++ mask_payload f).
Proof.
  intros T C He Hv. rewrite (MatchField_MarshalBinary_layout f v T C Hv).
  unfold experimenter_room. rewrite He. cbn [Z.eqb]. now rewrite app_nil_r.
Qed.

Lemma canonical_typed (v : Message) : canonical v -> Message_typed v.
Proof. destruct v; cbn; try tauto. Qed.

Lemma decodes_as_decode (class field length : Z) (hasMask : bool) (v : Message)
    (data : list Z) :
  decodes_as class field length hasMask v ->
  DecodeMatchField class field length hasMask data
  = Message_UnmarshalBinary (new_of v) data.
Proof.
  unfold decodes_as. intros H. rewrite DecodeMatchField_by_cases.
  destruct (class_cases class length hasMask) as [cases |]; [| contradiction].
  rewrite H. reflexivity.
Qed.

(** The header bytes of a field, read back by [MatchField.UnmarshalBinary]
    up to the point where the payload is decoded. *)
Lemma MatchField_UnmarshalBinary_header (m : MatchField) (class field length : Z)
    (hasMask : bool) (rest : list Z) :
  is_uint16 class -> class <> OXM_CLASS_EXPERIMENTER -> 0 <= field < 128 ->
  MatchField_UnmarshalBinary m (be_bytes16 class ++ [fld_byte field hasMask; length] ++ rest)
  = (value <- DecodeMatchField class field length hasMask rest ;;
     if hasMask then
       tl <- slice_from (be_bytes16 class ++ [fld_byte field hasMask; length] ++ rest)
               (wrap16 (4 + Message_Len value)) ;;
       mask <- DecodeMatchField class field length hasMask tl ;;
       Ok (mkMatchField class field hasMask length (MatchField_ExperimenterID m)
             (Some value) (Some mask))
     else
       Ok (mkMatchField class field hasMask length (MatchField_ExperimenterID m)
             (Some value) (MatchField_Mask m))).
Proof.
  intros Hc Hx Hf.
  destruct (fld_byte_decode field hasMask Hf) as [D1 D2].
  set (data := be_bytes16 class ++ [fld_byte field hasMask; length] ++ rest).
  unfold MatchField_UnmarshalBinary.
  assert (S0 : slice_from data 0 = Ok data) by exact (slice_from_at [] data 0 eq_refl).
  assert (U : BigEndian_Uint16 data = Ok class) by (apply Uint16_of_bytes; exact Hc).
  assert (I2 : index data (0 + 2) = Ok (fld_byte field hasMask))
    by exact (index_at (be_bytes16 class) _ (length :: rest) (0 + 2) eq_refl).
  assert (I3 : index data (0 + 2 + 1) = Ok length)
    by exact (index_at (be_bytes16 class ++ [fld_byte field hasMask]) length rest
                (0 + 2 + 1) eq_refl).
  assert (S4 : slice_from data (0 + 2 + 1 + 1) = Ok rest)
    by exact (slice_from_at (be_bytes16 class ++ [fld_byte field hasMask; length]) rest
                (0 + 2 + 1 + 1) eq_refl).
  rewrite S0. cbv beta iota zeta delta [bind]. rewrite U, I2, I3, D1, D2.
  apply Z.eqb_neq in Hx. rewrite Hx. cbv beta iota zeta delta [fst snd].
  rewrite S4. reflexivity.
Qed.

Lemma MatchField_UnmarshalBinary_bytes (m f : MatchField) (v : Message) (tl : list Z) :
  round_trippable f -> MatchField_Value f = Some v ->
  MatchField_UnmarshalBinary m
    (be_bytes16 (MatchField_Class f)
     ++ [fld_byte (MatchField_Field f) (MatchField_HasMask f); MatchField_Length f]
     ++ (Message_MarshalBinary v ++ mask_payload f) ++ tl)
  = Ok (mkMatchField (MatchField_Class f) (MatchField_Field f) (MatchField_HasMask f)
          (MatchField_Length f) (MatchField_ExperimenterID m) (Some v)
          (if MatchField_HasMask f then MatchField_Mask f else MatchField_Mask m)).
Proof.
  intros (Hc & Hx & Hf & HL & He & R) Hv. rewrite Hv in R. destruct R as (Cv & Dv & Rm).
  rewrite MatchField_UnmarshalBinary_header by assumption.
  rewrite (decodes_as_decode _ _ _ _ v _ Dv).
  rewrite <- app_assoc.
  rewrite (payload_round_trip v _ Cv). cbv beta iota zeta delta [bind].
  unfold mask_payload.
  destruct (MatchField_HasMask f) eqn:Hh; [| reflexivity].
  destruct (MatchField_Mask f) as [mk |] eqn:HM; [| contradiction].
  destruct Rm as [Cm Em].
  pose proof (Message_MarshalBinary_len v (canonical_typed v Cv)) as Lv.
  pose proof (Message_Len_range v (canonical_typed v Cv)) as Rv.
  rewrite (wrap16_small (4 + Message_Len v)) by lia.
  assert (S : slice_from
                (be_bytes16 (MatchField_Class f)
                 ++ [fld_byte (MatchField_Field f) true; MatchField_Length f]
                 ++ Message_MarshalBinary v ++ Message_MarshalBinary mk ++ tl)
                (4 + Message_Len v) = Ok (Message_MarshalBinary mk ++ tl)).
  { rewrite 2 app_assoc. apply slice_from_at. rewrite !len_app, Lv. reflexivity. }
  rewrite S. rewrite (decodes_as_decode _ _ _ _ v _ Dv). rewrite <- Em.
  rewrite (payload_round_trip mk _ Cm). reflexivity.
Qed.

Lemma round_trippable_typed (f : MatchField) :
  round_trippable f -> MatchField_typed f /\ MatchField_complete f.
Proof.
  intros (_ & _ & _ & _ & _ & R). unfold MatchField_typed, MatchField_complete.
  destruct (MatchField_Value f) as [v |]; [| contradiction].
  destruct R as (Cv & _ & Rm).
  destruct (MatchField_HasMask f).
  - destruct (MatchField_Mask f) as [mk |]; [| contradiction].
    destruct Rm as [Cm _]. repeat split; try (now apply canonical_typed); congruence.
  - rewrite Rm. repeat split; try (now apply canonical_typed); congruence.
Qed.

Lemma field_round_trip_bytes (f : MatchField) (tl : list Z) :
  round_trippable f ->
  exists b, MatchField_MarshalBinary f = Ok b /\
            MatchField_UnmarshalBinary new_MatchField (b ++ tl) = Ok f.
Proof.
  intros R. destruct (round_trippable_typed f R) as [T C].
  pose proof R as (_ & _ & _ & _ & He & R').
  destruct (MatchField_Value f) as [v |] eqn:Hv; [| contradiction].
  eexists. split; [exact (MatchField_MarshalBinary_bytes f v T C He Hv) |].
  rewrite <- !app_assoc.
  replace (Message_MarshalBinary v ++ mask_payload f ++ tl)
    with ((Message_MarshalBinary v ++ mask_payload f) ++ tl) by now rewrite <- app_assoc.
  cbn [app].
  pose proof (MatchField_UnmarshalBinary_bytes new_MatchField f v tl R Hv) as U.
  cbn [app] in U. rewrite U. destruct R' as (_ & _ & Rm).
  destruct f as [c fd hm L e va mk]. cbn in *. subst e va.
  destruct hm; [reflexivity | now rewrite Rm].
Qed.


(** ** The builders *)

Lemma lor_uint16 (x y : Z) : is_uint16 x -> is_uint16 y -> is_uint16 (Z.lor x y).
Proof.
  unfold is_uint16. intros Hx Hy. split; [apply Z.lor_nonneg; lia |].
  destruct (Z.eq_dec (Z.lor x y) 0) as [E | E]; [lia |].
  assert (P : 0 < Z.lor x y) by (pose proof (proj2 (Z.lor_nonneg x y)); lia).
  apply (Z.log2_lt_pow2 _ 16 P). rewrite Z.log2_lor by lia.
  apply Z.max_lub_lt.
  - destruct (Z.eq_dec x 0) as [-> | ?]; [cbn; lia | apply Z.log2_lt_pow2; lia].
  - destruct (Z.eq_dec y 0) as [-> | ?]; [cbn; lia | apply Z.log2_lt_pow2; lia].
Qed.

(** What a builder has to store for its field to come back from its bytes. *)
Lemma with_mask_round_trippable (class field : Z) (hasMask0 : bool) (v : Message)
    (mask : option Message) :
  is_uint16 class -> class <> OXM_CLASS_EXPERIMENTER -> 0 <= field < 128 ->
  canonical v ->
  (forall length hasMask, decodes_as class field length hasMask v) ->
  opt_ok (fun mk => canonical mk /\ new_of mk = new_of v) mask ->
  (mask = None -> hasMask0 = false) ->
  round_trippable (with_mask class field hasMask0 v mask).
Proof.
  intros Hc Hx Hf Cv Dv Hm H0.
  assert (W : forall x, is_uint8 (wrap8 x))
    by (intros x; unfold is_uint8, wrap8; apply Z.mod_pos_bound; lia).
  unfold round_trippable, with_mask.
  destruct mask as [mk |]; cbn [MatchField_Class MatchField_Field MatchField_Length
    MatchField_ExperimenterID MatchField_Value MatchField_HasMask MatchField_Mask].
  - cbn [opt_ok] in Hm.
    split; [exact Hc |]. split; [exact Hx |]. split; [exact Hf |]. split; [apply W |].
    split; [reflexivity |]. split; [exact Cv |]. split; [apply Dv | exact Hm].
  - rewrite (H0 eq_refl).
    split; [exact Hc |]. split; [exact Hx |]. split; [exact Hf |]. split; [apply W |].
    split; [reflexivity |]. split; [exact Cv |]. split; [apply Dv | reflexivity].
Qed.

Ltac closed_side := vm_compute; intuition congruence.

Ltac builder_side :=
  match goal with
  | |- is_uint16 ?c => closed_side
  | |- ?c <> OXM_CLASS_EXPERIMENTER => closed_side
  | |- 0 <= ?f < 128 => closed_side
  | |- forall length hasMask, decodes_as _ _ length hasMask _ =>
      intros ? ?; reflexivity
  | |- _ = None -> _ = false => intros _; reflexivity
  | |- _ = None -> _ = false => intros E; discriminate E
  end.

Lemma builders_round_trippable (c : builder_call) :
  args_round_trip c -> round_trippable (run_builder c).
Proof.
  destruct c; cbn [args_round_trip run_builder]; intros H; try contradiction;
    repeat match goal with
           | H : _ /\ _ |- _ => destruct H
           end;
    match goal with
    | |- round_trippable (?b _ ?m) =>
        unfold b; destruct m; try contradiction; cbn [option_map opt_ok] in *
    | |- round_trippable (?b _) => unfold b
    end;
    apply with_mask_round_trippable; try builder_side;
    cbn [canonical opt_ok]; try assumption; try (split; [assumption | reflexivity]);
    try exact I.
  - apply lor_uint16; [assumption | closed_side].
  - apply lor_uint16; [assumption | closed_side].
  - closed_side.
Qed.

(** ** A whole match: build, marshal, unmarshal *)

Lemma round_trippable_all_typed (fields : list MatchField) :
  Forall round_trippable fields -> Forall MatchField_typed fields.
Proof.
  intros H. eapply Forall_impl; [| exact H].
  intros f R. exact (proj1 (round_trippable_typed f R)).
Qed.

(** The loop of [Match.UnmarshalBinary] over the bytes of fields that can
    be rebuilt: one field a turn, in order, up to the inner length. *)
Lemma unmarshal_fields_loop (fields : list MatchField) :
  Forall round_trippable fields ->
  forall (bs : list (list Z)) (fuel : nat) (pre tl : list Z) (acc : list MatchField),
    marshal_each fields = Ok bs -> (length fields <= fuel)%nat ->
    unmarshal_fields fuel (pre ++ concat bs ++ tl) (len pre + len (concat bs)) (len pre) acc
    = Some (Ok (acc ++ fields)).
Proof.
  induction 1 as [| f rest Rf Rr IH]; intros bs fuel pre tl acc Hm Hfuel;
    cbn [marshal_each] in Hm.
  - apply Ok_inj in Hm. subst bs. cbn [concat]. change (len []) with 0.
    rewrite app_nil_r.
    destruct fuel; cbn [unmarshal_fields];
      (destruct (len pre <? len pre + 0) eqn:E; [lia | reflexivity]).
  - destruct (field_round_trip_bytes f (concat (match marshal_each rest with
                                                | Ok l => l | _ => [] end) ++ tl) Rf)
      as (b & Mb & Ub).
    rewrite Mb in Hm. cbv beta iota delta [bind] in Hm.
    destruct (marshal_each rest) as [bs' | |] eqn:Er; try discriminate.
    apply Ok_inj in Hm. subst bs. cbn [concat].
    destruct (round_trippable_typed f Rf) as [Tf _].
    assert (Lf : MatchField_Len f = Ok (len b)).
    { destruct (MatchField_Len f) as [l | e | p] eqn:HL.
      - destruct (MatchField_MarshalBinary_len f l Tf HL) as (d & Md & Ld).
        rewrite Mb in Md. apply Ok_inj in Md. subst d. now rewrite Ld.
      - unfold MatchField_MarshalBinary in Mb. rewrite HL in Mb. discriminate.
      - unfold MatchField_MarshalBinary in Mb. rewrite HL in Mb. discriminate. }
    pose proof (MatchField_Len_range f (len b) Tf Lf) as Rb.
    pose proof (len_nonneg (concat bs')).
    destruct fuel as [| fuel]; [cbn [length] in Hfuel; lia |].
    cbn [unmarshal_fields]. rewrite len_app.
    destruct (len pre <? len pre + (len b + len (concat bs'))) eqn:E; [| lia].
    rewrite slice_from_app. cbv beta iota delta [bind].
    rewrite <- (app_assoc b). rewrite Ub, Lf.
    replace (len pre + (len b + len (concat bs')))
      with (len (pre ++ b) + len (concat bs')) by (rewrite len_app; lia).
    replace (len pre + len b) with (len (pre ++ b)) by (rewrite len_app; lia).
    replace (pre ++ b ++ concat bs' ++ tl) with ((pre ++ b) ++ concat bs' ++ tl)
      by now rewrite <- app_assoc.
    rewrite (IH bs' fuel (pre ++ b) tl (acc ++ [f]) eq_refl)
      by (cbn [length] in Hfuel; lia).
    now rewrite <- app_assoc.
Qed.

Lemma length_le_total_len (fields : list MatchField) :
  Forall MatchField_typed fields ->
  forall s, total_len fields = Ok s -> Z.of_nat (length fields) <= s.
Proof.
  induction 1 as [| a rest Ta Tr IH]; intros s Hs; cbn [total_len] in Hs.
  - apply Ok_inj in Hs. subst s. cbn. lia.
  - destruct (MatchField_Len a) as [l | |] eqn:El;
      cbv beta iota delta [bind] in Hs; try discriminate.
    destruct (total_len rest) as [sr | |] eqn:Er;
      cbv beta iota delta [bind] in Hs; try discriminate.
    apply Ok_inj in Hs. subst s.
    pose proof (MatchField_Len_range a l Ta El). pose proof (IH sr eq_refl).
    cbn [length]. lia.
Qed.

Lemma build_match_total (fields : list MatchField) (s : Z) :
  total_len fields = Ok s -> exists m, build_match fields = Ok m.
Proof.
  revert s. induction fields as [| f fields IH] using rev_ind; intros s Hs.
  - now exists NewMatch.
  - rewrite build_match_snoc.
    assert (exists s0 l, total_len fields = Ok s0 /\ MatchField_Len f = Ok l)
      as (s0 & l & H0 & Hl).
    { clear IH. revert s Hs. induction fields as [| a rest IHr]; intros s Hs;
        cbn [app total_len] in *.
      - destruct (MatchField_Len f) as [l | |];
          cbv beta iota delta [bind] in Hs; try discriminate. now exists 0, l.
      - destruct (MatchField_Len a) as [la | |];
          cbv beta iota delta [bind] in Hs |- *; try discriminate.
        destruct (total_len (rest ++ [f])) as [sr | |] eqn:Er;
          cbv beta iota delta [bind] in Hs; try discriminate.
        destruct (IHr sr eq_refl) as (s0 & l & -> & Hl).
        cbv beta iota delta [bind]. now exists (la + s0), l. }
    destruct (IH s0 H0) as (m0 & ->). cbv beta iota delta [bind].
    unfold Match_AddField. rewrite Hl. cbv beta iota delta [bind]. now eexists.
Qed.

Lemma match_round_trip_fields (fields : list MatchField) (m : Match) (s : Z) :
  Forall round_trippable fields ->
  build_match fields = Ok m -> total_len fields = Ok s -> 4 + s + 7 < 65536 ->
  match_round_trip m = Some (Ok m).
Proof.
  intros R Hb Hs Hlt.
  pose proof (round_trippable_all_typed fields R) as T.
  destruct (Match_MarshalBinary_layout fields m s T Hb Hs Hlt) as (bs & Ebs & Em).
  destruct (marshal_each_len fields T s Hs) as (bs' & Ebs' & Lbs).
  rewrite Ebs in Ebs'. apply Ok_inj in Ebs'. subst bs'.
  destruct (build_match_inv fields m Hb) as (Ht & Hf & s' & Hs' & Hl).
  rewrite Hs in Hs'. apply Ok_inj in Hs'. subst s'.
  pose proof (total_len_nonneg fields s Hs) as S0.
  rewrite wrap16_small in Hl by lia.
  unfold match_round_trip. rewrite Em.
  set (pad := repeat 0 (Z.to_nat ((4 + s + 7) / 8 * 8 - (4 + s)))).
  set (data := be_bytes16 MatchType_OXM ++ be_bytes16 (4 + s) ++ concat bs ++ pad).
  unfold Match_UnmarshalBinary.
  assert (S0' : slice_from data 0 = Ok data) by exact (slice_from_at [] data 0 eq_refl).
  assert (U0 : BigEndian_Uint16 data = Ok MatchType_OXM)
    by (apply Uint16_of_bytes; unfold is_uint16, MatchType_OXM; lia).
  assert (S2 : slice_from data (0 + 2) = Ok (be_bytes16 (4 + s) ++ concat bs ++ pad))
    by exact (slice_from_at (be_bytes16 MatchType_OXM) _ (0 + 2) eq_refl).
  assert (U2 : BigEndian_Uint16 (be_bytes16 (4 + s) ++ concat bs ++ pad) = Ok (4 + s))
    by (apply Uint16_of_bytes; unfold is_uint16; lia).
  rewrite S0'. cbv beta iota zeta delta [bind]. rewrite U0, S2, U2.
  pose proof (unmarshal_fields_loop fields R bs (Z.to_nat (4 + s))
                (be_bytes16 MatchType_OXM ++ be_bytes16 (4 + s)) pad [] Ebs) as L.
  change (len (be_bytes16 MatchType_OXM ++ be_bytes16 (4 + s))) with 4 in L.
  rewrite Lbs in L. rewrite <- app_assoc in L. fold data in L.
  change (Match_Fields new_Match) with (@nil MatchField).
  change (0 + 2 + 2) with 4.
  rewrite L by (pose proof (length_le_total_len fields T s Hs); lia).
  cbn [app]. destruct m as [ty ln fs]. cbn in Ht, Hf, Hl. now subst.
Qed.

(** ** Decoding the bytes of a field whose payload decoder is known *)

Lemma MatchField_UnmarshalBinary_payloads (m : MatchField) (class field length : Z)
    (hasMask : bool) (vb mb tl : list Z) (v0 v' mk' : Message) :
  is_uint16 class -> class <> OXM_CLASS_EXPERIMENTER -> 0 <= field < 128 ->
  match class_cases class length hasMask with
  | Some cases => switch field cases = Some (Some v0)
  | None => False
  end ->
  (forall x, Message_UnmarshalBinary v0 (vb ++ x) = Ok v') ->
  Message_Len v' = len vb -> len vb < 256 ->
  (hasMask = true -> forall x, Message_UnmarshalBinary v0 (mb ++ x) = Ok mk') ->
  MatchField_UnmarshalBinary m
    (be_bytes16 class ++ [fld_byte field hasMask; length]
     ++ vb ++ (if hasMask then mb else []) ++ tl)
  = Ok (mkMatchField class field hasMask length (MatchField_ExperimenterID m) (Some v')
          (if hasMask then Some mk' else MatchField_Mask m)).
Proof.
  intros Hc Hx Hf Hs Hv Hl Hlt Hm.
  rewrite MatchField_UnmarshalBinary_header by assumption.
  assert (D : forall data, DecodeMatchField class field length hasMask data
                           = Message_UnmarshalBinary v0 data).
  { intros data. rewrite DecodeMatchField_by_cases.
    destruct (class_cases class length hasMask) as [cases |]; [| contradiction].
    now rewrite Hs. }
  rewrite D, Hv. cbv beta iota zeta delta [bind].
  destruct hasMask; [| reflexivity].
  pose proof (len_nonneg vb).
  rewrite Hl, (wrap16_small (4 + len vb)) by lia.
  assert (S : slice_from (be_bytes16 class ++ [fld_byte field true; length]
                          ++ vb ++ mb ++ tl) (4 + len vb) = Ok (mb ++ tl)).
  { rewrite 2 app_assoc. apply slice_from_at. rewrite !len_app. reflexivity. }
  rewrite S, D, (Hm eq_refl). reflexivity.
Qed.

(** ** Registered properties of the codec *)

(** X1: a payload that holds values of its Go types (and, for an IPv4
    address, the 16-byte form) is read back unchanged from its bytes by
    the [UnmarshalBinary] of its type, whatever bytes follow. *)
Theorem canonical_payload_round_trip (v : Message) (tl : list Z) :
  canonical v ->
  len (Message_MarshalBinary v) = Message_Len v /\
  Message_UnmarshalBinary (new_of v) (Message_MarshalBinary v ++ tl) = Ok v.
Proof.
  intros C. split.
  - apply Message_MarshalBinary_len. now apply canonical_typed.
  - now apply payload_round_trip.
Qed.

Lemma canonical_payload_round_trip_witness :
  len (Message_MarshalBinary (Ipv4SrcField (net_IPv4 10 0 0 1))) = 4 /\
  Message_UnmarshalBinary (Ipv4SrcField [])
    (Message_MarshalBinary (Ipv4SrcField (net_IPv4 10 0 0 1)) ++ [9; 9])
  = Ok (Ipv4SrcField (net_IPv4 10 0 0 1)).
Proof.
  apply (canonical_payload_round_trip (Ipv4SrcField (net_IPv4 10 0 0 1)) [9; 9]).
  exists 10, 0, 0, 1. reflexivity.
Defined.


(** X3: every builder called with arguments of its Go types (an IP
    address in the 16-byte form, a mask for the three builders that set
    HasMask first), other than the MAC builders and PACKET_TYPE, gives a
    field that MarshalBinary writes and UnmarshalBinary reads back equal. *)
Theorem builders_round_trip (c : builder_call) (tl : list Z) :
  args_round_trip c ->
  exists b, MatchField_MarshalBinary (run_builder c) = Ok b /\
            MatchField_UnmarshalBinary new_MatchField (b ++ tl) = Ok (run_builder c).
Proof.
  intros A. apply field_round_trip_bytes. now apply builders_round_trippable.
Qed.

Lemma builders_round_trip_witness :
  exists b,
    MatchField_MarshalBinary (NewMetadataField 7 (Some 255)) = Ok b /\
    MatchField_UnmarshalBinary new_MatchField (b ++ []) = Ok (NewMetadataField 7 (Some 255)).
Proof.
  apply (builders_round_trip (CallMetadata 7 (Some 255)) []).
  cbn. unfold is_uint64. lia.
Defined.

(** X4: a match built from NewMatch by AddField calls with fields that
    can be rebuilt, of an inner length that leaves room for the padding
    in a uint16, is read back equal from the bytes MarshalBinary gives. *)
Theorem built_match_round_trip (fields : list MatchField) (s : Z) :
  Forall round_trippable fields -> total_len fields = Ok s -> 4 + s + 7 < 65536 ->
  exists m, build_match fields = Ok m /\ match_round_trip m = Some (Ok m).
Proof.
  intros R Hs Hlt. destruct (build_match_total fields s Hs) as (m & Hm).
  exists m. split; [exact Hm |]. exact (match_round_trip_fields fields m s R Hm Hs Hlt).
Qed.

Lemma built_match_round_trip_witness :
  exists m,
    build_match [NewInPortField 3; NewVlanIdField 100 None; NewEthTypeField 2048] = Ok m /\
    match_round_trip m = Some (Ok m).
Proof.
  apply (built_match_round_trip
           [NewInPortField 3; NewVlanIdField 100 None; NewEthTypeField 2048] 20).
  - repeat constructor;
      unfold round_trippable, is_uint16, is_uint8, is_uint32; cbn;
      repeat split; try lia; try discriminate.
  - reflexivity.
  - lia.
Defined.

(** X5: the three builders that set HasMask before they look at the mask
    (IPV6_FLABEL, PBB_ISID, IPV6_EXTHDR) give, without a mask, a field on
    which Len, MarshalBinary and Match.AddField panic. *)
Theorem mask_first_builders_panic_without_mask (x : Z) (m : Match) :
  Forall (fun f => MatchField_HasMask f = true /\ MatchField_Mask f = None /\
                   MatchField_Len f = Panic NilDereference /\
                   MatchField_MarshalBinary f = Panic NilDereference /\
                   Match_AddField m f = Panic NilDereference)
    [NewIpv6FLabelField x None; NewPbbIsidField x None; NewIpv6ExtHdrField x None].
Proof. repeat constructor. Qed.

(** X6: a PACKET_TYPE field can be built and marshaled (8 bytes), but
    there is no decoder for it: UnmarshalBinary of these bytes returns the
    unhandled-field error, whatever the namespace and type. *)
Theorem packet_type_built_not_decoded (namespace nsType : Z) (tl : list Z) :
  exists b, MatchField_MarshalBinary (NewPacketTypeField namespace nsType) = Ok b /\
            len b = 8 /\
            MatchField_UnmarshalBinary new_MatchField (b ++ tl)
            = Err (ErrUnhandledField OXM_FIELD_PACKET_TYPE OXM_CLASS_OPENFLOW_BASIC).
Proof.
  eexists. split; [reflexivity |]. split; [reflexivity |].
  change (MatchField_UnmarshalBinary new_MatchField
            (be_bytes16 OXM_CLASS_OPENFLOW_BASIC
             ++ [fld_byte OXM_FIELD_PACKET_TYPE false; 4]
             ++ (be_bytes16 namespace ++ be_bytes16 nsType ++ tl))
          = Err (ErrUnhandledField OXM_FIELD_PACKET_TYPE OXM_CLASS_OPENFLOW_BASIC)).
  rewrite MatchField_UnmarshalBinary_header
    by (unfold is_uint16, OXM_CLASS_OPENFLOW_BASIC, OXM_CLASS_EXPERIMENTER,
          OXM_FIELD_PACKET_TYPE; lia).
  rewrite DecodeMatchField_by_cases. reflexivity.
Qed.

(** ** What the round trip does to MAC and to 4-byte IPv4 addresses *)

(** A field built by one of the builders: its bytes, and the field read
    back from them when the payload decoder is known. *)
Lemma built_field_round_trip (class field : Z) (hasMask0 : bool) (v : Message)
    (mask : option Message) (v0 v' : Message) (mask' : option Message) :
  is_uint16 class -> class <> OXM_CLASS_EXPERIMENTER -> 0 <= field < 128 ->
  Message_typed v -> opt_ok Message_typed mask ->
  (mask = None -> hasMask0 = false) ->
  (forall length hasMask,
      match class_cases class length hasMask with
      | Some cases => switch field cases = Some (Some v0)
      | None => False
      end) ->
  (forall x, Message_UnmarshalBinary v0 (Message_MarshalBinary v ++ x) = Ok v') ->
  Message_Len v' = Message_Len v ->
  match mask, mask' with
  | Some mk, Some mk' =>
      forall x, Message_UnmarshalBinary v0 (Message_MarshalBinary mk ++ x) = Ok mk'
  | None, None => True
  | _, _ => False
  end ->
  field_round_trip (with_mask class field hasMask0 v mask)
  = Ok (mkMatchField class field (MatchField_HasMask (with_mask class field hasMask0 v mask))
          (MatchField_Length (with_mask class field hasMask0 v mask)) 0 (Some v') mask').
Proof.
  intros Hc Hx Hf Tv Tm Hm0 Hs Hv Hl Hmk.
  pose proof (Message_MarshalBinary_len v Tv) as Lv.
  pose proof (Message_Len_range v Tv) as Rv.
  unfold field_round_trip.
  destruct mask as [mk |].
  - destruct mask' as [mk' |]; [| contradiction]. cbn [opt_ok] in Tm.
    unfold with_mask.
    set (L := wrap8 (uint8_Len v + uint8_Len mk)).
    cbn [MatchField_HasMask MatchField_Length].
    rewrite (MatchField_MarshalBinary_bytes
               (mkMatchField class field true L 0 (Some v) (Some mk)) v);
      [| split; [exact Tv | exact Tm] | split; [discriminate | discriminate]
       | reflexivity | reflexivity].
    cbv beta iota delta [bind].
    change (mask_payload (mkMatchField class field true L 0 (Some v) (Some mk)))
      with (Message_MarshalBinary mk).
    cbn [MatchField_Class MatchField_Field MatchField_HasMask MatchField_Length].
    pose proof (MatchField_UnmarshalBinary_payloads new_MatchField class field L true
                  (Message_MarshalBinary v) (Message_MarshalBinary mk) [] v0 v' mk'
                  Hc Hx Hf (Hs L true) Hv ltac:(lia) ltac:(lia) (fun _ => Hmk)) as E.
    rewrite app_nil_r in E. exact E.
  - destruct mask'; [contradiction |]. rewrite (Hm0 eq_refl).
    unfold with_mask.
    set (L := uint8_Len v).
    cbn [MatchField_HasMask MatchField_Length].
    rewrite (MatchField_MarshalBinary_bytes
               (mkMatchField class field false L 0 (Some v) None) v);
      [| split; [exact Tv | exact I] | split; [discriminate | discriminate]
       | reflexivity | reflexivity].
    cbv beta iota delta [bind].
    change (mask_payload (mkMatchField class field false L 0 (Some v) None)) with (@nil Z).
    cbn [MatchField_Class MatchField_Field MatchField_HasMask MatchField_Length].
    pose proof (MatchField_UnmarshalBinary_payloads new_MatchField class field L false
                  (Message_MarshalBinary v) [] [] v0 v' v'
                  Hc Hx Hf (Hs L false) Hv ltac:(lia) ltac:(lia)
                  ltac:(discriminate)) as E.
    exact E.
Qed.

Lemma mac_payload_decode (v0 : Message) (addr x : list Z) :
  v0 = EthDstField [] \/ v0 = EthSrcField [] \/ v0 = ArpXHaField [] ->
  Message_UnmarshalBinary v0 (copy (make 6) addr ++ x) = Ok v0.
Proof.
  pose proof (mac_decoders_lose_address (copy (make 6) addr ++ x)) as (A & B & C).
  intros [-> | [-> | ->]]; [exact A | exact B |].
  apply C. rewrite len_app, len_copy. pose proof (len_nonneg x).
  change (len (make 6)) with 6. lia.
Qed.

(** The side conditions of [built_field_round_trip] that do not depend
    on the payload. *)
Ltac built_field_sides :=
  match goal with
  | |- is_uint16 _ => closed_side
  | |- _ <> OXM_CLASS_EXPERIMENTER => closed_side
  | |- 0 <= _ < 128 => closed_side
  | |- Message_typed _ => exact I
  | |- opt_ok Message_typed ?m => destruct m; exact I
  | |- _ = None -> _ = false => intros _; reflexivity
  | |- forall length hasMask, match class_cases _ length hasMask with _ => _ end =>
      intros ? ?; reflexivity
  | |- Message_Len _ = Message_Len _ => reflexivity
  end.

Lemma mac_field_round_trip (field : Z) (ctor : list Z -> Message) (addr : list Z)
    (mask : option (list Z)) :
  (field = OXM_FIELD_ETH_DST /\ ctor = EthDstField) \/
  (field = OXM_FIELD_ETH_SRC /\ ctor = EthSrcField) \/
  ((field = OXM_FIELD_ARP_THA \/ field = OXM_FIELD_ARP_SHA) /\ ctor = ArpXHaField) ->
  field_round_trip (with_mask OXM_CLASS_OPENFLOW_BASIC field false (ctor addr)
                      (option_map ctor mask))
  = Ok (with_mask OXM_CLASS_OPENFLOW_BASIC field false (ctor [])
          (option_map ctor (option_map (fun _ => []) mask))).
Proof.
  intros H.
  assert (D : forall a x, Message_UnmarshalBinary (ctor []) (Message_MarshalBinary (ctor a) ++ x)
                          = Ok (ctor [])).
  { intros a x.
    destruct H as [[_ ->] | [[_ ->] | [_ ->]]]; cbn [Message_MarshalBinary];
      apply mac_payload_decode; tauto. }
  assert (Hf : 0 <= field < 128)
    by (destruct H as [[-> _] | [[-> _] | [[-> | ->] _]]]; closed_side).
  assert (Hs : forall length hasMask,
             match class_cases OXM_CLASS_OPENFLOW_BASIC length hasMask with
             | Some cases => switch field cases = Some (Some (ctor []))
             | None => False
             end).
  { intros length hasMask.
    destruct H as [[-> ->] | [[-> ->] | [[-> | ->] ->]]]; reflexivity. }
  assert (Tc : forall a, Message_typed (ctor a))
    by (intros a; destruct H as [[_ ->] | [[_ ->] | [_ ->]]]; exact I).
  assert (Lc : forall a b, Message_Len (ctor a) = Message_Len (ctor b))
    by (intros a b; destruct H as [[_ ->] | [[_ ->] | [_ ->]]]; reflexivity).
  etransitivity.
  - apply (built_field_round_trip OXM_CLASS_OPENFLOW_BASIC field false (ctor addr)
             (option_map ctor mask) (ctor []) (ctor [])
             (option_map ctor (option_map (fun _ => []) mask)));
      try built_field_sides; try exact Hf; try exact Hs; try apply Tc; try apply Lc;
      try apply D.
    + destruct mask; cbn [option_map opt_ok]; [apply Tc | exact I].
    + destruct mask; cbn [option_map]; [apply D | exact I].
  - unfold with_mask.
    destruct mask; cbn [option_map MatchField_HasMask MatchField_Length]; unfold uint8_Len;
      rewrite ?(Lc addr []); try rewrite (Lc l []); reflexivity.
Qed.

(** X7: whatever the address and the mask, a field built by one of the
    four MAC builders comes back from its bytes with an empty address
    (and an empty mask where there was one). *)
Theorem mac_builders_round_trip_empty (addr : list Z) (mask : option (list Z)) :
  let none := option_map (fun _ : list Z => @nil Z) mask in
  field_round_trip (NewEthDstField addr mask) = Ok (NewEthDstField [] none) /\
  field_round_trip (NewEthSrcField addr mask) = Ok (NewEthSrcField [] none) /\
  field_round_trip (NewArpThaField addr) = Ok (NewArpThaField []) /\
  field_round_trip (NewArpShaField addr) = Ok (NewArpShaField []).
Proof.
  cbn zeta. unfold NewEthDstField, NewEthSrcField, NewArpThaField, NewArpShaField.
  split; [apply (mac_field_round_trip _ EthDstField); tauto |].
  split; [apply (mac_field_round_trip _ EthSrcField); tauto |].
  split.
  - apply (mac_field_round_trip OXM_FIELD_ARP_THA ArpXHaField addr None); tauto.
  - apply (mac_field_round_trip OXM_FIELD_ARP_SHA ArpXHaField addr None); tauto.
Qed.

Lemma ipv4_payload_short (ip x : list Z) :
  length ip = 4%nat ->
  copy (make 4) (To4 ip) = ip /\
  read_IPv4 (ip ++ x) = Ok (v4InV6Prefix ++ ip).
Proof.
  intros H.
  destruct ip as [| a [| b [| c [| d [| e r]]]]]; try discriminate.
  split; [reflexivity | apply read_IPv4_of_bytes].
Qed.

Lemma ipv4_field_round_trip (class field : Z) (ctor : list Z -> Message) (ip : list Z)
    (mask : option (list Z)) :
  (class = OXM_CLASS_OPENFLOW_BASIC /\ field = OXM_FIELD_IPV4_SRC /\ ctor = Ipv4SrcField) \/
  (class = OXM_CLASS_OPENFLOW_BASIC /\ field = OXM_FIELD_IPV4_DST /\ ctor = Ipv4DstField) \/
  (class = OXM_CLASS_NXM_1 /\ field = NXM_NX_TUN_IPV4_SRC /\ ctor = TunnelIpv4SrcField) \/
  (class = OXM_CLASS_NXM_1 /\ field = NXM_NX_TUN_IPV4_DST /\ ctor = TunnelIpv4DstField) \/
  (class = OXM_CLASS_OPENFLOW_BASIC /\
   (field = OXM_FIELD_ARP_TPA \/ field = OXM_FIELD_ARP_SPA) /\ ctor = ArpXPaField) ->
  length ip = 4%nat -> opt_ok (fun m => length m = 4%nat) mask ->
  field_round_trip (with_mask class field false (ctor ip) (option_map ctor mask))
  = Ok (with_mask class field false (ctor (v4InV6Prefix ++ ip))
          (option_map ctor (option_map (app v4InV6Prefix) mask))).
Proof.
  intros H L Lm.
  assert (D : forall a x, length a = 4%nat ->
                Message_UnmarshalBinary (ctor []) (Message_MarshalBinary (ctor a) ++ x)
                = Ok (ctor (v4InV6Prefix ++ a))).
  { intros a x La. destruct (ipv4_payload_short a x La) as [E R].
    assert (G : (len (a ++ x) <? 4) = false)
      by (apply len_ge_app; unfold len; rewrite La; cbn; lia).
    destruct H as [(_ & _ & ->) | [(_ & _ & ->) | [(_ & _ & ->) | [(_ & _ & ->) | (_ & _ & ->)]]]];
      cbn [Message_MarshalBinary Message_UnmarshalBinary]; rewrite E, ?G, R; reflexivity. }
  assert (Hc : is_uint16 class /\ class <> OXM_CLASS_EXPERIMENTER /\ 0 <= field < 128).
  { destruct H as [(-> & -> & _) | [(-> & -> & _) | [(-> & -> & _) | [(-> & -> & _)
                 | (-> & [-> | ->] & _)]]]]; closed_side. }
  destruct Hc as (Hc & Hx & Hf).
  assert (Hs : forall length hasMask,
             match class_cases class length hasMask with
             | Some cases => switch field cases = Some (Some (ctor []))
             | None => False
             end).
  { intros length hasMask.
    destruct H as [(-> & -> & ->) | [(-> & -> & ->) | [(-> & -> & ->) | [(-> & -> & ->)
                 | (-> & [-> | ->] & ->)]]]]; reflexivity. }
  assert (Tc : forall a, Message_typed (ctor a)).
  { intros a.
    destruct H as [(_ & _ & ->) | [(_ & _ & ->) | [(_ & _ & ->) | [(_ & _ & ->) | (_ & _ & ->)]]]];
      exact I. }
  assert (Lc : forall a b, Message_Len (ctor a) = Message_Len (ctor b)).
  { intros a b.
    destruct H as [(_ & _ & ->) | [(_ & _ & ->) | [(_ & _ & ->) | [(_ & _ & ->) | (_ & _ & ->)]]]];
      reflexivity. }
  etransitivity.
  - apply (built_field_round_trip class field false (ctor ip)
             (option_map ctor mask) (ctor []) (ctor (v4InV6Prefix ++ ip))
             (option_map ctor (option_map (app v4InV6Prefix) mask)));
      try built_field_sides; try assumption; try apply Tc; try apply Lc.
    + destruct mask; cbn [option_map opt_ok]; [apply Tc | exact I].
    + intros x. now apply D.
    + destruct mask; cbn [option_map opt_ok] in *; [| exact I]. intros x. now apply D.
  - unfold with_mask.
    destruct mask; cbn [option_map MatchField_HasMask MatchField_Length]; unfold uint8_Len;
      rewrite ?(Lc ip (v4InV6Prefix ++ ip)); try rewrite (Lc l (v4InV6Prefix ++ l));
      reflexivity.
Qed.

(** X8: the IPv4 builders accept an address in the 4-byte form, but the
    field read back from the bytes holds the 16-byte form of it: the round
    trip normalises the address (and the mask) and so does not give back
    an equal field. *)
Theorem ipv4_builders_round_trip_normalises (ip : list Z) (mask : option (list Z)) :
  length ip = 4%nat -> opt_ok (fun m => length m = 4%nat) mask ->
  let to16 := app v4InV6Prefix in
  field_round_trip (NewIpv4SrcField ip mask)
  = Ok (NewIpv4SrcField (to16 ip) (option_map to16 mask)) /\
  field_round_trip (NewIpv4DstField ip mask)
  = Ok (NewIpv4DstField (to16 ip) (option_map to16 mask)) /\
  field_round_trip (NewTunnelIpv4SrcField ip mask)
  = Ok (NewTunnelIpv4SrcField (to16 ip) (option_map to16 mask)) /\
  field_round_trip (NewTunnelIpv4DstField ip mask)
  = Ok (NewTunnelIpv4DstField (to16 ip) (option_map to16 mask)) /\
  field_round_trip (NewArpTpaField ip) = Ok (NewArpTpaField (to16 ip)) /\
  field_round_trip (NewArpSpaField ip) = Ok (NewArpSpaField (to16 ip)).
Proof.
  intros L Lm. cbn zeta.
  unfold NewIpv4SrcField, NewIpv4DstField, NewTunnelIpv4SrcField, NewTunnelIpv4DstField,
    NewArpTpaField, NewArpSpaField.
  split; [apply (ipv4_field_round_trip _ _ Ipv4SrcField); tauto |].
  split; [apply (ipv4_field_round_trip _ _ Ipv4DstField); tauto |].
  split; [apply (ipv4_field_round_trip _ _ TunnelIpv4SrcField); tauto |].
  split; [apply (ipv4_field_round_trip _ _ TunnelIpv4DstField); tauto |].
  split.
  - apply (ipv4_field_round_trip _ OXM_FIELD_ARP_TPA ArpXPaField ip None);
      [tauto | exact L | exact I].
  - apply (ipv4_field_round_trip _ OXM_FIELD_ARP_SPA ArpXPaField ip None);
      [tauto | exact L | exact I].
Qed.

Lemma ipv4_builders_round_trip_normalises_witness :
  field_round_trip (NewIpv4SrcField [10; 0; 0; 1] (Some [255; 255; 255; 0]))
  = Ok (NewIpv4SrcField (net_IPv4 10 0 0 1) (Some (net_IPv4 255 255 255 0))).
Proof.
  apply (ipv4_builders_round_trip_normalises [10; 0; 0; 1] (Some [255; 255; 255; 0]));
    reflexivity.
Defined.

(** ** Match.Len, and a receiver that already holds fields *)

Lemma round_up_8 (n : Z) :
  0 <= n -> n <= (n + 7) / 8 * 8 < n + 8 /\ ((n + 7) / 8 * 8) mod 8 = 0.
Proof.
  intros H.
  pose proof (Z.div_mod (n + 7) 8 ltac:(lia)).
  pose proof (Z.mod_pos_bound (n + 7) 8 ltac:(lia)).
  split; [lia | apply Z.mod_mul; lia].
Qed.

(** X9: for a match built by AddField calls whose inner length plus 7
    fits in a uint16, [Match.Len], which adds up the fields again, is the
    stored [Length] rounded up to the next multiple of 8. *)
Theorem match_len_rounds_length (fields : list MatchField) (m : Match) (s : Z) :
  build_match fields = Ok m -> total_len fields = Ok s -> 4 + s + 7 < 65536 ->
  Match_Len m = Ok ((Match_Length m + 7) / 8 * 8) /\
  Match_Length m <= (Match_Length m + 7) / 8 * 8 < Match_Length m + 8 /\
  ((Match_Length m + 7) / 8 * 8) mod 8 = 0.
Proof.
  intros Hb Hs Hlt.
  destruct (build_match_inv fields m Hb) as (Ht & Hf & s' & Hs' & Hl).
  rewrite Hs in Hs'. apply Ok_inj in Hs'. subst s'.
  pose proof (total_len_nonneg fields s Hs) as S0.
  rewrite wrap16_small in Hl by lia. rewrite Hl.
  destruct (round_up_8 (4 + s) ltac:(lia)) as [R M].
  split; [| split; [exact R | exact M]].
  unfold Match_Len. rewrite Hf, (sum_field_lens_exact fields 4 s Hs) by lia.
  cbv beta iota delta [bind].
  rewrite (wrap16_small (4 + s + 7)) by lia.
  now rewrite (wrap16_small ((4 + s + 7) / 8 * 8)) by lia.
Qed.

Lemma match_len_rounds_length_witness :
  let m := mkMatch MatchType_OXM 14 [NewEthDstField [1; 2; 3; 4; 5; 6] None] in
  Match_Len m = Ok ((Match_Length m + 7) / 8 * 8) /\
  Match_Length m <= (Match_Length m + 7) / 8 * 8 < Match_Length m + 8 /\
  ((Match_Length m + 7) / 8 * 8) mod 8 = 0.
Proof.
  cbn zeta.
  apply (match_len_rounds_length [NewEthDstField [1; 2; 3; 4; 5; 6] None]
           (mkMatch MatchType_OXM 14 [NewEthDstField [1; 2; 3; 4; 5; 6] None]) 10).
  - reflexivity.
  - reflexivity.
  - lia.
Defined.

(** X10: the rounding of [Match.Len] is done on a uint16.  When the fields
    add up to an inner length of 65529 to 65535, the sum plus 7 wraps
    around, [Len] is 0, and [MarshalBinary] panics writing the type into
    the empty slice it has made. *)
Theorem match_len_wraps_to_zero (m : Match) (s : Z) :
  total_len (Match_Fields m) = Ok s -> 65536 <= 4 + s + 7 -> 4 + s < 65536 ->
  Match_Len m = Ok 0 /\ Match_MarshalBinary m = Panic IndexOutOfRange.
Proof.
  intros Hs Hge Hlt.
  pose proof (total_len_nonneg _ s Hs) as S0.
  assert (HL : Match_Len m = Ok 0).
  { unfold Match_Len. rewrite (sum_field_lens_exact _ 4 s Hs) by lia.
    cbv beta iota delta [bind]. f_equal.
    assert (W : wrap16 (4 + s + 7) = 4 + s + 7 - 65536).
    { unfold wrap16. symmetry. apply (Z.mod_unique _ _ 1); lia. }
    rewrite W.
    assert (D : (4 + s + 7 - 65536) / 8 = 0) by (apply Z.div_small; lia).
    rewrite D. reflexivity. }
  split; [exact HL |].
  unfold Match_MarshalBinary. rewrite HL. reflexivity.
Qed.

Lemma match_len_wraps_to_zero_witness :
  let m := mkMatch MatchType_OXM 65529
             (repeat (NewIpv6SrcField (repeat 1 16) None) 3276 ++ [NewVlanPcpField 1]) in
  Match_Len m = Ok 0 /\ Match_MarshalBinary m = Panic IndexOutOfRange.
Proof.
  cbn zeta.
  apply (match_len_wraps_to_zero
           (mkMatch MatchType_OXM 65529
              (repeat (NewIpv6SrcField (repeat 1 16) None) 3276 ++ [NewVlanPcpField 1]))
           65525).
  - vm_compute. reflexivity.
  - lia.
  - lia.
Defined.

(** The loop of [Match.UnmarshalBinary] appends to the fields it is
    given: what it decodes does not depend on them. *)
Lemma unmarshal_fields_acc (data : list Z) (length : Z) :
  forall (fuel : nat) (n : Z) (acc r : list MatchField),
    unmarshal_fields fuel data length n acc = Some (Ok r) ->
    exists r', r = acc ++ r' /\
               forall acc', unmarshal_fields fuel data length n acc' = Some (Ok (acc' ++ r')).
Proof.
  induction fuel as [| fuel IH]; intros n acc r H; cbn [unmarshal_fields] in *.
  - destruct (n <? length); [discriminate |].
    injection H as <-. exists []. split; [now rewrite app_nil_r |].
    intros acc'. now rewrite app_nil_r.
  - destruct (n <? length).
    + destruct (tl <- slice_from data n ;; MatchField_UnmarshalBinary new_MatchField tl)
        as [field | |]; try discriminate.
      destruct (MatchField_Len field) as [l | |]; try discriminate.
      destruct (IH _ _ _ H) as (r' & -> & K).
      exists (field :: r'). split; [now rewrite <- app_assoc |].
      intros acc'. rewrite (K (acc' ++ [field])). now rewrite <- app_assoc.
    + injection H as <-. exists []. split; [now rewrite app_nil_r |].
      intros acc'. now rewrite app_nil_r.
Qed.

(** X11: [Match.UnmarshalBinary] appends the fields it decodes to the
    fields the receiver already holds: on a receiver that is not fresh
    the result is the old fields followed by the decoded ones, with the
    type and length of the bytes. *)
Theorem match_unmarshal_appends (m m' : Match) (data : list Z) :
  Match_UnmarshalBinary new_Match data = Some (Ok m') ->
  Match_UnmarshalBinary m data
  = Some (Ok (mkMatch (Match_Type m') (Match_Length m') (Match_Fields m ++ Match_Fields m'))).
Proof.
  unfold Match_UnmarshalBinary. intros H.
  destruct (tl <- slice_from data 0 ;; BigEndian_Uint16 tl) as [type | |]; try discriminate.
  destruct (tl <- slice_from data (0 + 2) ;; BigEndian_Uint16 tl) as [length | |];
    try discriminate.
  cbv zeta in *.
  destruct (unmarshal_fields (Z.to_nat length) data length (0 + 2 + 2) (Match_Fields new_Match))
    as [[r | |] |] eqn:E; try discriminate.
  injection H as <-.
  destruct (unmarshal_fields_acc data length _ _ _ _ E) as (r' & -> & K).
  rewrite (K (Match_Fields m)). reflexivity.
Qed.

Lemma match_unmarshal_appends_witness :
  Match_UnmarshalBinary (mkMatch MatchType_OXM 10 [NewEthTypeField 2048])
    [0; 1; 0; 12; 128; 0; 0; 4; 0; 0; 0; 3; 0; 0; 0; 0]
  = Some (Ok (mkMatch MatchType_OXM 12 [NewEthTypeField 2048; NewInPortField 3])).
Proof.
  apply (match_unmarshal_appends (mkMatch MatchType_OXM 10 [NewEthTypeField 2048])
           (mkMatch MatchType_OXM 12 [NewInPortField 3])
           [0; 1; 0; 12; 128; 0; 0; 4; 0; 0; 0; 3; 0; 0; 0; 0]).
  reflexivity.
Defined.

(** ** OxmId: the OXM header on its own *)

Lemma PutUint32_zeros (pre : list Z) (n : nat) (i v : Z) :
  i = len pre ->
  BigEndian_PutUint32 (pre ++ repeat 0 (4 + n)) i v = Ok (pre ++ be_bytes32 v ++ repeat 0 n).
Proof.
  intros ->. unfold BigEndian_PutUint32. rewrite slice_from_app.
  cbv beta iota delta [bind].
  assert (L : len (repeat 0 (4 + n)) = 4 + Z.of_nat n)
    by (unfold len; rewrite repeat_length; lia).
  rewrite L. destruct (4 + Z.of_nat n <? 4) eqn:E; [lia |].
  rewrite (copy_at_zeros pre (be_bytes32 v) (4 + n)) by (cbn; lia).
  replace (4 + n - length (be_bytes32 v))%nat with n by (cbn; lia).
  reflexivity.
Qed.

(** The bytes [OxmId.MarshalBinary] writes when the buffer [Len] sizes
    is the one the class asks for. *)
Lemma OxmId_MarshalBinary_bytes (o : OxmId) :
  ((OxmId_Class o =? OXM_CLASS_EXPERIMENTER) = negb (OxmId_ExperimenterID o =? 0)) ->
  OxmId_MarshalBinary o
  = Ok (be_bytes16 (OxmId_Class o)
        ++ [fld_byte (OxmId_Field o) (OxmId_HasMask o); OxmId_Length o]
        ++ (if OxmId_Class o =? OXM_CLASS_EXPERIMENTER
            then be_bytes32 (OxmId_ExperimenterID o) else [])).
Proof.
  intros H. unfold OxmId_MarshalBinary, OxmId_Len.
  fold (fld_byte (OxmId_Field o) (OxmId_HasMask o)).
  set (c := be_bytes16 (OxmId_Class o)).
  set (fb := fld_byte (OxmId_Field o) (OxmId_HasMask o)).
  set (k := if OxmId_ExperimenterID o =? 0 then 0%nat else 4%nat).
  assert (Hmk : make (if OxmId_ExperimenterID o =? 0 then 4 else wrap16 (4 + 4))
                = repeat 0 (2 + S (S k)))
    by (subst k; destruct (OxmId_ExperimenterID o =? 0); reflexivity).
  rewrite Hmk.
  assert (E1 : BigEndian_PutUint16 (repeat 0 (2 + S (S k))) 0 (OxmId_Class o)
               = Ok (c ++ repeat 0 (S (S k))))
    by exact (PutUint16_zeros [] (S (S k)) (OxmId_Class o)).
  rewrite E1. cbv beta iota zeta delta [bind].
  rewrite (set_index_zeros c (S k) (0 + 2) fb eq_refl).
  assert (E3 : set_index (c ++ fb :: repeat 0 (S k)) (0 + 2 + 1) (OxmId_Length o)
               = Ok ((c ++ [fb; OxmId_Length o]) ++ repeat 0 k)).
  { replace (c ++ fb :: repeat 0 (S k)) with ((c ++ [fb]) ++ repeat 0 (S k))
      by now rewrite <- app_assoc.
    rewrite (set_index_zeros (c ++ [fb]) k (0 + 2 + 1) _ eq_refl).
    now rewrite <- !app_assoc. }
  rewrite E3. subst k. rewrite H.
  destruct (OxmId_ExperimenterID o =? 0); cbn [negb].
  - cbn [repeat]. now rewrite !app_nil_r.
  - rewrite (PutUint32_zeros (c ++ [fb; OxmId_Length o]) 0 (0 + 2 + 1 + 1) _ eq_refl).
    cbn [repeat]. now rewrite app_nil_r, <- app_assoc.
Qed.

Lemma OxmId_UnmarshalBinary_bytes (o : OxmId) (class field length : Z) (hasMask : bool)
    (rest : list Z) :
  is_uint16 class -> 0 <= field < 128 ->
  OxmId_UnmarshalBinary o (be_bytes16 class ++ [fld_byte field hasMask; length] ++ rest)
  = if class =? OXM_CLASS_EXPERIMENTER then
      experimenterID <- BigEndian_Uint32 rest ;;
      if experimenterID =? ONF_EXPERIMENTER_ID
      then Ok (mkOxmId class field hasMask length experimenterID)
      else Err (ErrUnsupportedExperimenter experimenterID class)
    else Ok (mkOxmId class field hasMask length (OxmId_ExperimenterID o)).
Proof.
  intros Hc Hf.
  destruct (fld_byte_decode field hasMask Hf) as [D1 D2].
  set (data := be_bytes16 class ++ [fld_byte field hasMask; length] ++ rest).
  unfold OxmId_UnmarshalBinary.
  assert (S0 : slice_from data 0 = Ok data) by exact (slice_from_at [] data 0 eq_refl).
  assert (U : BigEndian_Uint16 data = Ok class) by (apply Uint16_of_bytes; exact Hc).
  assert (I2 : index data (0 + 2) = Ok (fld_byte field hasMask))
    by exact (index_at (be_bytes16 class) _ (length :: rest) (0 + 2) eq_refl).
  assert (I3 : index data (0 + 2 + 1) = Ok length)
    by exact (index_at (be_bytes16 class ++ [fld_byte field hasMask]) length rest
                (0 + 2 + 1) eq_refl).
  assert (S4 : slice_from data (0 + 2 + 1 + 1) = Ok rest)
    by exact (slice_from_at (be_bytes16 class ++ [fld_byte field hasMask; length]) rest
                (0 + 2 + 1 + 1) eq_refl).
  rewrite S0. cbv beta iota zeta delta [bind]. rewrite U, I2, I3, D1, D2, S4.
  reflexivity.
Qed.

(** X12: an OxmId made by NewOxmId for a class other than Experimenter, or
    for the Experimenter class with the ONF experimenter id, is marshaled
    to [Len] bytes (4, or 8 with the id) and read back equal. *)
Theorem oxm_id_round_trip (class field length expId : Z) (hasMask : bool) (tl : list Z) :
  is_uint16 class -> 0 <= field < 128 ->
  (class = OXM_CLASS_EXPERIMENTER -> expId = ONF_EXPERIMENTER_ID) ->
  let o := NewOxmId class field hasMask length expId in
  exists b, OxmId_MarshalBinary o = Ok b /\ len b = OxmId_Len o /\
            OxmId_UnmarshalBinary new_OxmId (b ++ tl) = Ok o.
Proof.
  intros Hc Hf He. cbn zeta. unfold NewOxmId.
  destruct (class =? OXM_CLASS_EXPERIMENTER) eqn:E.
  - apply Z.eqb_eq in E. rewrite (He E). subst class.
    eexists. split; [apply OxmId_MarshalBinary_bytes; reflexivity |].
    split; [reflexivity |].
    cbn [OxmId_Class OxmId_Field OxmId_HasMask OxmId_Length OxmId_ExperimenterID].
    change (OXM_CLASS_EXPERIMENTER =? OXM_CLASS_EXPERIMENTER) with true.
    cbv iota. rewrite <- !app_assoc.
    rewrite OxmId_UnmarshalBinary_bytes by assumption.
    change (OXM_CLASS_EXPERIMENTER =? OXM_CLASS_EXPERIMENTER) with true. cbv iota.
    rewrite Uint32_of_bytes by (unfold is_uint32, ONF_EXPERIMENTER_ID; lia).
    reflexivity.
  - eexists. split.
    + apply OxmId_MarshalBinary_bytes.
      cbn [OxmId_Class OxmId_ExperimenterID]. rewrite E. reflexivity.
    + cbn [OxmId_Class OxmId_Field OxmId_HasMask OxmId_Length OxmId_ExperimenterID].
      rewrite E. split; [reflexivity |].
      rewrite <- !app_assoc.
      rewrite OxmId_UnmarshalBinary_bytes by assumption. rewrite E. reflexivity.
Qed.

Lemma oxm_id_round_trip_witness :
  exists b,
    OxmId_MarshalBinary (NewOxmId OXM_CLASS_EXPERIMENTER 42 true 4 ONF_EXPERIMENTER_ID) = Ok b /\
    len b = OxmId_Len (NewOxmId OXM_CLASS_EXPERIMENTER 42 true 4 ONF_EXPERIMENTER_ID) /\
    OxmId_UnmarshalBinary new_OxmId (b ++ [7])
    = Ok (NewOxmId OXM_CLASS_EXPERIMENTER 42 true 4 ONF_EXPERIMENTER_ID).
Proof.
  apply (oxm_id_round_trip OXM_CLASS_EXPERIMENTER 42 4 ONF_EXPERIMENTER_ID true [7]).
  - vm_compute. intuition congruence.
  - lia.
  - reflexivity.
Defined.

(** X13: the two ways an Experimenter OxmId fails.  With experimenter id 0
    [Len] is 4, so [MarshalBinary] panics when it writes the id past the
    end of its buffer; with a uint32 id other than 0 and the ONF id, the 8
    bytes are written but [UnmarshalBinary] rejects them. *)
Theorem oxm_id_experimenter_failures (field length expId : Z) (hasMask : bool)
    (tl : list Z) :
  0 <= field < 128 -> is_uint32 expId -> expId <> 0 -> expId <> ONF_EXPERIMENTER_ID ->
  OxmId_MarshalBinary (NewOxmId OXM_CLASS_EXPERIMENTER field hasMask length 0)
  = Panic IndexOutOfRange /\
  exists b,
    OxmId_MarshalBinary (NewOxmId OXM_CLASS_EXPERIMENTER field hasMask length expId) = Ok b /\
    len b = 8 /\
    OxmId_UnmarshalBinary new_OxmId (b ++ tl)
    = Err (ErrUnsupportedExperimenter expId OXM_CLASS_EXPERIMENTER).
Proof.
  intros Hf Hu H0 Hn. split.
  - unfold NewOxmId, OxmId_MarshalBinary, OxmId_Len.
    cbn [OxmId_Class OxmId_Field OxmId_HasMask OxmId_Length OxmId_ExperimenterID].
    change (OXM_CLASS_EXPERIMENTER =? OXM_CLASS_EXPERIMENTER) with true. cbv iota.
    change (make (if 0 =? 0 then 4 else wrap16 (4 + 4))) with (repeat 0 (2 + 2)).
    assert (E1 : BigEndian_PutUint16 (repeat 0 (2 + 2)) 0 OXM_CLASS_EXPERIMENTER
                 = Ok (be_bytes16 OXM_CLASS_EXPERIMENTER ++ repeat 0 2))
      by exact (PutUint16_zeros [] 2 OXM_CLASS_EXPERIMENTER).
    rewrite E1. cbv beta iota zeta delta [bind].
    rewrite (set_index_zeros (be_bytes16 OXM_CLASS_EXPERIMENTER) 1 (0 + 2) _ eq_refl).
    reflexivity.
  - unfold NewOxmId. change (OXM_CLASS_EXPERIMENTER =? OXM_CLASS_EXPERIMENTER) with true.
    cbv iota.
    eexists. split.
    + apply OxmId_MarshalBinary_bytes.
      cbn [OxmId_Class OxmId_ExperimenterID].
      apply Z.eqb_neq in H0. rewrite H0. reflexivity.
    + cbn [OxmId_Class OxmId_Field OxmId_HasMask OxmId_Length OxmId_ExperimenterID].
      change (OXM_CLASS_EXPERIMENTER =? OXM_CLASS_EXPERIMENTER) with true. cbv iota.
      split; [reflexivity |].
      rewrite <- !app_assoc.
      rewrite OxmId_UnmarshalBinary_bytes
        by (try assumption; unfold is_uint16, OXM_CLASS_EXPERIMENTER; lia).
      change (OXM_CLASS_EXPERIMENTER =? OXM_CLASS_EXPERIMENTER) with true. cbv iota.
      rewrite Uint32_of_bytes by exact Hu. cbv beta iota delta [bind].
      apply Z.eqb_neq in Hn. rewrite Hn. reflexivity.
Qed.

Lemma oxm_id_experimenter_failures_witness :
  OxmId_MarshalBinary (NewOxmId OXM_CLASS_EXPERIMENTER 42 false 2 0) = Panic IndexOutOfRange /\
  exists b,
    OxmId_MarshalBinary (NewOxmId OXM_CLASS_EXPERIMENTER 42 false 2 8992) = Ok b /\
    len b = 8 /\
    OxmId_UnmarshalBinary new_OxmId (b ++ [])
    = Err (ErrUnsupportedExperimenter 8992 OXM_CLASS_EXPERIMENTER).
Proof.
  apply (oxm_id_experimenter_failures 42 2 8992 false []).
  - lia.
  - unfold is_uint32. lia.
  - lia.
  - vm_compute. discriminate.
Defined.

(** ** MarshalHeader and the first four bytes of a field *)

Lemma testbit_above (x k n : Z) : 0 <= x < 2 ^ k -> k <= n -> Z.testbit x n = false.
Proof.
  intros [H0 H1] Hk. destruct (Z.eq_dec x 0) as [-> | Hx]; [apply Z.bits_0 |].
  apply Z.bits_above_log2; [lia |].
  assert (Z.log2 x < k) by (apply Z.log2_lt_pow2; lia). lia.
Qed.

Lemma testbit_pow2 (k n : Z) : 0 <= k -> Z.testbit (2 ^ k) n = (n =? k).
Proof.
  intros Hk. destruct (Z.eq_dec n k) as [-> | Hn].
  - rewrite Z.eqb_refl. apply Z.pow2_bits_true. lia.
  - rewrite (proj2 (Z.eqb_neq n k) Hn). apply Z.pow2_bits_false. lia.
Qed.

(** The header as a uint32, bit by bit. *)
Lemma MarshalHeader_bits (f : MatchField) (n : Z) :
  is_uint16 (MatchField_Class f) -> 0 <= MatchField_Field f < 128 -> 0 <= n ->
  Z.testbit (MatchField_MarshalHeader f) n
  = Z.testbit (MatchField_Class f) (n - 16)
    || Z.testbit (MatchField_Field f) (n - 9)
    || (MatchField_HasMask f && (n =? 8))
    || Z.testbit (MatchField_Length f) n.
Proof.
  intros Hc Hf Hn. unfold MatchField_MarshalHeader, is_uint16 in *.
  assert (W1 : wrap32 (Z.shiftl (MatchField_Class f) 16) = Z.shiftl (MatchField_Class f) 16).
  { unfold wrap32. rewrite Z.shiftl_mul_pow2 by lia. apply Z.mod_small.
    change (2 ^ 16) with 65536. lia. }
  assert (W2 : wrap32 (Z.shiftl (MatchField_Field f) 9) = Z.shiftl (MatchField_Field f) 9).
  { unfold wrap32. rewrite Z.shiftl_mul_pow2 by lia. apply Z.mod_small.
    change (2 ^ 9) with 512. lia. }
  rewrite W1, W2, !Z.lor_spec, !Z.shiftl_spec by lia.
  apply (f_equal2 orb); [| reflexivity].
  apply (f_equal2 orb); [reflexivity |].
  destruct (MatchField_HasMask f); cbn [andb].
  - exact (testbit_pow2 8 n ltac:(lia)).
  - exact (Z.bits_0 n).
Qed.

Lemma fld_byte_bits (field : Z) (hasMask : bool) (n : Z) :
  0 <= field < 128 -> 0 <= n ->
  Z.testbit (fld_byte field hasMask) n = Z.testbit field (n - 1) || (hasMask && (n =? 0)).
Proof.
  intros Hf Hn. unfold fld_byte.
  assert (W : wrap8 (Z.shiftl field 1) = Z.shiftl field 1).
  { unfold wrap8. rewrite Z.shiftl_mul_pow2 by lia. apply Z.mod_small.
    change (2 ^ 1) with 2. lia. }
  rewrite W. destruct hasMask; cbn [andb].
  - rewrite Z.lor_spec, Z.shiftl_spec by lia.
    apply (f_equal2 orb); [reflexivity |].
    exact (testbit_pow2 0 n (Z.le_refl 0)).
  - rewrite Z.shiftl_spec by lia. now rewrite orb_false_r.
Qed.

Lemma MarshalHeader_bytes (f : MatchField) :
  is_uint16 (MatchField_Class f) -> 0 <= MatchField_Field f < 128 ->
  is_uint8 (MatchField_Length f) ->
  be_bytes32 (MatchField_MarshalHeader f)
  = be_bytes16 (MatchField_Class f)
    ++ [fld_byte (MatchField_Field f) (MatchField_HasMask f); MatchField_Length f].
Proof.
  intros Hc Hf HL. unfold be_bytes32, be_bytes16. cbn [app].
  pose proof Hc as Hc'. pose proof HL as HL'. unfold is_uint16 in Hc'. unfold is_uint8 in HL'.
  assert (A : forall k n, k <= n ->
                (k = 16 -> Z.testbit (MatchField_Class f) n = false) /\
                (k = 7 -> Z.testbit (MatchField_Field f) n = false) /\
                (k = 8 -> Z.testbit (MatchField_Length f) n = false)).
  { intros k n Hk. repeat split; intros ->.
    - apply (testbit_above _ 16); [change (2 ^ 16) with 65536 |]; lia.
    - apply (testbit_above _ 7); [change (2 ^ 7) with 128 |]; lia.
    - apply (testbit_above _ 8); [change (2 ^ 8) with 256 |]; lia. }
  assert (Neg : forall x n, n < 0 -> Z.testbit x n = false)
    by (intros; now apply Z.testbit_neg_r).
  f_equal; [| f_equal; [| f_equal; [| f_equal]]].
  - apply Z.bits_inj'. intros n Hn. rewrite !testbit_byte.
    destruct (n <? 8) eqn:E; [| now rewrite !andb_false_r]. rewrite !andb_true_r.
    apply Z.ltb_lt in E.
    rewrite !Z.shiftr_spec, MarshalHeader_bits by (assumption || lia).
    rewrite (proj1 (proj2 (A 7 (n + 24 - 9) ltac:(lia))) eq_refl).
    rewrite (proj2 (proj2 (A 8 (n + 24) ltac:(lia))) eq_refl).
    replace (n + 24 =? 8) with false by (symmetry; apply Z.eqb_neq; lia).
    rewrite andb_false_r, !orb_false_r. f_equal. lia.
  - apply Z.bits_inj'. intros n Hn. rewrite !testbit_byte.
    destruct (n <? 8) eqn:E; [| now rewrite !andb_false_r]. rewrite !andb_true_r.
    apply Z.ltb_lt in E.
    rewrite !Z.shiftr_spec, MarshalHeader_bits by (assumption || lia).
    rewrite (proj1 (proj2 (A 7 (n + 16 - 9) ltac:(lia))) eq_refl).
    rewrite (proj2 (proj2 (A 8 (n + 16) ltac:(lia))) eq_refl).
    replace (n + 16 =? 8) with false by (symmetry; apply Z.eqb_neq; lia).
    rewrite andb_false_r, !orb_false_r. f_equal. lia.
  - apply Z.bits_inj'. intros n Hn. rewrite testbit_byte.
    rewrite fld_byte_bits by assumption.
    destruct (n <? 8) eqn:E.
    + rewrite andb_true_r. apply Z.ltb_lt in E.
      rewrite Z.shiftr_spec, MarshalHeader_bits by (assumption || lia).
      rewrite (Neg (MatchField_Class f) (n + 8 - 16)) by lia.
      rewrite (proj2 (proj2 (A 8 (n + 8) ltac:(lia))) eq_refl).
      rewrite orb_false_r. cbn [orb].
      replace (n + 8 - 9) with (n - 1) by lia.
      replace (n + 8 =? 8) with (n =? 0); [reflexivity |].
      destruct (Z.eq_dec n 0) as [-> | Hne]; [reflexivity |].
      rewrite (proj2 (Z.eqb_neq _ _) Hne). symmetry. apply Z.eqb_neq. lia.
    + rewrite andb_false_r. apply Z.ltb_ge in E. symmetry.
      rewrite (proj1 (proj2 (A 7 (n - 1) ltac:(lia))) eq_refl).
      replace (n =? 0) with false by (symmetry; apply Z.eqb_neq; lia).
      now rewrite andb_false_r.
  - apply Z.bits_inj'. intros n Hn. rewrite testbit_byte.
    destruct (n <? 8) eqn:E.
    + rewrite andb_true_r. apply Z.ltb_lt in E.
      rewrite MarshalHeader_bits by (assumption || lia).
      rewrite (Neg (MatchField_Class f) (n - 16)) by lia.
      rewrite (Neg (MatchField_Field f) (n - 9)) by lia.
      replace (n =? 8) with false by (symmetry; apply Z.eqb_neq; lia).
      now rewrite andb_false_r.
    + rewrite andb_false_r. apply Z.ltb_ge in E. symmetry.
      apply (proj2 (proj2 (A 8 n ltac:(lia)))). reflexivity.
Qed.

(** X14: for a field with a uint16 class, a 7-bit field number and a
    one-byte length, the uint32 of [MarshalHeader] is the big-endian value
    of the first four bytes [MarshalBinary] writes, and [UnmarshalHeader]
    reads class, field, mask bit and length back from it. *)
Theorem marshal_header_agrees (f m : MatchField) (v : Message) (tl : list Z) :
  MatchField_typed f -> MatchField_complete f -> MatchField_Value f = Some v ->
  is_uint16 (MatchField_Class f) -> 0 <= MatchField_Field f < 128 ->
  is_uint8 (MatchField_Length f) ->
  (exists b, MatchField_MarshalBinary f = Ok b /\
             BigEndian_Uint32 b = Ok (MatchField_MarshalHeader f)) /\
  MatchField_UnmarshalHeader m (be_bytes32 (MatchField_MarshalHeader f) ++ tl)
  = Ok (mkMatchField (MatchField_Class f) (MatchField_Field f) (MatchField_HasMask f)
          (MatchField_Length f) (MatchField_ExperimenterID m)
          (MatchField_Value m) (MatchField_Mask m)).
Proof.
  intros T C Hv Hc Hf HL.
  pose proof (MarshalHeader_bytes f Hc Hf HL) as B.
  assert (R : 0 <= MatchField_MarshalHeader f < 4294967296).
  { change 4294967296 with (2 ^ 32).
    assert (N : 0 <= MatchField_MarshalHeader f).
    { apply Z.bits_iff_nonneg_ex. exists 32. intros n Hn.
      rewrite MarshalHeader_bits by (assumption || lia).
      unfold is_uint16, is_uint8 in *.
      rewrite (testbit_above (MatchField_Class f) 16 (n - 16))
        by (change (2 ^ 16) with 65536; lia).
      rewrite (testbit_above (MatchField_Field f) 7 (n - 9))
        by (change (2 ^ 7) with 128; lia).
      rewrite (testbit_above (MatchField_Length f) 8 n)
        by (change (2 ^ 8) with 256; lia).
      replace (n =? 8) with false by (symmetry; apply Z.eqb_neq; lia).
      now rewrite andb_false_r. }
    split; [exact N |].
    destruct (Z.eq_dec (MatchField_MarshalHeader f) 0) as [-> | Hne]; [lia |].
    apply Z.log2_lt_pow2; [lia |].
    destruct (Z_lt_dec (Z.log2 (MatchField_MarshalHeader f)) 32) as [| Hge]; [assumption |].
    exfalso.
    pose proof (Z.bit_log2 (MatchField_MarshalHeader f) ltac:(lia)) as Bit.
    rewrite MarshalHeader_bits in Bit by (assumption || apply Z.log2_nonneg).
    unfold is_uint16, is_uint8 in *.
    rewrite (testbit_above (MatchField_Class f) 16)
      in Bit by (change (2 ^ 16) with 65536; lia).
    rewrite (testbit_above (MatchField_Field f) 7) in Bit by (change (2 ^ 7) with 128; lia).
    rewrite (testbit_above (MatchField_Length f) 8) in Bit by (change (2 ^ 8) with 256; lia).
    replace (Z.log2 (MatchField_MarshalHeader f) =? 8) with false in Bit
      by (symmetry; apply Z.eqb_neq; lia).
    rewrite andb_false_r in Bit. discriminate Bit. }
  split.
  - eexists. split; [exact (MatchField_MarshalBinary_layout f v T C Hv) |].
    replace (be_bytes16 (MatchField_Class f)
             ++ [fld_byte (MatchField_Field f) (MatchField_HasMask f); MatchField_Length f]
             ++ Message_MarshalBinary v ++ mask_payload f ++ experimenter_room f)
      with (be_bytes32 (MatchField_MarshalHeader f)
            ++ Message_MarshalBinary v ++ mask_payload f ++ experimenter_room f)
      by (rewrite B; now rewrite <- app_assoc).
    apply Uint32_of_bytes. exact R.
  - rewrite B.
    destruct (fld_byte_decode (MatchField_Field f) (MatchField_HasMask f) Hf) as [D1 D2].
    set (c := be_bytes16 (MatchField_Class f)).
    set (fb := fld_byte (MatchField_Field f) (MatchField_HasMask f)).
    set (data := (c ++ [fb; MatchField_Length f]) ++ tl).
    unfold MatchField_UnmarshalHeader.
    assert (G : (len data <? 4) = false) by (apply len_ge_app; cbn; lia).
    assert (S0 : slice_from data 0 = Ok data) by exact (slice_from_at [] data 0 eq_refl).
    assert (U : BigEndian_Uint16 data = Ok (MatchField_Class f)).
    { subst data. rewrite <- app_assoc. apply Uint16_of_bytes. exact Hc. }
    assert (I2 : index data 2 = Ok fb).
    { subst data. rewrite <- app_assoc.
      exact (index_at c fb (MatchField_Length f :: tl) 2 eq_refl). }
    assert (I3 : index data 3 = Ok (MatchField_Length f)).
    { subst data. rewrite <- app_assoc.
      exact (index_at (c ++ [fb]) (MatchField_Length f) tl 3 eq_refl). }
    rewrite G, S0. cbv beta iota zeta delta [bind]. rewrite U, I2, I3.
    subst fb. rewrite D1, D2.
    fold (byte (MatchField_Length f)). rewrite byte_small by exact HL. reflexivity.
Qed.

Lemma marshal_header_agrees_witness :
  (exists b, MatchField_MarshalBinary (NewVlanIdField 100 (Some 4095)) = Ok b /\
             BigEndian_Uint32 b = Ok (MatchField_MarshalHeader (NewVlanIdField 100 (Some 4095)))) /\
  MatchField_UnmarshalHeader new_MatchField
    (be_bytes32 (MatchField_MarshalHeader (NewVlanIdField 100 (Some 4095))) ++ [])
  = Ok (mkMatchField OXM_CLASS_OPENFLOW_BASIC OXM_FIELD_VLAN_VID true 4 0 None None).
Proof.
  apply (marshal_header_agrees (NewVlanIdField 100 (Some 4095)) new_MatchField
           (VlanIdField (Z.lor 100 OFPVID_PRESENT)) []).
  - split; exact I.
  - split; discriminate.
  - reflexivity.
  - vm_compute. intuition congruence.
  - vm_compute. intuition congruence.
  - vm_compute. intuition congruence.
Defined.

(** ** TCP: options and payload *)

Lemma slice_to_ok (b : list Z) (j : Z) :
  0 <= j <= len b -> slice_to b j = Ok (firstn (Z.to_nat j) b).
Proof.
  intros [H1 H2]. unfold slice_to.
  destruct (0 <=? j) eqn:E1; [| lia]. destruct (j <=? len b) eqn:E2; [| lia]. reflexivity.
Qed.

Lemma len_firstn (b : list Z) (j : Z) :
  0 <= j <= len b -> len (firstn (Z.to_nat j) b) = j.
Proof. intros H. unfold len in *. rewrite length_firstn. lia. Qed.

Lemma len_skipn (b : list Z) (j : Z) :
  0 <= j <= len b -> len (skipn (Z.to_nat j) b) = len b - j.
Proof. intros H. unfold len in *. rewrite length_skipn. lia. Qed.

(** X15: when the header length is valid (at least 5 words, and the
    options it announces fit in Data), [GetOptions] returns the first
    (HdrLen - 5) * 4 bytes of Data and [GetPayload] the rest: together
    they are Data, and neither returns an error. *)
Theorem tcp_options_then_payload (t : TCP) :
  5 <= TCP_HdrLen t -> (TCP_HdrLen t - 5) * 4 <= len (bytes_of (TCP_Data t)) ->
  exists opt msg,
    TCP_GetOptions t = Ok (Some opt, None) /\
    TCP_GetPayload t = Ok (Some msg, None) /\
    opt ++ msg = bytes_of (TCP_Data t) /\
    len opt = (TCP_HdrLen t - 5) * 4.
Proof.
  intros H5 Hfit.
  set (d := bytes_of (TCP_Data t)) in *. set (n := (TCP_HdrLen t - 5) * 4) in *.
  assert (V : TCP_validateHdrLen t = None).
  { unfold TCP_validateHdrLen, TCP_getOptionsSize. fold d n.
    destruct (TCP_HdrLen t <? 5) eqn:E1; [lia |].
    destruct (len d <? n) eqn:E2; [lia | reflexivity]. }
  assert (Hn : 0 <= n <= len d) by (subst n; lia).
  exists (firstn (Z.to_nat n) d), (skipn (Z.to_nat n) d).
  unfold TCP_GetOptions, TCP_GetPayload, TCP_getOptionsSize. rewrite V. fold d n.
  rewrite (slice_to_ok d n Hn), (slice_from_ok d n Hn). cbv beta iota delta [bind].
  rewrite (copy_make_self (firstn (Z.to_nat n) d) n) by (now rewrite len_firstn).
  rewrite (copy_make_self (skipn (Z.to_nat n) d) (len d - n)) by (now rewrite len_skipn).
  repeat split; [apply firstn_skipn | now apply len_firstn].
Qed.

Lemma tcp_options_then_payload_witness :
  exists opt msg,
    TCP_GetOptions (mkTCP 80 8080 1 2 7 16 512 0 0 (Some [1; 2; 3; 4; 5; 6; 7; 8; 9; 10])) 
    = Ok (Some opt, None) /\
    TCP_GetPayload (mkTCP 80 8080 1 2 7 16 512 0 0 (Some [1; 2; 3; 4; 5; 6; 7; 8; 9; 10]))
    = Ok (Some msg, None) /\
    opt ++ msg = [1; 2; 3; 4; 5; 6; 7; 8; 9; 10] /\
    len opt = (7 - 5) * 4.
Proof.
  apply (tcp_options_then_payload
           (mkTCP 80 8080 1 2 7 16 512 0 0 (Some [1; 2; 3; 4; 5; 6; 7; 8; 9; 10]))).
  - cbn. lia.
  - cbn. lia.
Defined.

(** X16: an invalid header length gives the same error from [GetOptions]
    and from [GetPayload], and no bytes: too small below 5 words, too
    large when the options would not fit in Data.  Neither panics. *)
Theorem tcp_invalid_header_length (t : TCP) :
  TCP_HdrLen t < 5 \/ len (bytes_of (TCP_Data t)) < (TCP_HdrLen t - 5) * 4 ->
  let err := if TCP_HdrLen t <? 5 then errHdrLenTooSmall else errHdrLenTooLarge in
  TCP_GetOptions t = Ok (None, Some err) /\ TCP_GetPayload t = Ok (None, Some err).
Proof.
  intros H. cbn zeta.
  assert (V : TCP_validateHdrLen t
              = Some (if TCP_HdrLen t <? 5 then errHdrLenTooSmall else errHdrLenTooLarge)).
  { unfold TCP_validateHdrLen, TCP_getOptionsSize.
    destruct (TCP_HdrLen t <? 5) eqn:E1; [reflexivity |].
    destruct (len (bytes_of (TCP_Data t)) <? (TCP_HdrLen t - 5) * 4) eqn:E2;
      [reflexivity | lia]. }
  unfold TCP_GetOptions, TCP_GetPayload. rewrite V. split; reflexivity.
Qed.

Lemma tcp_invalid_header_length_witness :
  TCP_GetOptions (mkTCP 80 8080 1 2 9 16 512 0 0 (Some [1; 2; 3; 4; 5; 6; 7; 8; 9; 10]))
  = Ok (None, Some errHdrLenTooLarge) /\
  TCP_GetPayload (mkTCP 80 8080 1 2 9 16 512 0 0 (Some [1; 2; 3; 4; 5; 6; 7; 8; 9; 10]))
  = Ok (None, Some errHdrLenTooLarge).
Proof.
  apply (tcp_invalid_header_length
           (mkTCP 80 8080 1 2 9 16 512 0 0 (Some [1; 2; 3; 4; 5; 6; 7; 8; 9; 10]))).
  right. cbn. lia.
Defined.

(** ** TCP: UnmarshalBinary and the round trip *)

Lemma slice_ok (b : list Z) (i j : Z) :
  0 <= i <= j -> j <= len b ->
  slice b i j = Ok (firstn (Z.to_nat (j - i)) (skipn (Z.to_nat i) b)) /\
  len (firstn (Z.to_nat (j - i)) (skipn (Z.to_nat i) b)) = j - i.
Proof.
  intros [H1 H2] H3. unfold slice.
  destruct (0 <=? i) eqn:E1; [| lia]. destruct (i <=? j) eqn:E2; [| lia].
  destruct (j <=? len b) eqn:E3; [| lia]. split; [reflexivity |].
  unfold len in *. rewrite length_firstn, length_skipn. lia.
Qed.

Lemma index_ok (b : list Z) (i : Z) :
  0 <= i < len b -> index b i = Ok (nth (Z.to_nat i) b 0).
Proof.
  intros [H1 H2]. unfold index.
  destruct (0 <=? i) eqn:E1; [| lia]. destruct (i <? len b) eqn:E2; [| lia]. reflexivity.
Qed.

Lemma Uint16_in_slice (b : list Z) (i j : Z) :
  0 <= i -> j = i + 2 -> j <= len b ->
  (s <- slice b i j ;; BigEndian_Uint16 s)
  = Ok (be_value (firstn 2 (firstn (Z.to_nat (j - i)) (skipn (Z.to_nat i) b)))).
Proof.
  intros Hi -> Hj. destruct (slice_ok b i (i + 2) ltac:(lia) Hj) as [S L].
  rewrite S. cbv beta iota delta [bind]. unfold BigEndian_Uint16. rewrite L.
  destruct (i + 2 - i <? 2) eqn:E; [lia | reflexivity].
Qed.

Lemma Uint32_in_slice (b : list Z) (i j : Z) :
  0 <= i -> j = i + 4 -> j <= len b ->
  (s <- slice b i j ;; BigEndian_Uint32 s)
  = Ok (be_value (firstn 4 (firstn (Z.to_nat (j - i)) (skipn (Z.to_nat i) b)))).
Proof.
  intros Hi -> Hj. destruct (slice_ok b i (i + 4) ltac:(lia) Hj) as [S L].
  rewrite S. cbv beta iota delta [bind]. unfold BigEndian_Uint32. rewrite L.
  destruct (i + 4 - i <? 4) eqn:E; [lia | reflexivity].
Qed.

(** What [TCP.UnmarshalBinary] returns on 20 bytes or more. *)
Lemma TCP_UnmarshalBinary_long (r : TCP) (data : list Z) :
  20 <= len data ->
  TCP_UnmarshalBinary r data
  = Ok (mkTCP (be_value (firstn 2 data))
              (be_value (firstn 2 (skipn 2 data)))
              (be_value (firstn 4 (skipn 4 data)))
              (be_value (firstn 4 (skipn 8 data)))
              (Z.land (Z.shiftr (nth 12 data 0) 4) 0xf)
              (Z.land (nth 13 data 0) 0x3f)
              (be_value (firstn 2 (skipn 14 data)))
              (be_value (firstn 2 (skipn 16 data)))
              (be_value (firstn 2 (skipn 18 data)))
              (if 20 <? len data then Some (skipn 20 data) else TCP_Data r),
        None).
Proof.
  intros H. unfold TCP_UnmarshalBinary.
  destruct (len data <? 20) eqn:E; [lia |].
  pose proof (Uint16_in_slice data 0 2 ltac:(lia) eq_refl ltac:(lia)) as U0.
  pose proof (Uint16_in_slice data 2 4 ltac:(lia) eq_refl ltac:(lia)) as U2.
  pose proof (Uint32_in_slice data 4 8 ltac:(lia) eq_refl ltac:(lia)) as U4.
  pose proof (Uint32_in_slice data 8 12 ltac:(lia) eq_refl ltac:(lia)) as U8.
  pose proof (Uint16_in_slice data 14 16 ltac:(lia) eq_refl ltac:(lia)) as U14.
  pose proof (Uint16_in_slice data 16 18 ltac:(lia) eq_refl ltac:(lia)) as U16.
  pose proof (Uint16_in_slice data 18 20 ltac:(lia) eq_refl ltac:(lia)) as U18.
  pose proof (index_ok data 12 ltac:(lia)) as I12.
  pose proof (index_ok data 13 ltac:(lia)) as I13.
  unfold bind in U0, U2, U4, U8, U14, U16, U18.
  unfold bind.
  destruct (slice data 0 2) as [s0 | |]; try discriminate. rewrite U0.
  destruct (slice data 2 4) as [s2 | |]; try discriminate. rewrite U2.
  destruct (slice data 4 8) as [s4 | |]; try discriminate. rewrite U4.
  destruct (slice data 8 12) as [s8 | |]; try discriminate. rewrite U8.
  rewrite I12, I13.
  destruct (slice data 14 16) as [s14 | |]; try discriminate. rewrite U14.
  destruct (slice data 16 18) as [s16 | |]; try discriminate. rewrite U16.
  destruct (slice data 18 20) as [s18 | |]; try discriminate. rewrite U18.
  assert (F : forall k n (l : list Z), firstn k (firstn (k + n) l) = firstn k l).
  { intros k n l. rewrite firstn_firstn. f_equal. lia. }
  change (Z.to_nat (2 - 0)) with (2 + 0)%nat. change (Z.to_nat (4 - 2)) with (2 + 0)%nat.
  change (Z.to_nat (8 - 4)) with (4 + 0)%nat. change (Z.to_nat (12 - 8)) with (4 + 0)%nat.
  change (Z.to_nat (16 - 14)) with (2 + 0)%nat. change (Z.to_nat (18 - 16)) with (2 + 0)%nat.
  change (Z.to_nat (20 - 18)) with (2 + 0)%nat.
  rewrite !F.
  change (skipn (Z.to_nat 0) data) with data.
  destruct (20 <? len data) eqn:E20; [| reflexivity].
  rewrite (slice_from_ok data 20) by lia.
  rewrite (copy_make_self (skipn (Z.to_nat 20) data) (len data - 20))
    by (rewrite len_skipn; lia).
  reflexivity.
Qed.

(** X17: [TCP.UnmarshalBinary] never panics.  On fewer than 20 bytes it
    returns the too-short error and leaves the receiver as it was; on 20
    bytes or more it returns no error, with a 4-bit header length, a 6-bit
    code and, when there are more than 20 bytes, the rest as Data (on
    exactly 20 bytes Data stays what the receiver held). *)
Theorem tcp_unmarshal_never_panics (r : TCP) (data : list Z) :
  (len data < 20 -> TCP_UnmarshalBinary r data = Ok (r, Some errTooShort)) /\
  (20 <= len data ->
   exists t, TCP_UnmarshalBinary r data = Ok (t, None) /\
             0 <= TCP_HdrLen t < 16 /\ 0 <= TCP_Code t < 64 /\
             TCP_Data t = if 20 <? len data then Some (skipn 20 data) else TCP_Data r).
Proof.
  split.
  - intros H. unfold TCP_UnmarshalBinary.
    destruct (len data <? 20) eqn:E; [reflexivity | lia].
  - intros H. eexists. split; [apply (TCP_UnmarshalBinary_long r data H) |].
    cbn [TCP_HdrLen TCP_Code TCP_Data].
    change 15 with (Z.ones 4). change 63 with (Z.ones 6).
    rewrite !Z.land_ones by lia.
    repeat split; try (apply Z.mod_pos_bound; lia).
Qed.

Lemma PutUint16_in_zeros (pre : list Z) (n : nat) (i j v : Z) :
  i = len pre -> j = i + 2 ->
  PutUint16_in (pre ++ repeat 0 (2 + n)) i j v = Ok ((pre ++ be_bytes16 v) ++ repeat 0 n).
Proof.
  intros -> ->. unfold PutUint16_in. pose proof (len_nonneg pre).
  assert (L : len (pre ++ repeat 0 (2 + n)) = len pre + 2 + Z.of_nat n)
    by (rewrite len_app; unfold len; rewrite repeat_length; lia).
  destruct (slice_ok (pre ++ repeat 0 (2 + n)) (len pre) (len pre + 2) ltac:(lia) ltac:(lia))
    as [S Ls].
  rewrite S. cbv beta iota delta [bind]. rewrite Ls.
  destruct (len pre + 2 - len pre <? 2) eqn:E; [lia |].
  rewrite (copy_at_zeros pre (be_bytes16 v) (2 + n)) by (cbn; lia).
  replace (2 + n - length (be_bytes16 v))%nat with n by (cbn; lia).
  now rewrite app_assoc.
Qed.

Lemma PutUint32_in_zeros (pre : list Z) (n : nat) (i j v : Z) :
  i = len pre -> j = i + 4 ->
  PutUint32_in (pre ++ repeat 0 (4 + n)) i j v = Ok ((pre ++ be_bytes32 v) ++ repeat 0 n).
Proof.
  intros -> ->. unfold PutUint32_in. pose proof (len_nonneg pre).
  assert (L : len (pre ++ repeat 0 (4 + n)) = len pre + 4 + Z.of_nat n)
    by (rewrite len_app; unfold len; rewrite repeat_length; lia).
  destruct (slice_ok (pre ++ repeat 0 (4 + n)) (len pre) (len pre + 4) ltac:(lia) ltac:(lia))
    as [S Ls].
  rewrite S. cbv beta iota delta [bind]. rewrite Ls.
  destruct (len pre + 4 - len pre <? 4) eqn:E; [lia |].
  rewrite (copy_at_zeros pre (be_bytes32 v) (4 + n)) by (cbn; lia).
  replace (4 + n - length (be_bytes32 v))%nat with n by (cbn; lia).
  now rewrite app_assoc.
Qed.

Lemma set_index_zeros_left (pre : list Z) (k : nat) (i v : Z) :
  i = len pre ->
  set_index (pre ++ repeat 0 (S k)) i v = Ok ((pre ++ [v]) ++ repeat 0 k).
Proof. intros H. rewrite (set_index_zeros pre k i v H). now rewrite <- app_assoc. Qed.

Ltac tcp_put_step :=
  match goal with
  | |- context [PutUint16_in (?pre ++ repeat 0 (2 + ?n)) ?i ?j ?v] =>
      rewrite (PutUint16_in_zeros pre n i j v eq_refl eq_refl)
  | |- context [PutUint32_in (?pre ++ repeat 0 (4 + ?n)) ?i ?j ?v] =>
      rewrite (PutUint32_in_zeros pre n i j v eq_refl eq_refl)
  | |- context [set_index (?pre ++ repeat 0 (S ?k)) ?i ?v] =>
      rewrite (set_index_zeros_left pre k i v eq_refl)
  end; cbv beta iota delta [bind].

Lemma TCP_MarshalBinary_bytes (t : TCP) :
  20 + len (bytes_of (TCP_Data t)) < 65536 ->
  TCP_MarshalBinary t = Ok (TCP_header_bytes t ++ bytes_of (TCP_Data t)).
Proof.
  intros Hlt. set (d := bytes_of (TCP_Data t)) in *. pose proof (len_nonneg d).
  assert (HL : TCP_Len t = 20 + len d).
  { unfold TCP_Len. subst d. destruct (TCP_Data t) as [l |]; cbn [bytes_of] in *.
    - apply wrap16_small. lia.
    - reflexivity. }
  unfold TCP_MarshalBinary. rewrite HL. fold d.
  assert (Hmk : make (20 + len d)
                = [] ++ repeat 0 (2 + (2 + (4 + (4 + S (S (2 + (2 + (2 + length d)))))))))
    by (unfold make; cbn [app]; f_equal; unfold len; lia).
  rewrite Hmk.
  do 9 tcp_put_step.
  match goal with
  | |- copy_at (?pre ++ _) _ _ = _ =>
      rewrite (copy_at_zeros_at pre d (length d) 20 eq_refl (le_n _))
  end.
  rewrite Nat.sub_diag. cbn [repeat]. rewrite app_nil_r. reflexivity.
Qed.

Lemma tcp_nibbles (h c : Z) :
  is_uint8 h -> is_uint8 c ->
  Z.land (Z.shiftr (Z.land (wrap8 (Z.shiftl h 4)) 0xf0) 4) 0xf = h mod 16 /\
  Z.land (Z.land c 0x3f) 0x3f = c mod 64.
Proof.
  intros Hh Hc. split.
  - apply Z.eqb_eq.
    apply (forall_below
             (fun x => Z.land (Z.shiftr (Z.land (wrap8 (Z.shiftl x 4)) 0xf0) 4) 0xf
                       =? x mod 16) 256); [vm_compute; reflexivity | exact Hh].
  - apply Z.eqb_eq.
    apply (forall_below (fun x => Z.land (Z.land x 0x3f) 0x3f =? x mod 64) 256);
      [vm_compute; reflexivity | exact Hc].
Qed.

Lemma wrap32_small (v : Z) : is_uint32 v -> wrap32 v = v.
Proof. intros H. apply Z.mod_small. exact H. Qed.

Lemma TCP_round_trip_bytes (t r : TCP) :
  TCP_typed t -> 20 + len (bytes_of (TCP_Data t)) < 65536 ->
  TCP_UnmarshalBinary r (TCP_header_bytes t ++ bytes_of (TCP_Data t))
  = Ok (TCP_read_back t r, None).
Proof.
  intros (T1 & T2 & T3 & T4 & T5 & T6 & T7 & T8 & T9) Hlt.
  set (d := bytes_of (TCP_Data t)) in *. pose proof (len_nonneg d).
  set (data := TCP_header_bytes t ++ d).
  assert (L : len data = 20 + len d) by (subst data; rewrite len_app; reflexivity).
  rewrite (TCP_UnmarshalBinary_long r data) by lia.
  change (firstn 2 data) with (be_bytes16 (TCP_PortSrc t)).
  change (firstn 2 (skipn 2 data)) with (be_bytes16 (TCP_PortDst t)).
  change (firstn 4 (skipn 4 data)) with (be_bytes32 (TCP_SeqNum t)).
  change (firstn 4 (skipn 8 data)) with (be_bytes32 (TCP_AckNum t)).
  change (nth 12 data 0) with (Z.land (wrap8 (Z.shiftl (TCP_HdrLen t) 4)) 0xf0).
  change (nth 13 data 0) with (Z.land (TCP_Code t) 0x3f).
  change (firstn 2 (skipn 14 data)) with (be_bytes16 (TCP_WinSize t)).
  change (firstn 2 (skipn 16 data)) with (be_bytes16 (TCP_Checksum t)).
  change (firstn 2 (skipn 18 data)) with (be_bytes16 (TCP_UrgFlag t)).
  change (skipn 20 data) with d.
  destruct (tcp_nibbles (TCP_HdrLen t) (TCP_Code t) T5 T6) as [N1 N2].
  rewrite N1, N2, !be_value_bytes16, !be_value_bytes32.
  rewrite !wrap16_small, !wrap32_small by assumption.
  unfold TCP_read_back. fold d. rewrite L.
  destruct (len d =? 0) eqn:E.
  - apply Z.eqb_eq in E. rewrite E. reflexivity.
  - apply Z.eqb_neq in E. destruct (20 <? 20 + len d) eqn:E2; [reflexivity | lia].
Qed.

(** X18: a TCP header whose fields hold values of their Go types, with
    fewer than 65516 bytes of Data, is marshaled to [Len] bytes, which
    read back as the same header with the header length cut to four bits
    and the code to six; so a header with HdrLen below 16, Code below 64
    and non-nil Data comes back equal from a receiver made by NewTCP. *)
Theorem tcp_round_trip (t r : TCP) :
  TCP_typed t -> 20 + len (bytes_of (TCP_Data t)) < 65536 ->
  exists b, TCP_MarshalBinary t = Ok b /\ len b = TCP_Len t /\
            TCP_UnmarshalBinary r b = Ok (TCP_read_back t r, None) /\
            (TCP_HdrLen t < 16 -> TCP_Code t < 64 -> TCP_Data t <> None ->
             TCP_UnmarshalBinary NewTCP b = Ok (t, None)).
Proof.
  intros T Hlt. pose proof (len_nonneg (bytes_of (TCP_Data t))).
  exists (TCP_header_bytes t ++ bytes_of (TCP_Data t)).
  split; [now apply TCP_MarshalBinary_bytes |]. split.
  - rewrite len_app. change (len (TCP_header_bytes t)) with 20.
    unfold TCP_Len. destruct (TCP_Data t) as [l |]; cbn [bytes_of] in *.
    + symmetry. apply wrap16_small. lia.
    + reflexivity.
  - split; [now apply TCP_round_trip_bytes |].
    intros Hh Hc Hd. rewrite (TCP_round_trip_bytes t NewTCP T Hlt). f_equal. f_equal.
    destruct T as (_ & _ & _ & _ & T5 & T6 & _).
    unfold TCP_read_back, is_uint8 in *.
    rewrite (Z.mod_small (TCP_HdrLen t) 16), (Z.mod_small (TCP_Code t) 64) by lia.
    destruct t as [ps pd sq ak hl cd ws ck ug [l |]]; [| contradiction].
    cbn [TCP_Data bytes_of TCP_PortSrc TCP_PortDst TCP_SeqNum TCP_AckNum TCP_HdrLen
           TCP_Code TCP_WinSize TCP_Checksum TCP_UrgFlag NewTCP].
    destruct l as [| a l]; reflexivity.
Qed.

Lemma tcp_round_trip_witness :
  exists b,
    TCP_MarshalBinary (mkTCP 80 8080 1 2 7 16 512 0 0 (Some [1; 2; 3; 4; 5; 6; 7; 8])) = Ok b /\
    len b = TCP_Len (mkTCP 80 8080 1 2 7 16 512 0 0 (Some [1; 2; 3; 4; 5; 6; 7; 8])) /\
    TCP_UnmarshalBinary new_TCP b
    = Ok (TCP_read_back (mkTCP 80 8080 1 2 7 16 512 0 0 (Some [1; 2; 3; 4; 5; 6; 7; 8])) new_TCP,
          None) /\
    (7 < 16 -> 16 < 64 -> Some [1; 2; 3; 4; 5; 6; 7; 8] <> None ->
     TCP_UnmarshalBinary NewTCP b
     = Ok (mkTCP 80 8080 1 2 7 16 512 0 0 (Some [1; 2; 3; 4; 5; 6; 7; 8]), None)).
Proof.
  apply (tcp_round_trip (mkTCP 80 8080 1 2 7 16 512 0 0 (Some [1; 2; 3; 4; 5; 6; 7; 8]))
           new_TCP).
  - unfold TCP_typed, is_uint16, is_uint32, is_uint8. cbn. lia.
  - cbn. lia.
Defined.

(** X19: [TCP.Len] is a uint16.  With 65516 to 65535 bytes of Data the
    length wraps around to less than 20, the buffer [MarshalBinary] makes
    is too short for the header, and it panics. *)
Theorem tcp_marshal_panics_on_long_data (t : TCP) (d : list Z) :
  TCP_Data t = Some d -> 65516 <= len d < 65536 ->
  TCP_Len t = len d - 65516 /\ exists p, TCP_MarshalBinary t = Panic p.
Proof.
  intros Hd Hlen.
  assert (HL : TCP_Len t = len d - 65516).
  { unfold TCP_Len. rewrite Hd. unfold wrap16. symmetry.
    apply (Z.mod_unique _ _ 1); lia. }
  split; [exact HL |].
  unfold TCP_MarshalBinary. rewrite HL.
  assert (K : exists k, (k < 20)%nat /\ make (len d - 65516) = repeat 0 k).
  { exists (Z.to_nat (len d - 65516)). split; [lia | reflexivity]. }
  destruct K as (k & Hk & ->).
  do 20 (destruct k as [| k]; [eexists; reflexivity |]). lia.
Qed.

Lemma tcp_marshal_panics_on_long_data_witness :
  TCP_Len (mkTCP 80 8080 1 2 5 16 512 0 0 (Some (repeat 0 (Z.to_nat 65520))))
  = len (repeat 0 (Z.to_nat 65520)) - 65516 /\
  exists p, TCP_MarshalBinary (mkTCP 80 8080 1 2 5 16 512 0 0
                                 (Some (repeat 0 (Z.to_nat 65520)))) = Panic p.
Proof.
  apply (tcp_marshal_panics_on_long_data
           (mkTCP 80 8080 1 2 5 16 512 0 0 (Some (repeat 0 (Z.to_nat 65520))))
           (repeat 0 (Z.to_nat 65520))).
  - reflexivity.
  - vm_compute. split; [discriminate | reflexivity].
Defined.

(** ** The frame reader, whatever it reads *)

Lemma frames_loop_safe (fuel : nat) :
  forall (buf : list Z) (totalLen : Z),
    Forall safe_event (fst (frames_loop fuel buf totalLen)) /\
    match snd (frames_loop fuel buf totalLen) with
    | Returned => True
    | _ => Forall is_dispatch (fst (frames_loop fuel buf totalLen))
    end.
Proof.
  induction fuel as [| fuel IH]; intros buf totalLen; cbn [frames_loop].
  - destruct (len buf <? 4); split; constructor.
  - destruct (len buf <? 4); [split; constructor |].
    destruct (if totalLen =? 0 then read_header buf else HeaderDone buf totalLen)
      as [b t | t | b t]; [split; constructor | split; [repeat constructor | exact I] |].
    destruct (len b <? t); [split; constructor |].
    destruct (t <? 0); [split; constructor |].
    destruct (read_xid (firstn (Z.to_nat t) b)) as [xid | e | p] eqn:X;
      [| split; [constructor | exact I] | split; constructor].
    specialize (IH (skipn (Z.to_nat t) b) 0).
    destruct (frames_loop fuel (skipn (Z.to_nat t) b) 0) as [evs st].
    cbn [fst snd] in *. destruct IH as [S D]. split.
    + constructor; [| exact S]. split.
      * apply Z.mod_pos_bound. reflexivity.
      * exact (read_xid_ok _ _ X).
    + destruct st; try exact I; constructor; try exact I; exact D.
Qed.

Lemma inbound_loop_safe (buf : list Z) (totalLen : Z) : safe_run (inbound_loop buf totalLen).
Proof.
  unfold safe_run, inbound_loop.
  destruct (frames_loop_safe (S (length buf)) buf totalLen) as [S D].
  split; [exact S |]. split; [| exact D].
  apply frames_loop_terminates. lia.
Qed.

Lemma inbound_from_safe (reads : list read_result) :
  forall (buf : list Z) (totalLen : Z), safe_run (inbound_from reads buf totalLen).
Proof.
  induction reads as [| r reads IH]; intros buf totalLen; cbn [inbound_from].
  - split; [constructor |]. split; [discriminate | constructor].
  - destruct r as [chunk | closed].
    + pose proof (inbound_loop_safe (buf ++ chunk) totalLen) as (S & F & D).
      destruct (inbound_loop (buf ++ chunk) totalLen) as [evs st]. cbn [fst snd] in *.
      destruct st as [buf' totalLen' | | p |].
      * specialize (IH buf' totalLen').
        destruct (inbound_from reads buf' totalLen') as [evs' st'].
        destruct IH as (S' & F' & D'). cbn [fst snd] in *.
        split; [apply Forall_app; now split |]. split; [exact F' |].
        destruct st'; try exact I; apply Forall_app; now split.
      * split; [exact S |]. split; [discriminate | exact I].
      * split; [exact S |]. split; [discriminate | exact D].
      * exfalso. now apply F.
    + destruct closed.
      * split; [constructor |]. split; [discriminate | exact I].
      * split; [repeat constructor |]. split; [discriminate | exact I].
Qed.

(** X20: whatever [conn.Read] returns, call after call, every message the
    reader hands to a worker holds at least the 8 bytes of a header and
    goes to a worker key from 0 to 24; the inner loop comes to an end at
    every read; and an error is published only by a reader that returns:
    while it keeps reading, or when it panics, all it has done is
    dispatch. *)
Theorem reader_dispatches_safely (reads : list read_result) : safe_run (inbound reads).
Proof. apply inbound_from_safe. Qed.

Lemma frames_loop_conserves (fuel : nat) :
  forall (buf : list Z) (totalLen : Z) (evs : list event) (buf' : list Z) (totalLen' : Z),
    frames_loop fuel buf totalLen = (evs, Reading buf' totalLen') ->
    dispatched_len evs + len buf' = len buf.
Proof.
  induction fuel as [| fuel IH]; intros buf totalLen evs buf' totalLen' H;
    cbn [frames_loop] in H.
  - destruct (len buf <? 4); [| discriminate]. injection H as <- <- _. reflexivity.
  - destruct (len buf <? 4); [injection H as <- <- _; reflexivity |].
    destruct (if totalLen =? 0 then read_header buf else HeaderDone buf totalLen)
      as [b t | t | b t] eqn:Hdr; [| discriminate |].
    + injection H as <- <- _. cbn [dispatched_len].
      destruct (totalLen =? 0); [| discriminate].
      unfold read_header in Hdr.
      assert (C : forall b0 t0, check_min_len b0 t0 <> HeaderBreak b t)
        by (intros b0 t0; unfold check_min_len; destruct (t0 <? 8); discriminate).
      destruct (nth 1 buf 0 =? 4); [| now apply C in Hdr].
      destruct (len buf <? 16); [now injection Hdr as <- _ |].
      destruct (be32_at buf 12 =? 30); [| now apply C in Hdr].
      destruct (len buf <? 20); [now injection Hdr as <- _ |].
      destruct (be16_at buf 16 =? 0); [| now apply C in Hdr].
      destruct (be16_at buf 2 <? be16_at buf 18); now apply C in Hdr.
    + assert (L : len b = len buf).
      { unfold len. f_equal.
        destruct (totalLen =? 0); [now apply read_header_length in Hdr |].
        now injection Hdr as <- _. }
      destruct (len b <? t) eqn:Lt; [injection H as <- <- _; cbn [dispatched_len]; lia |].
      destruct (t <? 0) eqn:Neg; [discriminate |].
      destruct (read_xid (firstn (Z.to_nat t) b)) as [xid | e | p]; try discriminate.
      destruct (frames_loop fuel (skipn (Z.to_nat t) b) 0) as [evs0 st0] eqn:Rec.
      injection H as <- ->.
      specialize (IH _ _ _ _ _ Rec). cbn [dispatched_len].
      apply Z.ltb_ge in Lt. apply Z.ltb_ge in Neg.
      rewrite len_firstn by lia. rewrite len_skipn in IH by lia. lia.
Qed.

Lemma inbound_from_conserves (reads : list read_result) :
  forall (buf : list Z) (totalLen : Z) (evs : list event) (buf' : list Z) (totalLen' : Z),
    inbound_from reads buf totalLen = (evs, Reading buf' totalLen') ->
    dispatched_len evs + len buf' = len buf + read_len reads.
Proof.
  assert (A : forall a b, dispatched_len (a ++ b) = dispatched_len a + dispatched_len b).
  { induction a as [| e a IH]; intros b; cbn [app dispatched_len]; [reflexivity |].
    destruct e; rewrite IH; lia. }
  induction reads as [| r reads IH]; intros buf totalLen evs buf' totalLen' H;
    cbn [inbound_from read_len] in *.
  - injection H as <- <- _. cbn [dispatched_len]. lia.
  - destruct r as [chunk | closed].
    + destruct (inbound_loop (buf ++ chunk) totalLen) as [evs0 st0] eqn:E.
      destruct st0 as [b0 t0 | | p |]; try discriminate.
      destruct (inbound_from reads b0 t0) as [evs1 st1] eqn:E1.
      injection H as <- ->.
      specialize (IH _ _ _ _ _ E1).
      pose proof (frames_loop_conserves _ _ _ _ _ _ E) as C.
      rewrite len_app in C. rewrite A. lia.
    + destruct closed; discriminate.
Qed.

(** X21: the reader neither loses nor repeats a byte.  Whenever it is back
    waiting for input, the bytes of the messages it has dispatched and the
    bytes still in its buffer add up to the bytes it has read. *)
Theorem reader_conserves_bytes (reads : list read_result) (evs : list event)
    (buf : list Z) (totalLen : Z) :
  inbound reads = (evs, Reading buf totalLen) ->
  dispatched_len evs + len buf = read_len reads.
Proof.
  intros H. pose proof (inbound_from_conserves reads [] 0 evs buf totalLen H) as C.
  change (len []) with 0 in C. lia.
Qed.

Lemma reader_conserves_bytes_witness :
  dispatched_len [Dispatch 7 [6; 0; 0; 8; 0; 0; 0; 7]] + len [6; 4; 0] = 
  read_len [ReadBytes [6; 0; 0; 8; 0; 0]; ReadBytes [0; 7; 6; 4; 0]].
Proof.
  apply (reader_conserves_bytes [ReadBytes [6; 0; 0; 8; 0; 0]; ReadBytes [0; 7; 6; 4; 0]]
           [Dispatch 7 [6; 0; 0; 8; 0; 0; 0; 7]] [6; 4; 0] 0).
  reflexivity.
Defined.

Lemma read_xid_short (msgBytes : list Z) :
  len msgBytes < 8 -> exists p, read_xid msgBytes = Panic p.
Proof.
  intros H. unfold read_xid, slice_from.
  destruct ((0 <=? 4) && (4 <=? len msgBytes)) eqn:E;
    cbv beta iota delta [bind]; [| now eexists].
  unfold BigEndian_Uint32.
  destruct (len (skipn (Z.to_nat 4) msgBytes) <? 4) eqn:E2; [now eexists |].
  apply Z.ltb_ge in E2. unfold len in *. rewrite length_skipn in E2. lia.
Qed.

(** X22: the minimum-length check is skipped for an Experimenter header
    that arrives in a read of fewer than 16 bytes.  If it declares a
    length of 1 to 7, the next read makes the reader cut a message of that
    length and panic reading its transaction id: nothing is dispatched and
    no error is published. *)
Theorem reader_panics_on_short_experimenter (first rest : list Z) :
  4 <= len first < 16 -> frame_type first = 4 ->
  0 < frame_declared_len first < 8 ->
  frame_declared_len first <= len (first ++ rest) ->
  exists p, inbound [ReadBytes first; ReadBytes rest] = ([], Panicked p).
Proof.
  intros H4 Ht Hd Hr. unfold inbound. cbn [inbound_from]. unfold inbound_loop.
  set (d := frame_declared_len first) in *.
  assert (R1 : frames_loop (S (length ([] ++ first))) ([] ++ first) 0
               = ([], Reading first d)).
  { cbn [app frames_loop]. destruct (len first <? 4) eqn:B4; [lia |].
    cbn [Z.eqb]. unfold read_header. unfold frame_type in Ht. rewrite Ht.
    cbn [Z.eqb Pos.eqb]. destruct (len first <? 16) eqn:B16; [reflexivity | lia]. }
  rewrite R1.
  assert (L : 4 <= len (first ++ rest))
    by (rewrite len_app; pose proof (len_nonneg rest); lia).
  destruct (read_xid_short (firstn (Z.to_nat d) (first ++ rest))) as (p & X).
  { rewrite len_firstn by lia. lia. }
  exists p. cbn [frames_loop].
  destruct (len (first ++ rest) <? 4) eqn:B4; [lia |].
  destruct (d =? 0) eqn:D0; [lia |].
  destruct (len (first ++ rest) <? d) eqn:Bd; [lia |].
  destruct (d <? 0) eqn:Dn; [lia |].
  rewrite X. reflexivity.
Qed.

Lemma reader_panics_on_short_experimenter_witness :
  exists p, inbound [ReadBytes [6; 4; 0; 5; 0; 0]; ReadBytes [0; 1]] = ([], Panicked p).
Proof.
  apply (reader_panics_on_short_experimenter [6; 4; 0; 5; 0; 0] [0; 1]).
  - vm_compute. split; [discriminate | reflexivity].
  - reflexivity.
  - vm_compute. split; reflexivity.
  - vm_compute. discriminate.
Defined.

(** ** Fields of the Experimenter class *)

Lemma experimenter_decode (field length : Z) (hasMask : bool) (tl : list Z) (v : Message) :
  DecodeMatchField OXM_CLASS_EXPERIMENTER field length hasMask tl = Ok v ->
  exists y, BigEndian_Uint16 tl = Ok y /\ v = TcpFlagsField y.
Proof.
  rewrite DecodeMatchField_by_cases.
  change (class_cases OXM_CLASS_EXPERIMENTER length hasMask) with (Some experimenter_cases).
  unfold experimenter_cases. cbn [switch].
  destruct (field =? OXM_FIELD_TCP_FLAGS); [| discriminate].
  cbn [call_UnmarshalBinary Message_UnmarshalBinary].
  destruct (BigEndian_Uint16 tl) as [y | |]; cbv beta iota delta [bind]; try discriminate.
  intros H. apply Ok_inj in H. now exists y.
Qed.

Lemma slice_from_inv (data tl : list Z) (i : Z) :
  slice_from data i = Ok tl -> tl = skipn (Z.to_nat i) data.
Proof.
  unfold slice_from. destruct ((0 <=? i) && (i <=? len data)); [| discriminate].
  intros H. apply Ok_inj in H. now subst.
Qed.

(** What [MatchField.UnmarshalBinary] has read when it returns a field of
    the Experimenter class: the ONF id right after the header, and behind
    it the only payload the class decodes, TCP flags, for value and mask. *)
Lemma MatchField_UnmarshalBinary_experimenter (m f' : MatchField) (fb length : Z)
    (rest : list Z) :
  MatchField_UnmarshalBinary m (be_bytes16 OXM_CLASS_EXPERIMENTER ++ [fb; length] ++ rest)
  = Ok f' ->
  BigEndian_Uint32 rest = Ok ONF_EXPERIMENTER_ID /\
  MatchField_ExperimenterID f' = ONF_EXPERIMENTER_ID /\
  exists y, BigEndian_Uint16 (skipn 4 rest) = Ok y /\
            MatchField_Value f' = Some (TcpFlagsField y) /\
            (MatchField_HasMask f' = true ->
             exists z, BigEndian_Uint16 (skipn 6 rest) = Ok z /\
                       MatchField_Mask f' = Some (TcpFlagsField z)).
Proof.
  set (data := be_bytes16 OXM_CLASS_EXPERIMENTER ++ [fb; length] ++ rest).
  unfold MatchField_UnmarshalBinary.
  assert (S0 : slice_from data 0 = Ok data) by exact (slice_from_at [] data 0 eq_refl).
  assert (U : BigEndian_Uint16 data = Ok OXM_CLASS_EXPERIMENTER)
    by (apply Uint16_of_bytes; unfold is_uint16, OXM_CLASS_EXPERIMENTER; lia).
  assert (I2 : index data (0 + 2) = Ok fb)
    by exact (index_at (be_bytes16 OXM_CLASS_EXPERIMENTER) _ (length :: rest) (0 + 2) eq_refl).
  assert (I3 : index data (0 + 2 + 1) = Ok length)
    by exact (index_at (be_bytes16 OXM_CLASS_EXPERIMENTER ++ [fb]) length rest
                (0 + 2 + 1) eq_refl).
  assert (S4 : slice_from data (0 + 2 + 1 + 1) = Ok rest)
    by exact (slice_from_at (be_bytes16 OXM_CLASS_EXPERIMENTER ++ [fb; length]) rest
                (0 + 2 + 1 + 1) eq_refl).
  rewrite S0. cbv beta iota zeta delta [bind]. rewrite U, I2, I3.
  change (OXM_CLASS_EXPERIMENTER =? OXM_CLASS_EXPERIMENTER) with true. cbv iota.
  rewrite S4.
  destruct (BigEndian_Uint32 rest) as [e | |]; try discriminate.
  destruct (e =? ONF_EXPERIMENTER_ID) eqn:Ee; [| discriminate].
  apply Z.eqb_eq in Ee. subst e. cbv beta iota delta [fst snd].
  change (wrap16 (0 + 2 + 1 + 1 + 4)) with 8.
  destruct (slice_from data 8) as [tl | |] eqn:S8; try discriminate.
  apply slice_from_inv in S8. change (skipn (Z.to_nat 8) data) with (skipn 4 rest) in S8.
  subst tl.
  destruct (DecodeMatchField OXM_CLASS_EXPERIMENTER (Z.shiftr fb 1) length
              (Z.land fb 1 =? 1) (skipn 4 rest)) as [value | |] eqn:Dv; try discriminate.
  destruct (experimenter_decode _ _ _ _ _ Dv) as (y & Ey & ->).
  change (wrap16 (8 + Message_Len (TcpFlagsField y))) with 10.
  destruct (Z.land fb 1 =? 1).
  - destruct (slice_from data 10) as [tl | |] eqn:S10; try discriminate.
    apply slice_from_inv in S10.
    change (skipn (Z.to_nat 10) data) with (skipn 6 rest) in S10. subst tl.
    destruct (DecodeMatchField OXM_CLASS_EXPERIMENTER (Z.shiftr fb 1) length true
                (skipn 6 rest)) as [mask | |] eqn:Dm; try discriminate.
    destruct (experimenter_decode _ _ _ _ _ Dm) as (z & Ez & ->).
    intros H. apply Ok_inj in H. subst f'.
    cbn [MatchField_ExperimenterID MatchField_Value MatchField_HasMask MatchField_Mask].
    split; [reflexivity |]. split; [reflexivity |].
    exists y. split; [exact Ey |]. split; [reflexivity |]. intros _. now exists z.
  - intros H. apply Ok_inj in H. subst f'.
    cbn [MatchField_ExperimenterID MatchField_Value MatchField_HasMask MatchField_Mask].
    split; [reflexivity |]. split; [reflexivity |].
    exists y. split; [exact Ey |]. split; [reflexivity |]. discriminate.
Qed.

(** X23: no field of the Experimenter class comes back from its bytes.
    [MarshalBinary] leaves room for the experimenter id but never writes
    it, so [UnmarshalBinary] looks for the id in the bytes of the value,
    and for the value in the zero bytes behind it: the round trip fails or
    gives a different field. *)
Theorem experimenter_field_never_round_trips (f : MatchField) :
  MatchField_typed f -> MatchField_Class f = OXM_CLASS_EXPERIMENTER ->
  field_round_trip f <> Ok f.
Proof.
  intros T Hc H. unfold field_round_trip in H.
  destruct (MatchField_Len f) as [n | |] eqn:HL;
    try (unfold MatchField_MarshalBinary in H; rewrite HL in H; discriminate).
  destruct (MatchField_Len_inv f n T HL) as (v & Hv & Hm).
  assert (C : MatchField_complete f).
  { split; [congruence |]. intros Hh. rewrite Hh in Hm.
    destruct Hm as (mk & -> & _). discriminate. }
  rewrite (MatchField_MarshalBinary_layout f v T C Hv) in H.
  cbv beta iota delta [bind] in H. rewrite Hc in H.
  apply MatchField_UnmarshalBinary_experimenter in H.
  destruct H as (E32 & Hid & y & E16 & Hval & Hmask).
  rewrite Hv in Hval. injection Hval as ->.
  assert (Hroom : experimenter_room f = [0; 0; 0; 0])
    by (unfold experimenter_room; rewrite Hid; reflexivity).
  rewrite Hroom in E32, E16.
  unfold mask_payload in E32, E16.
  destruct (MatchField_HasMask f) eqn:Hh.
  - destruct (Hmask eq_refl) as (z & _ & Hz). rewrite Hz in E32, E16.
    change (BigEndian_Uint16
              (skipn 4 (Message_MarshalBinary (TcpFlagsField y)
                        ++ Message_MarshalBinary (TcpFlagsField z) ++ [0; 0; 0; 0])))
      with (@Ok Z 0) in E16.
    apply Ok_inj in E16. subst y.
    change (BigEndian_Uint32
              (Message_MarshalBinary (TcpFlagsField 0)
               ++ Message_MarshalBinary (TcpFlagsField z) ++ [0; 0; 0; 0]))
      with (Ok (be_value (be_bytes16 z))) in E32.
    apply Ok_inj in E32. rewrite be_value_bytes16 in E32.
    pose proof (Z.mod_pos_bound z 65536 ltac:(lia)) as B.
    unfold wrap16, ONF_EXPERIMENTER_ID in E32. lia.
  - change (BigEndian_Uint16
              (skipn 4 (Message_MarshalBinary (TcpFlagsField y) ++ [] ++ [0; 0; 0; 0])))
      with (@Ok Z 0) in E16.
    apply Ok_inj in E16. subst y.
    change (BigEndian_Uint32
              (Message_MarshalBinary (TcpFlagsField 0) ++ [] ++ [0; 0; 0; 0]))
      with (@Ok Z 0) in E32.
    discriminate E32.
Qed.

Lemma experimenter_field_never_round_trips_witness :
  field_round_trip (mkMatchField OXM_CLASS_EXPERIMENTER OXM_FIELD_TCP_FLAGS false 6
                      ONF_EXPERIMENTER_ID (Some (TcpFlagsField 18)) None)
  <> Ok (mkMatchField OXM_CLASS_EXPERIMENTER OXM_FIELD_TCP_FLAGS false 6
           ONF_EXPERIMENTER_ID (Some (TcpFlagsField 18)) None).
Proof.
  apply (experimenter_field_never_round_trips
           (mkMatchField OXM_CLASS_EXPERIMENTER OXM_FIELD_TCP_FLAGS false 6
              ONF_EXPERIMENTER_ID (Some (TcpFlagsField 18)) None)).
  - split; exact I.
  - reflexivity.
Defined.

(** ** IPv4 builders on an address that is not IPv4 *)

Lemma four_bytes (q : list Z) :
  length q = 4%nat -> exists a b c d, q = [a; b; c; d].
Proof.
  intros H. destruct q as [| a [| b [| c [| d [| e r]]]]]; try discriminate.
  now exists a, b, c, d.
Qed.

Lemma ipv4_wire_round_trip (class field : Z) (ctor : list Z -> Message) (ip : list Z) :
  (class = OXM_CLASS_OPENFLOW_BASIC /\ field = OXM_FIELD_IPV4_SRC /\ ctor = Ipv4SrcField) \/
  (class = OXM_CLASS_OPENFLOW_BASIC /\ field = OXM_FIELD_IPV4_DST /\ ctor = Ipv4DstField) \/
  (class = OXM_CLASS_NXM_1 /\ field = NXM_NX_TUN_IPV4_SRC /\ ctor = TunnelIpv4SrcField) \/
  (class = OXM_CLASS_NXM_1 /\ field = NXM_NX_TUN_IPV4_DST /\ ctor = TunnelIpv4DstField) \/
  (class = OXM_CLASS_OPENFLOW_BASIC /\
   (field = OXM_FIELD_ARP_TPA \/ field = OXM_FIELD_ARP_SPA) /\ ctor = ArpXPaField) ->
  field_round_trip (with_mask class field false (ctor ip) None)
  = Ok (with_mask class field false (ctor (v4InV6Prefix ++ copy (make 4) (To4 ip))) None).
Proof.
  intros H.
  assert (D : forall x, Message_UnmarshalBinary (ctor []) (Message_MarshalBinary (ctor ip) ++ x)
                        = Ok (ctor (v4InV6Prefix ++ copy (make 4) (To4 ip)))).
  { intros x.
    assert (M : Message_MarshalBinary (ctor ip) = copy (make 4) (To4 ip)).
    { destruct H as [(_ & _ & ->) | [(_ & _ & ->) | [(_ & _ & ->) | [(_ & _ & ->)
                   | (_ & _ & ->)]]]]; reflexivity. }
    rewrite M.
    destruct (four_bytes (copy (make 4) (To4 ip)) (length_copy _ _)) as (a & b & c & d & ->).
    pose proof (read_IPv4_of_bytes a b c d x) as R.
    assert (G : (len ([a; b; c; d] ++ x) <? 4) = false) by (apply len_ge_app; cbn; lia).
    destruct H as [(_ & _ & ->) | [(_ & _ & ->) | [(_ & _ & ->) | [(_ & _ & ->)
                 | (_ & _ & ->)]]]];
      cbn [Message_UnmarshalBinary]; rewrite ?G, R; reflexivity. }
  assert (Hc : is_uint16 class /\ class <> OXM_CLASS_EXPERIMENTER /\ 0 <= field < 128).
  { destruct H as [(-> & -> & _) | [(-> & -> & _) | [(-> & -> & _) | [(-> & -> & _)
                 | (-> & [-> | ->] & _)]]]]; closed_side. }
  destruct Hc as (Hc & Hx & Hf).
  assert (Hs : forall length hasMask,
             match class_cases class length hasMask with
             | Some cases => switch field cases = Some (Some (ctor []))
             | None => False
             end).
  { intros length hasMask.
    destruct H as [(-> & -> & ->) | [(-> & -> & ->) | [(-> & -> & ->) | [(-> & -> & ->)
                 | (-> & [-> | ->] & ->)]]]]; reflexivity. }
  assert (Tc : forall a, Message_typed (ctor a)).
  { intros a.
    destruct H as [(_ & _ & ->) | [(_ & _ & ->) | [(_ & _ & ->) | [(_ & _ & ->) | (_ & _ & ->)]]]];
      exact I. }
  assert (Lc : forall a b, Message_Len (ctor a) = Message_Len (ctor b)).
  { intros a b.
    destruct H as [(_ & _ & ->) | [(_ & _ & ->) | [(_ & _ & ->) | [(_ & _ & ->) | (_ & _ & ->)]]]];
      reflexivity. }
  etransitivity.
  - apply (built_field_round_trip class field false (ctor ip) None (ctor [])
             (ctor (v4InV6Prefix ++ copy (make 4) (To4 ip))) None);
      try built_field_sides; try assumption; try apply Tc; try apply Lc; exact I.
  - unfold with_mask. cbn [MatchField_HasMask MatchField_Length]. unfold uint8_Len.
    rewrite (Lc ip (v4InV6Prefix ++ copy (make 4) (To4 ip))). reflexivity.
Qed.

(** X24: an address that is not IPv4 (neither 4 bytes long nor a 16-byte
    IPv4-mapped address) given to one of the IPv4 builders is written as
    0.0.0.0 without any error, and that is the address read back. *)
Theorem ipv4_builders_zero_other_addresses (ip : list Z) :
  To4 ip = [] ->
  let zero := net_IPv4 0 0 0 0 in
  value_payload (NewIpv4SrcField ip None) = Ok [0; 0; 0; 0] /\
  field_round_trip (NewIpv4SrcField ip None) = Ok (NewIpv4SrcField zero None) /\
  field_round_trip (NewIpv4DstField ip None) = Ok (NewIpv4DstField zero None) /\
  field_round_trip (NewTunnelIpv4SrcField ip None) = Ok (NewTunnelIpv4SrcField zero None) /\
  field_round_trip (NewTunnelIpv4DstField ip None) = Ok (NewTunnelIpv4DstField zero None) /\
  field_round_trip (NewArpTpaField ip) = Ok (NewArpTpaField zero) /\
  field_round_trip (NewArpSpaField ip) = Ok (NewArpSpaField zero).
Proof.
  intros H. cbn zeta.
  assert (Z0 : v4InV6Prefix ++ copy (make 4) (To4 ip) = net_IPv4 0 0 0 0)
    by (rewrite H; reflexivity).
  unfold NewIpv4SrcField, NewIpv4DstField, NewTunnelIpv4SrcField, NewTunnelIpv4DstField,
    NewArpTpaField, NewArpSpaField. cbn [option_map].
  split.
  { unfold value_payload, with_mask. cbn [MatchField_Value call_MarshalBinary
      Message_MarshalBinary]. rewrite H. reflexivity. }
  rewrite <- Z0.
  split; [apply (ipv4_wire_round_trip _ _ Ipv4SrcField); tauto |].
  split; [apply (ipv4_wire_round_trip _ _ Ipv4DstField); tauto |].
  split; [apply (ipv4_wire_round_trip _ _ TunnelIpv4SrcField); tauto |].
  split; [apply (ipv4_wire_round_trip _ _ TunnelIpv4DstField); tauto |].
  split.
  - apply (ipv4_wire_round_trip _ OXM_FIELD_ARP_TPA ArpXPaField); tauto.
  - apply (ipv4_wire_round_trip _ OXM_FIELD_ARP_SPA ArpXPaField); tauto.
Qed.

Lemma ipv4_builders_zero_other_addresses_witness :
  value_payload (NewIpv4SrcField (repeat 1 16) None) = Ok [0; 0; 0; 0] /\
  field_round_trip (NewIpv4SrcField (repeat 1 16) None)
  = Ok (NewIpv4SrcField (net_IPv4 0 0 0 0) None).
Proof.
  pose proof (ipv4_builders_zero_other_addresses (repeat 1 16) eq_refl) as H.
  cbn zeta in H. split; [exact (proj1 H) | exact (proj1 (proj2 H))].
Defined.

(** ** The bytes of a field *)

(** X25: the bytes [MatchField.MarshalBinary] returns for a field that
    has its value and, when HasMask is set, its mask: the class on two
    bytes, the field number shifted left over the mask bit, the Length
    byte as stored, the bytes of the value, those of the mask, and, when
    the experimenter id is not zero, four zero bytes: the room [Len]
    counts for the id, which is never written. *)
Theorem field_wire_layout (f : MatchField) (v : Message) :
  MatchField_typed f -> MatchField_complete f -> MatchField_Value f = Some v ->
  exists b,
    MatchField_MarshalBinary f = Ok b /\ MatchField_Len f = Ok (len b) /\
    b = be_bytes16 (MatchField_Class f)
        ++ [fld_byte (MatchField_Field f) (MatchField_HasMask f); MatchField_Length f]
        ++ Message_MarshalBinary v ++ mask_payload f
        ++ (if MatchField_ExperimenterID f =? 0 then [] else [0; 0; 0; 0]).
Proof.
  intros T C Hv. eexists. split; [exact (MatchField_MarshalBinary_layout f v T C Hv) |].
  split; [| reflexivity].
  destruct (MatchField_Len f) as [n | e | p] eqn:HL.
  - destruct (MatchField_MarshalBinary_len f n T HL) as (d & Md & Ld).
    rewrite (MatchField_MarshalBinary_layout f v T C Hv) in Md.
    apply Ok_inj in Md. rewrite Md. now rewrite Ld.
  - pose proof (MatchField_MarshalBinary_layout f v T C Hv) as M.
    unfold MatchField_MarshalBinary in M. rewrite HL in M. discriminate.
  - pose proof (MatchField_MarshalBinary_layout f v T C Hv) as M.
    unfold MatchField_MarshalBinary in M. rewrite HL in M. discriminate.
Qed.

Lemma field_wire_layout_witness :
  exists b,
    MatchField_MarshalBinary
      (mkMatchField OXM_CLASS_EXPERIMENTER OXM_FIELD_TCP_FLAGS false 6 ONF_EXPERIMENTER_ID
         (Some (TcpFlagsField 18)) None) = Ok b /\
    MatchField_Len
      (mkMatchField OXM_CLASS_EXPERIMENTER OXM_FIELD_TCP_FLAGS false 6 ONF_EXPERIMENTER_ID
         (Some (TcpFlagsField 18)) None) = Ok (len b) /\
    b = [255; 255; 84; 6; 0; 18; 0; 0; 0; 0].
Proof.
  apply (field_wire_layout
           (mkMatchField OXM_CLASS_EXPERIMENTER OXM_FIELD_TCP_FLAGS false 6
              ONF_EXPERIMENTER_ID (Some (TcpFlagsField 18)) None)
           (TcpFlagsField 18)).
  - split; exact I.
  - split; discriminate.
  - reflexivity.
Defined.
